(** * The TypeScript syntax-lowering transformer (src/compiler/transformers/ts.ts)

    A shallow embedding of the parts of [transformTypeScript] that decide the
    scope tracking, the enum and namespace lowering, the class and decorator
    lowering, the bodyless-declaration elision, the decorator type metadata
    serializer, the elision of imports and exports and the substitutions at
    emit time, followed by the properties proved about them.

    Conventions of the embedding:
    - the mutable variables of the closure [transformTypeScript] are the
      fields of [TransformerState]; every function that reads or assigns
      them is a computation in the monad [M], which also carries the
      [Debug.fail] / [Debug.assert] aborts of the source;
    - object identity ([===] on nodes) is identity of [NodeId];
    - everything the source obtains from outside this file (the emit
      resolver, the compiler options, helpers of utilities.ts, the child
      visitors of the generic tree walk, the node factory's handling of the
      lexical environment) is a field of a record bound in a Section;
    - text ranges, comment ranges, source-map ranges and emit flags are
      printer metadata and are left out of the embedded nodes. *)

From Stdlib Require Import NArith Bool List Lia.
From stdpp Require Import base option strings list gmap.

#[local] Set Warnings "-register-all".

Local Open Scope string_scope.
Local Open Scope list_scope.
Local Open Scope N_scope.

(** ** Syntax *)

Abbreviation NodeId := positive.

(** [const enum TypeScriptSubstitutionFlags]. *)
Module TypeScriptSubstitutionFlags.
Definition ClassAliases : N := N.shiftl 1 0.
Definition NamespaceExports : N := N.shiftl 1 1.
Definition NonQualifiedEnumMembers : N := N.shiftl 1 3.
End TypeScriptSubstitutionFlags.

(** [const enum ClassFacts]. *)
Module ClassFacts.
Definition None : N := 0.
Definition HasStaticInitializedProperties : N := N.shiftl 1 0.
Definition HasConstructorDecorators : N := N.shiftl 1 1.
Definition HasMemberDecorators : N := N.shiftl 1 2.
Definition IsExportOfNamespace : N := N.shiftl 1 3.
Definition IsNamedExternalExport : N := N.shiftl 1 4.
Definition IsDefaultExternalExport : N := N.shiftl 1 5.
Definition IsDerivedClass : N := N.shiftl 1 6.
Definition UseImmediatelyInvokedFunctionExpression : N := N.shiftl 1 7.
Definition HasAnyDecorators : N :=
  N.lor HasConstructorDecorators HasMemberDecorators.
Definition NeedsName : N :=
  N.lor HasStaticInitializedProperties HasMemberDecorators.
Definition MayNeedImmediatelyInvokedFunctionExpression : N :=
  N.lor HasAnyDecorators HasStaticInitializedProperties.
Definition IsExported : N :=
  N.lor (N.lor IsExportOfNamespace IsDefaultExternalExport) IsNamedExternalExport.
End ClassFacts.

(** The truthiness of [facts & flag]. *)
Definition hasFlag (flags flag : N) : bool := negb (N.land flags flag =? 0).

(** [ScriptTarget] and [ModuleKind] of types.ts, with their numeric values
    (the source compares them with [<=] and [<]). *)
Inductive ScriptTarget :=
  ES3 | ES5 | ES2015 | ES2016 | ES2017 | ES2018 | ES2019 | ES2020 | ES2021
| ES2022 | ESNext.

Definition ScriptTarget_value (t : ScriptTarget) : N :=
  match t with
  | ES3 => 0 | ES5 => 1 | ES2015 => 2 | ES2016 => 3 | ES2017 => 4
  | ES2018 => 5 | ES2019 => 6 | ES2020 => 7 | ES2021 => 8 | ES2022 => 9
  | ESNext => 99
  end.

Definition target_le (a b : ScriptTarget) : bool :=
  ScriptTarget_value a <=? ScriptTarget_value b.
Definition target_lt (a b : ScriptTarget) : bool :=
  ScriptTarget_value a <? ScriptTarget_value b.

Module ModuleKind.
Inductive t :=
  None | CommonJS | AMD | UMD | System | ES2015 | ES2020 | ES2022 | ESNext
| Node12 | NodeNext.
Definition value (m : t) : N :=
  match m with
  | None => 0 | CommonJS => 1 | AMD => 2 | UMD => 3 | System => 4
  | ES2015 => 5 | ES2020 => 6 | ES2022 => 7 | ESNext => 99
  | Node12 => 100 | NodeNext => 199
  end.
Definition is_System (m : t) : bool :=
  match m with System => true | _ => false end.
Definition is_ES2015 (m : t) : bool :=
  match m with ES2015 => true | _ => false end.
Definition is_ES2020 (m : t) : bool :=
  match m with ES2020 => true | _ => false end.
Definition is_ES2022 (m : t) : bool :=
  match m with ES2022 => true | _ => false end.
Definition is_ESNext (m : t) : bool :=
  match m with ESNext => true | _ => false end.
End ModuleKind.

(** The modifier flags the transformer asks [hasSyntacticModifier] about. *)
Module ModifierFlags.
Inductive t := Export | Ambient | Abstract | Default | Static.
End ModifierFlags.

(** The kinds of node [onBeforeVisitNode] and [addVarForEnumOrModuleDeclaration]
    distinguish. *)
Module SyntaxKind.
Inductive t :=
| SourceFile | CaseBlock | ModuleBlock | Block
| ClassDeclaration | FunctionDeclaration
| EnumDeclaration | ModuleDeclaration
| Identifier | ShorthandPropertyAssignment
| PropertyAccessExpression | ElementAccessExpression
| Other (code : N).
End SyntaxKind.

(** Generated names of the node factory. *)
Inductive GeneratedName :=
| GeneratedNameForNode (node : NodeId)       (* factory.getGeneratedNameForNode *)
| UniqueName (text : string) (autoGenerateId : nat) (* factory.createUniqueName *)
| TempVariable (autoGenerateId : nat).       (* factory.createTempVariable *)

Inductive BinaryOperator :=
| EqualsToken | BarBarToken | AmpersandAmpersandToken
| ExclamationEqualsEqualsToken | EqualsEqualsEqualsToken.

Inductive VariableFlags := NodeFlags_None | NodeFlags_Let.

(** A node that a part of the tree walk outside this embedding returned
    (a visited modifier, heritage clause, parameter, property name, ...);
    the transformer only stores it in the node it builds. *)
Inductive VisitedNode := Visited (id : NodeId).

(** Nodes produced by the transformer. *)
Inductive Expression :=
| Identifier (escapedText : string)
| GeneratedIdentifier (name : GeneratedName)
| StringLiteral (text : string)
| NumericLiteral (text : string)
| VoidExpression (e : Expression)
| NullLiteral
| ThisExpression
| TypeOfExpression (e : Expression)
| BinaryExpression (left : Expression) (op : BinaryOperator) (right : Expression)
| ConditionalExpression (condition whenTrue whenFalse : Expression)
| PropertyAccessExpression (e : Expression) (name : Expression)
| ElementAccessExpression (e : Expression) (index : Expression)
| ObjectLiteralExpression
| ArrayLiteralExpression (elements : list Expression)
| CallExpression (callee : Expression) (arguments : list Expression)
| FunctionExpression (modifiers : list VisitedNode) (name : option Expression)
    (parameters : list ParameterOut) (body : Statement)
    (original : option NodeId)
| ImmediatelyInvokedArrowFunction (body : list Statement)
| ClassExpression (name : option Expression)
    (heritageClauses : list VisitedNode) (members : list ClassElementOut)
    (original : NodeId)
| DecorateHelper (decoratorExpressions : list Expression) (target : Expression)
    (memberName : option Expression) (descriptor : option Expression)
| ParamHelper (e : Expression) (parameterOffset : nat)
| MetadataHelper (key : string) (value : Expression)
| PartiallyEmittedExpression (e : Expression)
| OmittedExpression
| SourceExpression (id : NodeId)
with Statement :=
| ExpressionStatement (e : Expression) (original : option NodeId)
| VariableStatement (modifiers : list VisitedNode)
    (declarations : list (Expression * option Expression))
    (flags : VariableFlags) (original : option NodeId)
| ClassDeclarationStatement (modifiers : list VisitedNode) (name : option Expression)
    (heritageClauses : list VisitedNode) (members : list ClassElementOut)
    (original : NodeId)
| FunctionDeclarationStatement (modifiers : list VisitedNode) (name : option Expression)
    (parameters : list ParameterOut) (body : Statement) (original : NodeId)
| BlockStatement (statements : list Statement) (original : option NodeId)
| ReturnStatement (e : Expression)
| ExportDefault (e : Expression)
| ExternalModuleExport (e : Expression)
| NotEmittedStatement (original : NodeId)
| EndOfDeclarationMarker (original : NodeId)
| MergeDeclarationMarker (wrapped : Statement)
| SourceStatement (id : NodeId)
with ParameterOut :=
| CreatedParameter (name : Expression)        (* factory.createParameterDeclaration *)
| VisitedParameter (n : VisitedNode)
with PropertyNameOut :=
| CreatedPropertyName (name : Expression)
| UpdatedComputedPropertyName (original : NodeId) (e : Expression)
| VisitedPropertyName (n : VisitedNode)
with ClassElementOut :=
| PropertyDeclarationOut (modifiers : list VisitedNode) (name : PropertyNameOut)
    (initializer : option Expression) (original : NodeId)
| ConstructorOut (parameters : list ParameterOut) (body : option Statement)
    (original : NodeId)
| MethodOut (modifiers : list VisitedNode) (name : PropertyNameOut)
    (parameters : list ParameterOut) (body : option Statement) (original : NodeId)
| GetAccessorOut (modifiers : list VisitedNode) (name : PropertyNameOut)
    (parameters : list ParameterOut) (body : Statement) (original : NodeId)
| SetAccessorOut (modifiers : list VisitedNode) (name : PropertyNameOut)
    (parameters : list ParameterOut) (body : Statement) (original : NodeId)
| SourceClassElement (id : NodeId).

(** [VisitResult<T>]: a visitor returns [undefined], one node or an array. *)
Inductive VisitResult (A : Type) :=
| Undefined
| Single (node : A)
| Many (nodes : list A).
Arguments Undefined {A}.
Arguments Single {A} node.
Arguments Many {A} nodes.

(** [singleOrMany]. *)
Definition singleOrMany {A} (nodes : list A) : VisitResult A :=
  match nodes with
  | [node] => Single node
  | _ => Many nodes
  end.

(** [factory.createVoidZero()]. *)
Definition createVoidZero : Expression := VoidExpression (NumericLiteral "0").

Definition createAssignment (l r : Expression) : Expression :=
  BinaryExpression l EqualsToken r.
Definition createLogicalOr (l r : Expression) : Expression :=
  BinaryExpression l BarBarToken r.
Definition createLogicalAnd (l r : Expression) : Expression :=
  BinaryExpression l AmpersandAmpersandToken r.
Definition createStrictInequality (l r : Expression) : Expression :=
  BinaryExpression l ExclamationEqualsEqualsToken r.
(** [factory.createTypeCheck(value, tag)] is [typeof value === tag]. *)
Definition createTypeCheck (value : Expression) (tag : string) : Expression :=
  BinaryExpression (TypeOfExpression value) EqualsEqualsEqualsToken (StringLiteral tag).
(** [factory.createBlock([])]. *)
Definition createEmptyBlock : Statement := BlockStatement [] None.

(** [isIdentifier]: plain and generated identifiers both have kind
    [SyntaxKind.Identifier]. *)
Definition isIdentifier (e : Expression) : bool :=
  match e with
  | Identifier _ | GeneratedIdentifier _ => true
  | _ => false
  end.

(** [escapedText] of an identifier; a generated identifier carries the
    empty text until it is printed. *)
Definition escapedText (e : Expression) : string :=
  match e with
  | Identifier s => s
  | _ => ""
  end.

(** [valueExpression.kind === SyntaxKind.StringLiteral]. *)
Definition isStringLiteral (e : Expression) : bool :=
  match e with StringLiteral _ => true | _ => false end.

(** ** The input tree *)

Inductive PropertyName :=
| IdentifierName (id : NodeId) (text : string)
| PrivateIdentifierName (id : NodeId) (text : string)
| ComputedPropertyName (id : NodeId) (expression : NodeId)
| StringLiteralName (id : NodeId) (text : string)
| NumericLiteralName (id : NodeId) (text : string).

Record Decorator := { decorator_expression : NodeId }.

Inductive EntityName :=
| EntityIdentifier (text : string)
| QualifiedName (left : EntityName) (right : string).

Inductive LiteralKind :=
| LitStringLiteral | LitNoSubstitutionTemplateLiteral
| LitPrefixUnaryExpression | LitNumericLiteral | LitBigIntLiteral
| LitTrueKeyword | LitFalseKeyword | LitNullKeyword
| LitOther (kind : N).

(** Some kinds of type node that the [switch] of [serializeTypeNode] does
    not list. *)
Inductive UnlistedTypeKind :=
| TemplateLiteralType | InferType | OptionalType | RestType | NamedTupleMember
| UnlistedKind (code : N).

(** The [operator] of a type operator node ([keyof], [unique], [readonly]). *)
Inductive TypeOperatorKind := KeyOfOperator | UniqueOperator | ReadonlyOperator.

(** Type annotations, by [kind]. Children that the serializer never reads
    (element types, signatures, type arguments, the check and extends types
    of a conditional type) are not represented. [inConditionalBranch] of a
    type reference is the answer of the [findAncestor] query that
    [serializeTypeReferenceNode] makes on the node's parent chain.
    [OtherTypeNode] is any kind the serializer's [switch] does not list. *)
Inductive TypeNode :=
| VoidKeyword | UndefinedKeyword | NeverKeyword
| ParenthesizedType (type : TypeNode)
| FunctionType | ConstructorType
| ArrayType | TupleType
| TypePredicate | BooleanKeyword
| StringKeyword
| ObjectKeyword
| LiteralType (literal : LiteralKind)
| NumberKeyword
| BigIntKeyword
| SymbolKeyword
| TypeReference (typeName : EntityName) (inConditionalBranch : bool)
| IntersectionType (types : list TypeNode)
| UnionType (types : list TypeNode)
| ConditionalType (trueType falseType : TypeNode)
| TypeOperator (operator : TypeOperatorKind) (type : TypeNode)
| TypeQuery | IndexedAccessType | MappedType | TypeLiteral
| AnyKeyword | UnknownKeyword | ThisType | ImportType
| JSDocAllType | JSDocUnknownType | JSDocFunctionType
| JSDocVariadicType | JSDocNamepathType
| JSDocNullableType (type : TypeNode)
| JSDocNonNullableType (type : TypeNode)
| JSDocOptionalType (type : TypeNode)
| OtherTypeNode (kind : UnlistedTypeKind).

(** A modifier token. *)
Inductive ModifierKind :=
| ExportKeyword | DefaultKeyword | DeclareKeyword | ConstKeyword
| PublicKeyword | PrivateKeyword | ProtectedKeyword | ReadonlyKeyword
| AbstractKeyword | OverrideKeyword | StaticKeyword | AsyncKeyword.

Record Modifier := {
  modifier_id : NodeId;
  modifier_kind : ModifierKind;
}.

Inductive BindingName :=
| BindingIdentifier (text : string)
| BindingPattern (id : NodeId).

Record ParameterDeclaration := {
  parameter_id : NodeId;
  parameter_decorators : option (list Decorator);
  parameter_dotDotDotToken : bool;
  parameter_name : BindingName;
  parameter_type : option TypeNode;
}.

Record Block := {
  block_id : NodeId;
  block_statements : list NodeId;
}.

Inductive ClassElementKind :=
| Constructor | PropertyDeclaration | MethodDeclaration
| GetAccessor | SetAccessor
| IndexSignature | ClassStaticBlockDeclaration | SemicolonClassElement
| OtherClassElement (kind : N).

Record ClassElement := {
  member_id : NodeId;
  member_kind : ClassElementKind;
  member_decorators : option (list Decorator);
  member_modifiers : list Modifier;
  member_name : option PropertyName;
  member_parameters : list ParameterDeclaration;
  member_type : option TypeNode;
  member_body : option Block;
}.

(** What [onBeforeVisitNode] and [recordEmittedDeclarationInScope] read of
    a node: its identity, its kind and its name ([None]: no name;
    [Some (inl text)]: an identifier with that [escapedText];
    [Some (inr text)]: a string-literal module name). *)
Record Node := {
  node_id : NodeId;
  kind : SyntaxKind.t;
  node_name : option (string + string);
}.

Record ClassDeclaration := {
  class_node : Node;
  class_decorators : option (list Decorator);
  class_modifiers : list Modifier;
  class_typeParameters : list NodeId;
  class_heritageClauses : list NodeId;
  class_members : list ClassElement;
}.

Record EnumMember := {
  enumMember_id : NodeId;
  enumMember_name : PropertyName;
  enumMember_initializer : option NodeId;
}.

Record EnumDeclaration := {
  enum_node : Node;
  enum_modifiers : list Modifier;
  enum_members : list EnumMember;
}.

(** A namespace declaration; the body of a dotted namespace [a.b] is the
    declaration of [b]. *)
Inductive ModuleDeclaration :=
| MkModuleDeclaration (node : Node) (modifiers : list Modifier)
    (body : ModuleBody)
with ModuleBody :=
| NoModuleBody
| ModuleBlockBody (block : Block)
| NestedModuleBody (inner : ModuleDeclaration).

Definition module_node (m : ModuleDeclaration) : Node :=
  match m with MkModuleDeclaration d _ _ => d end.
Definition module_body (m : ModuleDeclaration) : ModuleBody :=
  match m with MkModuleDeclaration _ _ b => b end.

(** A function-like declaration or expression, as [visitFunctionDeclaration]
    and [visitFunctionExpression] read it. *)
Record FunctionLike := {
  function_node : Node;
  function_modifiers : list Modifier;
  function_parameters : list ParameterDeclaration;
  function_type : option TypeNode;
  function_body : option Block;
}.

Record SourceFile := {
  sourceFile_id : NodeId;
  isDeclarationFile : bool;
  sourceFile_statements : list NodeId;
}.

(** ** State of the transformer *)

(** A lexical scope ([SourceFile | Block | ModuleBlock | CaseBlock]): the
    node's identity and its kind. *)
Record LexicalScope := {
  scope_id : NodeId;
  scope_kind : SyntaxKind.t;
}.

(** The variables declared at the top of [transformTypeScript], together
    with the state [ctx] of the [TransformationContext] and of the node
    factory, which this file does not define. *)
Record TransformerState {Ctx : Type} := {
  currentSourceFile : option NodeId;
  currentNamespace : option NodeId;
  currentNamespaceContainerName : option Expression;
  currentLexicalScope : option LexicalScope;
  currentNameScope : option NodeId;
  currentScopeFirstDeclarationsOfName : option (gmap string NodeId);
  currentClassHasParameterProperties : option bool;
  enabledSubstitutions : N;
  classAliases : option (gmap NodeId Expression);
  applicableSubstitutions : N;
  ctx : Ctx;
}.
Arguments TransformerState : clear implicits.

(** The outcome of a call: it returns a value and leaves a state, or it
    aborts in one of the [Debug] assertions. *)
Inductive Outcome (S A : Type) :=
| Returned (value : A) (state : S)
| DebugFailure (message : string).
Arguments Returned {S A} value state.
Arguments DebugFailure {S A} message.

Definition M (Ctx A : Type) : Type :=
  TransformerState Ctx -> Outcome (TransformerState Ctx) A.

Definition ret {Ctx A} (a : A) : M Ctx A := fun s => Returned a s.

Definition bind {Ctx A B} (m : M Ctx A) (k : A -> M Ctx B) : M Ctx B :=
  fun s =>
    match m s with
    | Returned a s' => k a s'
    | DebugFailure msg => DebugFailure msg
    end.

Definition fail {Ctx A} (msg : string) : M Ctx A := fun _ => DebugFailure msg.
Definition get {Ctx} : M Ctx (TransformerState Ctx) := fun s => Returned s s.
Definition gets {Ctx A} (f : TransformerState Ctx -> A) : M Ctx A :=
  fun s => Returned (f s) s.
Definition modify {Ctx} (f : TransformerState Ctx -> TransformerState Ctx)
  : M Ctx unit := fun s => Returned tt (f s).

Declare Scope transformer_scope.
Delimit Scope transformer_scope with M.
Notation "x <- m ;; k" := (bind m (fun x => k))
  (at level 100, m at next level, right associativity) : transformer_scope.
Notation "m ;;; k" := (bind m (fun _ => k))
  (at level 100, right associativity) : transformer_scope.
Local Open Scope transformer_scope.

(** [map] over a list with a callback run for its effects, in order. *)
Fixpoint mapM {Ctx A B} (f : A -> M Ctx B) (l : list A) : M Ctx (list B) :=
  match l with
  | [] => ret []
  | x :: xs => y <- f x ;; ys <- mapM f xs ;; ret (y :: ys)
  end.

(** Field updates. *)
Section Setters.
Context {Ctx : Type}.
  Implicit Type s : TransformerState Ctx.

Definition set_currentSourceFile v s :=
  {| currentSourceFile := v;
     currentNamespace := currentNamespace s;
     currentNamespaceContainerName := currentNamespaceContainerName s;
     currentLexicalScope := currentLexicalScope s;
     currentNameScope := currentNameScope s;
     currentScopeFirstDeclarationsOfName := currentScopeFirstDeclarationsOfName s;
     currentClassHasParameterProperties := currentClassHasParameterProperties s;
     enabledSubstitutions := enabledSubstitutions s;
     classAliases := classAliases s;
     applicableSubstitutions := applicableSubstitutions s;
     ctx := ctx s |}.
Definition set_currentNamespace v s :=
  {| currentSourceFile := currentSourceFile s;
     currentNamespace := v;
     currentNamespaceContainerName := currentNamespaceContainerName s;
     currentLexicalScope := currentLexicalScope s;
     currentNameScope := currentNameScope s;
     currentScopeFirstDeclarationsOfName := currentScopeFirstDeclarationsOfName s;
     currentClassHasParameterProperties := currentClassHasParameterProperties s;
     enabledSubstitutions := enabledSubstitutions s;
     classAliases := classAliases s;
     applicableSubstitutions := applicableSubstitutions s;
     ctx := ctx s |}.
Definition set_currentNamespaceContainerName v s :=
  {| currentSourceFile := currentSourceFile s;
     currentNamespace := currentNamespace s;
     currentNamespaceContainerName := v;
     currentLexicalScope := currentLexicalScope s;
     currentNameScope := currentNameScope s;
     currentScopeFirstDeclarationsOfName := currentScopeFirstDeclarationsOfName s;
     currentClassHasParameterProperties := currentClassHasParameterProperties s;
     enabledSubstitutions := enabledSubstitutions s;
     classAliases := classAliases s;
     applicableSubstitutions := applicableSubstitutions s;
     ctx := ctx s |}.
Definition set_currentLexicalScope v s :=
  {| currentSourceFile := currentSourceFile s;
     currentNamespace := currentNamespace s;
     currentNamespaceContainerName := currentNamespaceContainerName s;
     currentLexicalScope := v;
     currentNameScope := currentNameScope s;
     currentScopeFirstDeclarationsOfName := currentScopeFirstDeclarationsOfName s;
     currentClassHasParameterProperties := currentClassHasParameterProperties s;
     enabledSubstitutions := enabledSubstitutions s;
     classAliases := classAliases s;
     applicableSubstitutions := applicableSubstitutions s;
     ctx := ctx s |}.
Definition set_currentNameScope v s :=
  {| currentSourceFile := currentSourceFile s;
     currentNamespace := currentNamespace s;
     currentNamespaceContainerName := currentNamespaceContainerName s;
     currentLexicalScope := currentLexicalScope s;
     currentNameScope := v;
     currentScopeFirstDeclarationsOfName := currentScopeFirstDeclarationsOfName s;
     currentClassHasParameterProperties := currentClassHasParameterProperties s;
     enabledSubstitutions := enabledSubstitutions s;
     classAliases := classAliases s;
     applicableSubstitutions := applicableSubstitutions s;
     ctx := ctx s |}.
Definition set_currentScopeFirstDeclarationsOfName v s :=
  {| currentSourceFile := currentSourceFile s;
     currentNamespace := currentNamespace s;
     currentNamespaceContainerName := currentNamespaceContainerName s;
     currentLexicalScope := currentLexicalScope s;
     currentNameScope := currentNameScope s;
     currentScopeFirstDeclarationsOfName := v;
     currentClassHasParameterProperties := currentClassHasParameterProperties s;
     enabledSubstitutions := enabledSubstitutions s;
     classAliases := classAliases s;
     applicableSubstitutions := applicableSubstitutions s;
     ctx := ctx s |}.
Definition set_currentClassHasParameterProperties v s :=
  {| currentSourceFile := currentSourceFile s;
     currentNamespace := currentNamespace s;
     currentNamespaceContainerName := currentNamespaceContainerName s;
     currentLexicalScope := currentLexicalScope s;
     currentNameScope := currentNameScope s;
     currentScopeFirstDeclarationsOfName := currentScopeFirstDeclarationsOfName s;
     currentClassHasParameterProperties := v;
     enabledSubstitutions := enabledSubstitutions s;
     classAliases := classAliases s;
     applicableSubstitutions := applicableSubstitutions s;
     ctx := ctx s |}.
Definition set_enabledSubstitutions v s :=
  {| currentSourceFile := currentSourceFile s;
     currentNamespace := currentNamespace s;
     currentNamespaceContainerName := currentNamespaceContainerName s;
     currentLexicalScope := currentLexicalScope s;
     currentNameScope := currentNameScope s;
     currentScopeFirstDeclarationsOfName := currentScopeFirstDeclarationsOfName s;
     currentClassHasParameterProperties := currentClassHasParameterProperties s;
     enabledSubstitutions := v;
     classAliases := classAliases s;
     applicableSubstitutions := applicableSubstitutions s;
     ctx := ctx s |}.
Definition set_classAliases v s :=
  {| currentSourceFile := currentSourceFile s;
     currentNamespace := currentNamespace s;
     currentNamespaceContainerName := currentNamespaceContainerName s;
     currentLexicalScope := currentLexicalScope s;
     currentNameScope := currentNameScope s;
     currentScopeFirstDeclarationsOfName := currentScopeFirstDeclarationsOfName s;
     currentClassHasParameterProperties := currentClassHasParameterProperties s;
     enabledSubstitutions := enabledSubstitutions s;
     classAliases := v;
     applicableSubstitutions := applicableSubstitutions s;
     ctx := ctx s |}.
Definition set_ctx (v : Ctx) s :=
  {| currentSourceFile := currentSourceFile s;
     currentNamespace := currentNamespace s;
     currentNamespaceContainerName := currentNamespaceContainerName s;
     currentLexicalScope := currentLexicalScope s;
     currentNameScope := currentNameScope s;
     currentScopeFirstDeclarationsOfName := currentScopeFirstDeclarationsOfName s;
     currentClassHasParameterProperties := currentClassHasParameterProperties s;
     enabledSubstitutions := enabledSubstitutions s;
     classAliases := classAliases s;
     applicableSubstitutions := applicableSubstitutions s;
     ctx := v |}.
Definition set_applicableSubstitutions v s :=
  {| currentSourceFile := currentSourceFile s;
     currentNamespace := currentNamespace s;
     currentNamespaceContainerName := currentNamespaceContainerName s;
     currentLexicalScope := currentLexicalScope s;
     currentNameScope := currentNameScope s;
     currentScopeFirstDeclarationsOfName := currentScopeFirstDeclarationsOfName s;
     currentClassHasParameterProperties := currentClassHasParameterProperties s;
     enabledSubstitutions := enabledSubstitutions s;
     classAliases := classAliases s;
     applicableSubstitutions := v;
     ctx := ctx s |}.
End Setters.

(** The result of [transformSourceFile]: the input node itself, or the
    node [factory.updateSourceFile] built, with the emit helpers that
    [addEmitHelpers] attached to it. *)
Inductive SourceFileResult :=
| SameSourceFile (node : SourceFile)
| UpdatedSourceFile (original : SourceFile) (statements : list Statement)
    (emitHelpers : list string).

(** A structure describing the decorators for a class element. *)
Record AllDecorators := {
  decorators : option (list Decorator);
  parameters : option (list (option (list Decorator)));
}.

(** A declaration that carries decorators: the class itself (for its
    constructor), a class member, or a parameter. *)
Inductive DecoratedNode :=
| DecoratedClass (node : ClassDeclaration)
| DecoratedMember (member : ClassElement)
| DecoratedParameter (parameter : ParameterDeclaration).

(** ** What the transformer obtains from outside this file *)

(** A compile-time constant of an enum member. A number is carried by its
    text [value + ""], which is all that [createNumericLiteral] keeps. *)
Inductive ConstantValue :=
| StringValue (text : string)
| NumberValue (text : string).

(** [TypeReferenceSerializationKind] of types.ts. *)
Module TypeReferenceSerializationKind.
Inductive t :=
| Unknown | TypeWithConstructSignatureAndValue | VoidNullableOrNeverType
| NumberLikeType | BigIntLikeType | StringLikeType | BooleanType
| ArrayLikeType | ESSymbolType | Promise | TypeWithCallSignature
| ObjectType.
End TypeReferenceSerializationKind.

(** The result of [getAllAccessorDeclarations]. *)
Record AllAccessorDeclarations := {
  firstAccessor : ClassElement;
  secondAccessor : option ClassElement;
  getAccessor : option ClassElement;
  setAccessor : option ClassElement;
}.

(** The emit resolver (the type checker's answers). *)
Record EmitResolver := {
  (** [getNodeCheckFlags(node) & NodeCheckFlags.ClassWithConstructorReference] *)
  hasClassWithConstructorReference : NodeId -> bool;
  getConstantValue : NodeId -> option ConstantValue;
  getTypeReferenceSerializationKind :
    EntityName -> option NodeId -> TypeReferenceSerializationKind.t;
  resolver_getAllAccessorDeclarations : ClassElement -> AllAccessorDeclarations;
}.

(** The compiler options, as the transformer reads them at its start. *)
Record CompilerOptions := {
  languageVersion : ScriptTarget;          (* getEmitScriptTarget *)
  moduleKind : ModuleKind.t;               (* getEmitModuleKind *)
  strictNullChecks : bool;                 (* getStrictOptionValue *)
  alwaysStrict : bool;
  emitDecoratorMetadata : bool;
  shouldPreserveConstEnums : bool;
}.

(** Helpers of utilities.ts and of the factory that are pure functions of
    the input tree. *)
Record Utilities := {
  hasSyntacticModifier : NodeId -> ModifierFlags.t -> bool;
  (** [modifierToFlag(kind) & ModifierFlags.TypeScriptModifier] *)
  isTypeScriptModifier : ModifierKind -> bool;
  nodeIsMissing : option Block -> bool;
  nodeIsPresent : option Block -> bool;
  isStatic : ClassElement -> bool;
  hasStaticModifier : ClassElement -> bool;
  nodeOrChildIsDecorated : ClassElement -> ClassDeclaration -> bool;
  classOrConstructorParameterIsDecorated : ClassDeclaration -> bool;
  childIsDecorated : ClassDeclaration -> bool;
  getFirstConstructorWithBody : ClassDeclaration -> option ClassElement;
  getAllAccessorDeclarations :
    list ClassElement -> ClassElement -> AllAccessorDeclarations;
  parameterIsThisKeyword : ParameterDeclaration -> bool;
  isParameterPropertyDeclaration : ParameterDeclaration -> ClassElement -> bool;
  (** [getProperties(node, requireInitializer, isStatic)] *)
  getProperties : ClassDeclaration -> bool -> bool -> list ClassElement;
  (** [getEffectiveBaseTypeNode(node)] exists and, after
      [skipOuterExpressions], is not the [null] keyword *)
  extendsNonNullBase : ClassDeclaration -> bool;
  (** [node.transformFlags & TransformFlags.ContainsTypeScriptClassSyntax] *)
  containsTypeScriptClassSyntax : NodeId -> bool;
  isSimpleInlineableExpression : Expression -> bool;
  skipPartiallyEmittedExpressions : Expression -> Expression;
  getOriginalNodeId : NodeId -> NodeId;
  isFunctionLike : ClassElement -> bool;
  isEnumConst : EnumDeclaration -> bool;
  (** [getParseTreeNode(node, isModuleDeclaration)] and [isInstantiatedModule] *)
  getParseTreeNode_module : ModuleDeclaration -> option ModuleDeclaration;
  isInstantiatedModule : ModuleDeclaration -> bool -> bool;
  isExternalModule : SourceFile -> bool;
  isJsonSourceFile : SourceFile -> bool;
  isAsyncFunction : ClassElement -> bool;
  getSetAccessorTypeAnnotationNode : ClassElement -> option TypeNode;
  getEffectiveReturnTypeNode : ClassElement -> option TypeNode;
  getRestParameterElementType : option TypeNode -> option TypeNode;
  insertStatementsAfterStandardPrologue :
    list Statement -> option (list Statement) -> list Statement;
  mergeLexicalEnvironment :
    list Statement -> option (list Statement) -> list Statement;
}.

(** The naming functions of the node factory. *)
Record NodeFactory := {
  getLocalName : Node -> Expression;
  getInternalName : Node -> Expression;
  getDeclarationName : Node -> Expression;
  getExternalModuleOrNamespaceExportName : option Expression -> Node -> Expression;
}.

(** The [TransformationContext] and the stateful part of the node factory,
    acting on their own state [Ctx]. *)
Record TransformationContext {Ctx : Type} := {
  startLexicalEnvironment : Ctx -> Ctx;
  resumeLexicalEnvironment : Ctx -> Ctx;
  endLexicalEnvironment : Ctx -> option (list Statement) * Ctx;
  hoistVariableDeclaration : Expression -> Ctx -> Ctx;
  enableSubstitution : SyntaxKind.t -> Ctx -> Ctx;
  enableEmitNotification : SyntaxKind.t -> Ctx -> Ctx;
  requestEmitHelper : string -> Ctx -> Ctx;
  readEmitHelpers : Ctx -> list string * Ctx;
  (** the next [autoGenerateId] of the factory *)
  nextAutoGenerateId : Ctx -> nat * Ctx;
}.
Arguments TransformationContext : clear implicits.

(** The generic tree walk of visitorPublic.ts ([visitNode], [visitNodes],
    [visitParameterList], [visitFunctionBody], [visitLexicalEnvironment],
    [visitEachChild]) at the call sites of this file. Each field runs the
    named visitor of the transformer over the given children, so it may
    read and assign every variable of the transformer and may abort. *)
Record TreeWalk {Ctx : Type} := {
  (** [visitNode(e, visitor, isExpression)] *)
  visitExpression : NodeId -> M Ctx Expression;
  (** [visitNodes(node.modifiers, visitor, isModifier)] *)
  visitModifiers : list Modifier -> M Ctx (list VisitedNode);
  (** [visitNodes(node.heritageClauses, visitor, isHeritageClause)] *)
  visitHeritageClauses : list NodeId -> M Ctx (list VisitedNode);
  (** [visitNodes(node.members, classElementVisitor, isClassElement)] *)
  visitClassElements : list ClassElement -> M Ctx (list ClassElementOut);
  (** [visitNodes(statements, namespaceElementVisitor, isStatement)] *)
  visitNamespaceElements : list NodeId -> M Ctx (list Statement);
  (** [visitNodes(body.statements, visitor, isStatement, start)] *)
  visitStatementsFrom : list NodeId -> nat -> M Ctx (list Statement);
  (** [visitParameterList(node.parameters, visitor, context)] *)
  visitParameterList : list ParameterDeclaration -> M Ctx (list ParameterOut);
  (** [visitFunctionBody(node.body, visitor, context)] *)
  visitFunctionBody : option Block -> M Ctx (option Statement);
  (** [visitNode(name, visitor, isPropertyName)] *)
  visitPropertyName : PropertyName -> M Ctx PropertyNameOut;
  (** [visitLexicalEnvironment(statements, sourceElementVisitor, context, 0, strict)] *)
  visitSourceElements : list NodeId -> bool -> M Ctx (list Statement);
  (** [visitEachChild(node, visitor, context)] on a class declaration *)
  visitEachChild_class : ClassDeclaration -> M Ctx Statement;
  (** [addPrologueDirectivesAndInitialSuperCall(factory, ctor, statements, visitor)]:
      the statements it adds and the index it returns *)
  addPrologueDirectivesAndInitialSuperCall :
    ClassElement -> M Ctx (list Statement * nat);
}.
Arguments TreeWalk : clear implicits.

(** *** Imports, exports and substitutions *)

(** [ImportsNotUsedAsValues] of types.ts. *)
Module ImportsNotUsedAsValues.
Inductive t := Remove | Preserve | Error.
End ImportsNotUsedAsValues.

(** The compiler options that the elision of imports and exports and the
    substitution of constant values read. *)
Record ModuleOptions := {
  importsNotUsedAsValues : option ImportsNotUsedAsValues.t;
  preserveValueImports : bool;
  isolatedModules : bool;
}.

(** The answers of the emit resolver about aliases and about the
    identifiers that the printer is about to write. *)
Record ReferenceResolver := {
  isValueAliasDeclaration : NodeId -> bool;
  isReferencedAliasDeclaration : NodeId -> bool;
  isTopLevelValueImportEqualsWithEntityName : NodeId -> bool;
  (** [getNodeCheckFlags(node) & NodeCheckFlags.ConstructorReferenceInClass] *)
  hasConstructorReferenceInClass : NodeId -> bool;
  (** [getReferencedValueDeclaration(node)], by its [id] *)
  getReferencedValueDeclaration : NodeId -> option NodeId;
  (** [getReferencedExportContainer(node, /*prefixLocals*/ false)] *)
  getReferencedExportContainer : NodeId -> option Node;
}.

Record ImportSpecifier := {
  importSpecifier_id : NodeId;
  importSpecifier_isTypeOnly : bool;
}.

Inductive NamedImportBindings :=
| NamespaceImport (id : NodeId)
| NamedImports (id : NodeId) (elements : list ImportSpecifier).

Record ImportClause := {
  importClause_id : NodeId;
  importClause_isTypeOnly : bool;
  importClause_name : option NodeId;
  importClause_namedBindings : option NamedImportBindings;
}.

Record ImportDeclaration := {
  importDeclaration_id : NodeId;
  importClause : option ImportClause;
  importDeclaration_moduleSpecifier : NodeId;
}.

(** What the visitors of an import declaration return: a node of the
    input as it is, or the node that [factory.update...] built from it. *)
Inductive NamedImportBindingsOut :=
| SameNamespaceImport (id : NodeId)
| UpdatedNamedImports (original : NodeId) (elements : list ImportSpecifier).

Record ImportClauseOut := {
  clause_original : NodeId;
  clause_name : option NodeId;
  clause_namedBindings : option NamedImportBindingsOut;
}.

Inductive ImportDeclarationOut :=
| SameImportDeclaration (node : ImportDeclaration)
| UpdatedImportDeclaration (original : ImportDeclaration)
    (clause : option ImportClauseOut).

Record ExportSpecifier := {
  exportSpecifier_id : NodeId;
  exportSpecifier_isTypeOnly : bool;
}.

Inductive NamedExportBindings :=
| NamespaceExport (id : NodeId) (name : NodeId)
| NamedExports (id : NodeId) (elements : list ExportSpecifier).

Record ExportDeclaration := {
  exportDeclaration_id : NodeId;
  exportDeclaration_isTypeOnly : bool;
  exportClause : option NamedExportBindings;
  exportDeclaration_moduleSpecifier : option NodeId;
}.

Inductive NamedExportBindingsOut :=
| UpdatedNamespaceExport (original : NodeId) (name : Expression)
| UpdatedNamedExports (original : NodeId) (elements : list ExportSpecifier).

Inductive ExportDeclarationOut :=
| SameExportDeclaration (node : ExportDeclaration)
| UpdatedExportDeclaration (original : ExportDeclaration)
    (clause : NamedExportBindingsOut).

Inductive ModuleReference :=
| ExternalModuleReference (expression : NodeId)
| EntityNameReference (name : EntityName).

(** [import name = moduleReference]; the name is an identifier. *)
Record ImportEqualsDeclaration := {
  importEquals_node : Node;
  importEquals_name : string;
  importEquals_modifiers : list Modifier;
  importEquals_isTypeOnly : bool;
  moduleReference : ModuleReference;
}.

(** The statement that replaces an import-equals declaration: one of the
    statements above, or the import declaration [import "mod"] that
    [factory.createImportDeclaration] builds without an import clause. *)
Inductive ImportEqualsOut :=
| ImportEqualsStatement (statement : Statement)
| SideEffectImport (moduleSpecifier : NodeId) (original : NodeId).

(** A node handed to [onEmitNode] or [onSubstituteNode], as the hooks
    read it. *)
Record EmittedNode := {
  emitted_id : NodeId;
  emitted_kind : SyntaxKind.t;
  (** [getOriginalNode(node).kind] *)
  emitted_originalKind : SyntaxKind.t;
  (** [isGeneratedIdentifier(node)] *)
  emitted_isGenerated : bool;
  (** [isLocalName(node)]: the emit flag [LocalName] *)
  emitted_isLocalName : bool;
}.

(** The generic tree walk and the helpers at the call sites of the import
    and export visitors. *)
Record ModuleWalk {Ctx : Type} := {
  (** [visitNode(node.name, visitor, isIdentifier)] *)
  visitIdentifier : NodeId -> M Ctx Expression;
  (** [visitEachChild(node, visitor, context)] on a statement *)
  visitEachChild_statement : NodeId -> M Ctx Statement;
  (** [isExternalModule(currentSourceFile)] *)
  isExternalModule_file : NodeId -> bool;
  (** [createExpressionFromEntityName(factory, name)] *)
  createExpressionFromEntityName : EntityName -> Expression;
  (** [factory.getNamespaceMemberName(ns, name, false, true)] *)
  getNamespaceMemberName : option Expression -> Expression -> Expression;
}.
Arguments ModuleWalk : clear implicits.

(** ** A small host

    One concrete resolver, set of options, set of helpers, context and tree
    walk, used to run the transformer on example inputs. The tree walk
    returns every child unchanged. *)
Module Sample.
Record Context := {
  autoGenerateId : nat;
  hoisted : list Expression;
  enabledSubstitutionKinds : list SyntaxKind.t;
  emitNotificationKinds : list SyntaxKind.t;
  requestedHelpers : list string;
}.

Definition emptyContext : Context :=
  {| autoGenerateId := 0; hoisted := []; enabledSubstitutionKinds := [];
     emitNotificationKinds := []; requestedHelpers := [] |}.

Definition context : TransformationContext Context :=
  {| startLexicalEnvironment := fun c => c;
     resumeLexicalEnvironment := fun c => c;
     endLexicalEnvironment := fun c => (None, c);
     hoistVariableDeclaration := fun name c =>
       {| autoGenerateId := autoGenerateId c;
          hoisted := hoisted c ++ [name];
          enabledSubstitutionKinds := enabledSubstitutionKinds c;
          emitNotificationKinds := emitNotificationKinds c;
          requestedHelpers := requestedHelpers c |};
     enableSubstitution := fun k c =>
       {| autoGenerateId := autoGenerateId c;
          hoisted := hoisted c;
          enabledSubstitutionKinds := enabledSubstitutionKinds c ++ [k];
          emitNotificationKinds := emitNotificationKinds c;
          requestedHelpers := requestedHelpers c |};
     enableEmitNotification := fun k c =>
       {| autoGenerateId := autoGenerateId c;
          hoisted := hoisted c;
          enabledSubstitutionKinds := enabledSubstitutionKinds c;
          emitNotificationKinds := emitNotificationKinds c ++ [k];
          requestedHelpers := requestedHelpers c |};
     requestEmitHelper := fun h c =>
       {| autoGenerateId := autoGenerateId c;
          hoisted := hoisted c;
          enabledSubstitutionKinds := enabledSubstitutionKinds c;
          emitNotificationKinds := emitNotificationKinds c;
          requestedHelpers := requestedHelpers c ++ [h] |};
     readEmitHelpers := fun c => (requestedHelpers c, c);
     nextAutoGenerateId := fun c =>
       (autoGenerateId c,
        {| autoGenerateId := S (autoGenerateId c);
           hoisted := hoisted c;
           enabledSubstitutionKinds := enabledSubstitutionKinds c;
           emitNotificationKinds := emitNotificationKinds c;
           requestedHelpers := requestedHelpers c |}) |}.

Definition hasModifier (k : ModifierKind) (modifiers : list Modifier) : bool :=
  existsb (fun m => match modifier_kind m, k with
                    | StaticKeyword, StaticKeyword => true
                    | AbstractKeyword, AbstractKeyword => true
                    | ExportKeyword, ExportKeyword => true
                    | _, _ => false
                    end) modifiers.

Definition isConstructorWithBody (m : ClassElement) : bool :=
  match member_kind m, member_body m with
  | Constructor, Some _ => true
  | _, _ => false
  end.

Definition isStaticProperty (m : ClassElement) : bool :=
  match member_kind m with
  | PropertyDeclaration => hasModifier StaticKeyword (member_modifiers m)
  | _ => false
  end.

(** [abstract] lists the nodes that carry the [abstract] modifier. *)
Definition util (abstract : list NodeId) : Utilities :=
  {| hasSyntacticModifier := fun id flag =>
       match flag with
       | ModifierFlags.Abstract => bool_decide (id ∈ abstract)
       | _ => false
       end;
     isTypeScriptModifier := fun k =>
       match k with
       | ExportKeyword | DefaultKeyword | StaticKeyword | AsyncKeyword => false
       | _ => true
       end;
     nodeIsMissing := fun b => match b with None => true | Some _ => false end;
     nodeIsPresent := fun b => match b with None => false | Some _ => true end;
     isStatic := fun m => hasModifier StaticKeyword (member_modifiers m);
     hasStaticModifier := fun m => hasModifier StaticKeyword (member_modifiers m);
     nodeOrChildIsDecorated := fun m _ =>
       bool_decide (is_Some (member_decorators m))
       || existsb (fun p => bool_decide (is_Some (parameter_decorators p)))
            (member_parameters m);
     classOrConstructorParameterIsDecorated := fun c =>
       bool_decide (is_Some (class_decorators c));
     childIsDecorated := fun c =>
       existsb (fun m => bool_decide (is_Some (member_decorators m)))
         (class_members c);
     getFirstConstructorWithBody := fun c =>
       List.find isConstructorWithBody (class_members c);
     getAllAccessorDeclarations := fun _ accessor =>
       {| firstAccessor := accessor; secondAccessor := None;
          getAccessor := match member_kind accessor with
                         | GetAccessor => Some accessor | _ => None end;
          setAccessor := match member_kind accessor with
                         | SetAccessor => Some accessor | _ => None end |};
     parameterIsThisKeyword := fun _ => false;
     isParameterPropertyDeclaration := fun _ _ => false;
     getProperties := fun c _ isStatic =>
       if isStatic then List.filter isStaticProperty (class_members c) else [];
     extendsNonNullBase := fun _ => false;
     containsTypeScriptClassSyntax := fun _ => true;
     isSimpleInlineableExpression := fun _ => true;
     skipPartiallyEmittedExpressions := fun e => e;
     getOriginalNodeId := fun id => id;
     isFunctionLike := fun m =>
       match member_kind m with
       | Constructor | MethodDeclaration | GetAccessor | SetAccessor => true
       | _ => false
       end;
     isEnumConst := fun _ => false;
     getParseTreeNode_module := fun m => Some m;
     isInstantiatedModule := fun _ _ => true;
     isExternalModule := fun _ => false;
     isJsonSourceFile := fun _ => false;
     isAsyncFunction := fun _ => false;
     getSetAccessorTypeAnnotationNode := fun _ => None;
     getEffectiveReturnTypeNode := fun m => member_type m;
     getRestParameterElementType := fun t => t;
     insertStatementsAfterStandardPrologue := fun to from =>
       default [] from ++ to;
     mergeLexicalEnvironment := fun statements declarations =>
       default [] declarations ++ statements |}.

Definition nameOf (n : Node) : Expression :=
  match node_name n with
  | Some (inl text) => Identifier text
  | _ => GeneratedIdentifier (GeneratedNameForNode (node_id n))
  end.

Definition factory : NodeFactory :=
  {| getLocalName := nameOf;
     getInternalName := nameOf;
     getDeclarationName := nameOf;
     getExternalModuleOrNamespaceExportName := fun ns n =>
       match ns with
       | Some ns => PropertyAccessExpression ns (nameOf n)
       | None => nameOf n
       end |}.

(** [marker id] is the checker's [ClassWithConstructorReference] flag;
    [constant id] its constant value for an enum member. *)
Definition resolver (marker : NodeId -> bool)
    (constant : NodeId -> option ConstantValue) : EmitResolver :=
  {| hasClassWithConstructorReference := marker;
     getConstantValue := constant;
     getTypeReferenceSerializationKind := fun _ _ =>
       TypeReferenceSerializationKind.TypeWithConstructSignatureAndValue;
     resolver_getAllAccessorDeclarations := fun accessor =>
       {| firstAccessor := accessor; secondAccessor := None;
          getAccessor := match member_kind accessor with
                         | GetAccessor => Some accessor | _ => None end;
          setAccessor := match member_kind accessor with
                         | SetAccessor => Some accessor | _ => None end |} |}.

Definition options (target : ScriptTarget) (strict metadata : bool)
  : CompilerOptions :=
  {| languageVersion := target;
     moduleKind := ModuleKind.CommonJS;
     strictNullChecks := strict;
     alwaysStrict := false;
     emitDecoratorMetadata := metadata;
     shouldPreserveConstEnums := false |}.

Definition blockOut (b : Block) : Statement :=
  BlockStatement (map SourceStatement (block_statements b)) (Some (block_id b)).

Definition propertyNameId (name : PropertyName) : NodeId :=
  match name with
  | IdentifierName id _ | PrivateIdentifierName id _
  | ComputedPropertyName id _ | StringLiteralName id _
  | NumericLiteralName id _ => id
  end.

Definition walk : TreeWalk Context :=
  {| visitExpression := fun e => ret (SourceExpression e);
     visitModifiers := fun ms => ret (map (fun m => Visited (modifier_id m)) ms);
     visitHeritageClauses := fun hs => ret (map Visited hs);
     visitClassElements := fun ms =>
       ret (map (fun m => SourceClassElement (member_id m)) ms);
     visitNamespaceElements := fun ss => ret (map SourceStatement ss);
     visitStatementsFrom := fun ss start => ret (map SourceStatement (drop start ss));
     visitParameterList := fun ps =>
       ret (map (fun p => VisitedParameter (Visited (parameter_id p))) ps);
     visitFunctionBody := fun b => ret (blockOut <$> b);
     visitPropertyName := fun n => ret (VisitedPropertyName (Visited (propertyNameId n)));
     visitSourceElements := fun ss _ => ret (map SourceStatement ss);
     visitEachChild_class := fun c => ret (SourceStatement (node_id (class_node c)));
     addPrologueDirectivesAndInitialSuperCall := fun _ => ret ([], 0%nat) |}.

(** The state at the start of a source file whose id is [1]. *)
Definition initialState : TransformerState Context :=
  {| currentSourceFile := Some 1%positive;
     currentNamespace := None;
     currentNamespaceContainerName := None;
     currentLexicalScope :=
       Some {| scope_id := 1%positive; scope_kind := SyntaxKind.SourceFile |};
     currentNameScope := None;
     currentScopeFirstDeclarationsOfName := None;
     currentClassHasParameterProperties := None;
     enabledSubstitutions := 0;
     classAliases := None;
     applicableSubstitutions := 0;
     ctx := emptyContext |}.

(** Example inputs. *)

Definition decorator (id : NodeId) : Decorator := {| decorator_expression := id |}.

(** [@d12 static y;] *)
Definition staticProperty_y : ClassElement :=
  {| member_id := 11; member_kind := PropertyDeclaration;
     member_decorators := Some [decorator 12];
     member_modifiers := [{| modifier_id := 13; modifier_kind := StaticKeyword |}];
     member_name := Some (IdentifierName 14 "y");
     member_parameters := []; member_type := None; member_body := None |}.

(** [@d22 m() {}] *)
Definition method_m : ClassElement :=
  {| member_id := 21; member_kind := MethodDeclaration;
     member_decorators := Some [decorator 22];
     member_modifiers := [];
     member_name := Some (IdentifierName 24 "m");
     member_parameters := []; member_type := None;
     member_body := Some {| block_id := 25; block_statements := [] |} |}.

(** [@d2 class C { @d12 static y; @d22 m() {} }] *)
Definition decoratedClass : ClassDeclaration :=
  {| class_node := {| node_id := 10; kind := SyntaxKind.ClassDeclaration;
                      node_name := Some (inl "C") |};
     class_decorators := Some [decorator 2];
     class_modifiers := [];
     class_typeParameters := [];
     class_heritageClauses := [];
     class_members := [staticProperty_y; method_m] |}.

(** [static z = 1;] *)
Definition staticProperty_z : ClassElement :=
  {| member_id := 31; member_kind := PropertyDeclaration;
     member_decorators := None;
     member_modifiers := [{| modifier_id := 33; modifier_kind := StaticKeyword |}];
     member_name := Some (IdentifierName 34 "z");
     member_parameters := []; member_type := None; member_body := None |}.

(** [class D { static z = 1; }], no decorators. *)
Definition undecoratedClass : ClassDeclaration :=
  {| class_node := {| node_id := 30; kind := SyntaxKind.ClassDeclaration;
                      node_name := Some (inl "D") |};
     class_decorators := None;
     class_modifiers := [];
     class_typeParameters := [];
     class_heritageClauses := [];
     class_members := [staticProperty_z] |}.

(** [get x;] without a body and without [abstract]. *)
Definition bodylessGetter : ClassElement :=
  {| member_id := 41; member_kind := GetAccessor;
     member_decorators := None; member_modifiers := [];
     member_name := Some (IdentifierName 44 "x");
     member_parameters := []; member_type := None; member_body := None |}.

(** [constructor();] without a body. *)
Definition bodylessConstructor : ClassElement :=
  {| member_id := 45; member_kind := Constructor;
     member_decorators := None; member_modifiers := [];
     member_name := None;
     member_parameters := []; member_type := None; member_body := None |}.

(** [function f();] without a body. *)
Definition bodylessFunction : FunctionLike :=
  {| function_node := {| node_id := 46; kind := SyntaxKind.FunctionDeclaration;
                         node_name := Some (inl "f") |};
     function_modifiers := [];
     function_parameters := [];
     function_type := None;
     function_body := None |}.

(** Two declarations [enum N { A }] and [enum N { B = "b" }]. *)
Definition enumMember_A : EnumMember :=
  {| enumMember_id := 52; enumMember_name := IdentifierName 53 "A";
     enumMember_initializer := None |}.
Definition enumMember_B : EnumMember :=
  {| enumMember_id := 62; enumMember_name := IdentifierName 63 "B";
     enumMember_initializer := Some 64%positive |}.

Definition firstEnum : EnumDeclaration :=
  {| enum_node := {| node_id := 50; kind := SyntaxKind.EnumDeclaration;
                     node_name := Some (inl "N") |};
     enum_modifiers := [];
     enum_members := [enumMember_A] |}.

Definition constants (id : NodeId) : option ConstantValue :=
  if Pos.eqb id 62 then Some (StringValue "b") else None.

(** [declare] file and a block. *)
Definition declarationFile : SourceFile :=
  {| sourceFile_id := 70; isDeclarationFile := true;
     sourceFile_statements := [71; 72]%positive |}.

Definition someBlock : Node :=
  {| node_id := 80; kind := SyntaxKind.Block; node_name := None |}.

(** Hosts: a resolver that marks no class, one that marks every class as
    referring to its own constructor; targets ES2015 and ES5. *)
Definition plainResolver : EmitResolver := resolver (fun _ => false) constants.
Definition markingResolver : EmitResolver := resolver (fun _ => true) constants.
Definition es2015 : CompilerOptions := options ES2015 false false.
Definition es5 : CompilerOptions := options ES5 false false.
Definition plainUtil : Utilities := util [].

(** A scope that has recorded [firstEnum] as the first declaration of [N]. *)
Definition stateAfterFirstEnum : TransformerState Context :=
  set_currentScopeFirstDeclarationsOfName
    (Some (<["N" := 50%positive]> ∅)) initialState.

(** The state inside the body of [secondEnum]. *)
Definition stateInEnumBody : TransformerState Context :=
  set_currentNamespaceContainerName
    (Some (GeneratedIdentifier (GeneratedNameForNode 60))) initialState.

Definition disagreeingUnion : list TypeNode := [StringKeyword; NumberKeyword].

(** A host for imports, exports and substitutions. The aliases listed in
    [referenced] are the referenced ones; the identifier [120] is a
    reference to the class [10] from inside the class; the identifier [130]
    names a member exported from the namespace [90]. *)
Definition namespaceM : Node :=
  {| node_id := 90; kind := SyntaxKind.ModuleDeclaration;
     node_name := Some (inl "M") |}.

Definition references (referenced : list NodeId) : ReferenceResolver :=
  {| isValueAliasDeclaration := fun id => bool_decide (id ∈ referenced);
     isReferencedAliasDeclaration := fun id => bool_decide (id ∈ referenced);
     isTopLevelValueImportEqualsWithEntityName := fun _ => true;
     hasConstructorReferenceInClass := fun id => Pos.eqb id 120;
     getReferencedValueDeclaration := fun id =>
       if Pos.eqb id 120 then Some 10%positive else None;
     getReferencedExportContainer := fun id =>
       if Pos.eqb id 130 then Some namespaceM else None |}.

Definition moduleOptionsWith (imports : option ImportsNotUsedAsValues.t)
  : ModuleOptions :=
  {| importsNotUsedAsValues := imports;
     preserveValueImports := false;
     isolatedModules := false |}.

Definition moduleWalk : ModuleWalk Context :=
  {| visitIdentifier := fun id => ret (SourceExpression id);
     visitEachChild_statement := fun id => ret (SourceStatement id);
     isExternalModule_file := fun _ => false;
     createExpressionFromEntityName :=
       fix create (name : EntityName) : Expression :=
         match name with
         | EntityIdentifier text => Identifier text
         | QualifiedName qualifier member =>
             PropertyAccessExpression (create qualifier) (Identifier member)
         end;
     getNamespaceMemberName := fun ns name =>
       match ns with
       | Some ns => PropertyAccessExpression ns name
       | None => name
       end |}.

(** [import d, { a, type b, c } from "m"], of which only [a] is referenced. *)
Definition importOfM : ImportDeclaration :=
  {| importDeclaration_id := 100;
     importClause :=
       Some {| importClause_id := 101;
               importClause_isTypeOnly := false;
               importClause_name := Some 102%positive;
               importClause_namedBindings :=
                 Some (NamedImports 103
                         [{| importSpecifier_id := 104;
                             importSpecifier_isTypeOnly := false |};
                          {| importSpecifier_id := 105;
                             importSpecifier_isTypeOnly := true |};
                          {| importSpecifier_id := 106;
                             importSpecifier_isTypeOnly := false |}]) |};
     importDeclaration_moduleSpecifier := 107 |}.

(** [import x = require("m")] and [import y = a.b]. *)
Definition importEqualsOfExternalModule : ImportEqualsDeclaration :=
  {| importEquals_node := {| node_id := 110; kind := SyntaxKind.Other 0;
                             node_name := Some (inl "x") |};
     importEquals_name := "x";
     importEquals_modifiers := [];
     importEquals_isTypeOnly := false;
     moduleReference := ExternalModuleReference 111 |}.

Definition importEqualsOfEntityName : ImportEqualsDeclaration :=
  {| importEquals_node := {| node_id := 112; kind := SyntaxKind.Other 0;
                             node_name := Some (inl "y") |};
     importEquals_name := "y";
     importEquals_modifiers := [];
     importEquals_isTypeOnly := false;
     moduleReference := EntityNameReference (QualifiedName (EntityIdentifier "a") "b") |}.

(** Nodes handed to the emit hooks: a reference to the class [C] from
    inside it, a reference to a member exported from [M], and the closure
    that the namespace [M] was lowered to. *)
Definition referenceToC : EmittedNode :=
  {| emitted_id := 120; emitted_kind := SyntaxKind.Identifier;
     emitted_originalKind := SyntaxKind.Identifier;
     emitted_isGenerated := false; emitted_isLocalName := false |}.

Definition referenceToMemberOfM : EmittedNode :=
  {| emitted_id := 130; emitted_kind := SyntaxKind.Identifier;
     emitted_originalKind := SyntaxKind.Identifier;
     emitted_isGenerated := false; emitted_isLocalName := false |}.

Definition loweredNamespaceM : EmittedNode :=
  {| emitted_id := 140; emitted_kind := SyntaxKind.Other 0;
     emitted_originalKind := SyntaxKind.ModuleDeclaration;
     emitted_isGenerated := false; emitted_isLocalName := false |}.

(** The state of the printer inside [M], with namespace exports enabled,
    and the state outside of it. *)
Definition stateOutsideM : TransformerState Context :=
  set_enabledSubstitutions TypeScriptSubstitutionFlags.NamespaceExports initialState.

Definition stateInsideM : TransformerState Context :=
  set_applicableSubstitutions TypeScriptSubstitutionFlags.NamespaceExports
    stateOutsideM.

(** [namespace C { }], to follow the class [C]; a file that is not a
    declaration file; the body of [M]. *)
Definition namespaceC : Node :=
  {| node_id := 95; kind := SyntaxKind.ModuleDeclaration;
     node_name := Some (inl "C") |}.

Definition sourceFile : SourceFile :=
  {| sourceFile_id := 1; isDeclarationFile := false;
     sourceFile_statements := [10; 50]%positive |}.

Definition bodyOfM : Block :=
  {| block_id := 91; block_statements := [92; 93]%positive |}.

(** [@d28 m(this: C, a: string);]: an overload of a method, decorated. *)
Definition parameter (id : NodeId) (name : string) (type : option TypeNode)
  : ParameterDeclaration :=
  {| parameter_id := id; parameter_decorators := None;
     parameter_dotDotDotToken := false;
     parameter_name := BindingIdentifier name;
     parameter_type := type |}.

Definition overload_m : ClassElement :=
  {| member_id := 26; member_kind := MethodDeclaration;
     member_decorators := Some [decorator 28];
     member_modifiers := [];
     member_name := Some (IdentifierName 27 "m");
     member_parameters := []; member_type := None; member_body := None |}.


(** [class P { constructor(public x, public [y]) {} }], for a host whose
    [isParameterPropertyDeclaration] accepts every parameter. *)
Definition constructorOfP : ClassElement :=
  {| member_id := 151; member_kind := Constructor;
     member_decorators := None; member_modifiers := [];
     member_name := None;
     member_parameters :=
       [parameter 152 "x" None;
        {| parameter_id := 153; parameter_decorators := None;
           parameter_dotDotDotToken := false;
           parameter_name := BindingPattern 154;
           parameter_type := None |}];
     member_type := None;
     member_body := Some {| block_id := 155; block_statements := [] |} |}.

Definition classP : ClassDeclaration :=
  {| class_node := {| node_id := 150; kind := SyntaxKind.ClassDeclaration;
                      node_name := Some (inl "P") |};
     class_decorators := None;
     class_modifiers := [];
     class_typeParameters := [];
     class_heritageClauses := [];
     class_members := [constructorOfP] |}.

(** The helpers of [plainUtil], with every parameter a parameter property
    when [parameterProperties] is set, every enum a const enum when
    [constEnums] is set, and every accessor one of [accessorPair] when that
    is given. *)
Definition utilWith (parameterProperties constEnums : bool)
    (accessorPair : option AllAccessorDeclarations) : Utilities :=
  {| hasSyntacticModifier := hasSyntacticModifier plainUtil;
     isTypeScriptModifier := isTypeScriptModifier plainUtil;
     nodeIsMissing := nodeIsMissing plainUtil;
     nodeIsPresent := nodeIsPresent plainUtil;
     isStatic := isStatic plainUtil;
     hasStaticModifier := hasStaticModifier plainUtil;
     nodeOrChildIsDecorated := nodeOrChildIsDecorated plainUtil;
     classOrConstructorParameterIsDecorated :=
       classOrConstructorParameterIsDecorated plainUtil;
     childIsDecorated := childIsDecorated plainUtil;
     getFirstConstructorWithBody := getFirstConstructorWithBody plainUtil;
     getAllAccessorDeclarations :=
       match accessorPair with
       | Some accessors => fun _ _ => accessors
       | None => getAllAccessorDeclarations plainUtil
       end;
     parameterIsThisKeyword := parameterIsThisKeyword plainUtil;
     isParameterPropertyDeclaration := fun _ _ => parameterProperties;
     getProperties := getProperties plainUtil;
     extendsNonNullBase := extendsNonNullBase plainUtil;
     containsTypeScriptClassSyntax := containsTypeScriptClassSyntax plainUtil;
     isSimpleInlineableExpression := isSimpleInlineableExpression plainUtil;
     skipPartiallyEmittedExpressions := skipPartiallyEmittedExpressions plainUtil;
     getOriginalNodeId := getOriginalNodeId plainUtil;
     isFunctionLike := isFunctionLike plainUtil;
     isEnumConst := fun _ => constEnums;
     getParseTreeNode_module := getParseTreeNode_module plainUtil;
     isInstantiatedModule := isInstantiatedModule plainUtil;
     isExternalModule := isExternalModule plainUtil;
     isJsonSourceFile := isJsonSourceFile plainUtil;
     isAsyncFunction := isAsyncFunction plainUtil;
     getSetAccessorTypeAnnotationNode := getSetAccessorTypeAnnotationNode plainUtil;
     getEffectiveReturnTypeNode := getEffectiveReturnTypeNode plainUtil;
     getRestParameterElementType := getRestParameterElementType plainUtil;
     insertStatementsAfterStandardPrologue :=
       insertStatementsAfterStandardPrologue plainUtil;
     mergeLexicalEnvironment := mergeLexicalEnvironment plainUtil |}.

Definition utilWithParameterProperties : Utilities := utilWith true false None.
Definition utilWithConstEnums : Utilities := utilWith false true None.

(** [@d173 get v() {}] and [@d183 set v(a) {}], a pair. *)
Definition getter_v : ClassElement :=
  {| member_id := 171; member_kind := GetAccessor;
     member_decorators := Some [decorator 173];
     member_modifiers := [];
     member_name := Some (IdentifierName 172 "v");
     member_parameters := []; member_type := None;
     member_body := Some {| block_id := 174; block_statements := [] |} |}.

Definition setter_v : ClassElement :=
  {| member_id := 181; member_kind := SetAccessor;
     member_decorators := Some [decorator 183];
     member_modifiers := [];
     member_name := Some (IdentifierName 182 "v");
     member_parameters := [parameter 185 "a" None]; member_type := None;
     member_body := Some {| block_id := 184; block_statements := [] |} |}.

Definition classWithPair : ClassDeclaration :=
  {| class_node := {| node_id := 170; kind := SyntaxKind.ClassDeclaration;
                      node_name := Some (inl "V") |};
     class_decorators := None;
     class_modifiers := [];
     class_typeParameters := [];
     class_heritageClauses := [];
     class_members := [getter_v; setter_v] |}.

Definition utilWithPair : Utilities :=
  utilWith false false
    (Some {| firstAccessor := getter_v; secondAccessor := Some setter_v;
             getAccessor := Some getter_v; setAccessor := Some setter_v |}).

(** [const enum K { }] and, after it, [enum K { }]. *)
Definition constEnumK : EnumDeclaration :=
  {| enum_node := {| node_id := 160; kind := SyntaxKind.EnumDeclaration;
                     node_name := Some (inl "K") |};
     enum_modifiers := [];
     enum_members := [] |}.

Definition laterEnumK : Node :=
  {| node_id := 165; kind := SyntaxKind.EnumDeclaration;
     node_name := Some (inl "K") |}.

(** The options that emit decorator metadata. *)
Definition withMetadata : CompilerOptions := options ES2015 false true.
End Sample.

(** ** The transformer *)

Section Transformer.
Context {Ctx : Type}.
Context (resolver : EmitResolver) (compilerOptions : CompilerOptions)
        (util : Utilities) (factory : NodeFactory)
        (context : TransformationContext Ctx) (walk : TreeWalk Ctx).

(** Calls into the transformation context. *)
Definition onContext (f : Ctx -> Ctx) : M Ctx unit :=
  modify (fun s => set_ctx (f (ctx s)) s).
Definition fromContext {A} (f : Ctx -> A * Ctx) : M Ctx A :=
  fun s => let r := f (ctx s) in Returned (fst r) (set_ctx (snd r) s).

(** [a !== b] on the saved and the current lexical scope. *)
Definition scope_differs (a b : option LexicalScope) : bool :=
  match a, b with
  | Some x, Some y => negb (Pos.eqb (scope_id x) (scope_id y))
  | None, None => false
  | _, _ => true
  end.

(** [node === other] on optional node identities. *)
Definition same_node (a : option NodeId) (b : NodeId) : bool :=
  match a with
  | Some x => Pos.eqb x b
  | None => false
  end.

Definition declaredNameInScope (node : Node) : M Ctx string :=
  match node_name node with
  | Some (inl escapedText) => ret escapedText
  | _ => fail "Debug.assertNode(node.name, isIdentifier)"
  end.

(** Records that a declaration was emitted in the current scope, if it
    was the first declaration for the provided symbol. *)
Definition recordEmittedDeclarationInScope (node : Node) : M Ctx unit :=
  m <- gets currentScopeFirstDeclarationsOfName ;;
  (match m with
   | None => modify (set_currentScopeFirstDeclarationsOfName (Some ∅))
   | Some _ => ret tt
   end) ;;;
  name <- declaredNameInScope node ;;
  m <- gets currentScopeFirstDeclarationsOfName ;;
  match m with
  | Some map =>
      match map !! name with
      | Some _ => ret tt
      | None =>
          modify (set_currentScopeFirstDeclarationsOfName
                    (Some (<[name := node_id node]> map)))
      end
  | None => ret tt
  end.

(** Determines whether a declaration is the first declaration with the
    same name emitted in the current scope. *)
Definition isFirstEmittedDeclarationInScope (node : Node) : M Ctx bool :=
  m <- gets currentScopeFirstDeclarationsOfName ;;
  match m with
  | Some map =>
      name <- declaredNameInScope node ;;
      ret (same_node (map !! name) (node_id node))
  | None => ret true
  end.

(** Performs actions that should always occur immediately before
    visiting a node. *)
Definition onBeforeVisitNode (node : Node) : M Ctx unit :=
  match kind node with
  | SyntaxKind.SourceFile
  | SyntaxKind.CaseBlock
  | SyntaxKind.ModuleBlock
  | SyntaxKind.Block =>
      modify (set_currentLexicalScope
                (Some {| scope_id := node_id node; scope_kind := kind node |})) ;;;
      modify (set_currentNameScope None) ;;;
      modify (set_currentScopeFirstDeclarationsOfName None)
  | SyntaxKind.ClassDeclaration
  | SyntaxKind.FunctionDeclaration =>
      if hasSyntacticModifier util (node_id node) ModifierFlags.Ambient
      then ret tt
      else
        (match node_name node with
         | Some _ => recordEmittedDeclarationInScope node
         | None =>
             if match kind node with
                | SyntaxKind.ClassDeclaration => true
                | _ => hasSyntacticModifier util (node_id node) ModifierFlags.Default
                end
             then ret tt
             else fail "Debug.assert(node.kind === SyntaxKind.ClassDeclaration || hasSyntacticModifier(node, ModifierFlags.Default))"
         end) ;;;
        match kind node with
        | SyntaxKind.ClassDeclaration =>
            modify (set_currentNameScope (Some (node_id node)))
        | _ => ret tt
        end
  | _ => ret tt
  end.

(** Visits a node, saving and restoring state variables on the stack. *)
Definition saveStateAndInvoke {T} (node : Node) (f : Node -> M Ctx T) : M Ctx T :=
  (* Save state *)
  savedCurrentScope <- gets currentLexicalScope ;;
  savedCurrentNameScope <- gets currentNameScope ;;
  savedCurrentScopeFirstDeclarationsOfName <-
    gets currentScopeFirstDeclarationsOfName ;;
  savedCurrentClassHasParameterProperties <-
    gets currentClassHasParameterProperties ;;
  (* Handle state changes before visiting a node. *)
  onBeforeVisitNode node ;;;
  visited <- f node ;;
  (* Restore state *)
  scope <- gets currentLexicalScope ;;
  (if scope_differs scope savedCurrentScope
   then modify (set_currentScopeFirstDeclarationsOfName
                  savedCurrentScopeFirstDeclarationsOfName)
   else ret tt) ;;;
  modify (set_currentLexicalScope savedCurrentScope) ;;;
  modify (set_currentNameScope savedCurrentNameScope) ;;;
  modify (set_currentClassHasParameterProperties
            savedCurrentClassHasParameterProperties) ;;;
  ret visited.

(** *** Substitution classes *)

Definition enableSubstitutionForNonQualifiedEnumMembers : M Ctx unit :=
  enabled <- gets enabledSubstitutions ;;
  if N.land enabled TypeScriptSubstitutionFlags.NonQualifiedEnumMembers =? 0
  then
    modify (set_enabledSubstitutions
              (N.lor enabled TypeScriptSubstitutionFlags.NonQualifiedEnumMembers)) ;;;
    onContext (enableSubstitution context SyntaxKind.Identifier)
  else ret tt.

Definition enableSubstitutionForClassAliases : M Ctx unit :=
  enabled <- gets enabledSubstitutions ;;
  if N.land enabled TypeScriptSubstitutionFlags.ClassAliases =? 0
  then
    modify (set_enabledSubstitutions
              (N.lor enabled TypeScriptSubstitutionFlags.ClassAliases)) ;;;
    onContext (enableSubstitution context SyntaxKind.Identifier) ;;;
    (* Keep track of class aliases. *)
    modify (set_classAliases (Some ∅))
  else ret tt.

Definition enableSubstitutionForNamespaceExports : M Ctx unit :=
  enabled <- gets enabledSubstitutions ;;
  if N.land enabled TypeScriptSubstitutionFlags.NamespaceExports =? 0
  then
    modify (set_enabledSubstitutions
              (N.lor enabled TypeScriptSubstitutionFlags.NamespaceExports)) ;;;
    onContext (enableSubstitution context SyntaxKind.Identifier) ;;;
    onContext (enableSubstitution context SyntaxKind.ShorthandPropertyAssignment) ;;;
    onContext (enableEmitNotification context SyntaxKind.ModuleDeclaration)
  else ret tt.

(** *** Modifiers and export shape *)

Definition modifierVisitor (node : Modifier) : M Ctx (option VisitedNode) :=
  if isTypeScriptModifier util (modifier_kind node) then ret None
  else
    ns <- gets currentNamespace ;;
    match ns, modifier_kind node with
    | Some _, ExportKeyword => ret None
    | _, _ => ret (Some (Visited (modifier_id node)))
    end.

(** [visitNodes(node.modifiers, modifierVisitor, isModifier)]: the
    modifiers the visitor keeps, in order. *)
Definition visitNodes_modifierVisitor (modifiers : list Modifier)
  : M Ctx (list VisitedNode) :=
  visited <- mapM modifierVisitor modifiers ;;
  ret (omap id visited).

Definition isExportOfNamespace (node : NodeId) : M Ctx bool :=
  ns <- gets currentNamespace ;;
  ret (bool_decide (is_Some ns)
       && hasSyntacticModifier util node ModifierFlags.Export).

Definition isExternalModuleExport (node : NodeId) : M Ctx bool :=
  ns <- gets currentNamespace ;;
  ret (negb (bool_decide (is_Some ns))
       && hasSyntacticModifier util node ModifierFlags.Export).

Definition isNamedExternalModuleExport (node : NodeId) : M Ctx bool :=
  e <- isExternalModuleExport node ;;
  ret (e && negb (hasSyntacticModifier util node ModifierFlags.Default)).

Definition isDefaultExternalModuleExport (node : NodeId) : M Ctx bool :=
  e <- isExternalModuleExport node ;;
  ret (e && hasSyntacticModifier util node ModifierFlags.Default).

(** Determines whether an exported declaration will have a qualified
    export name (e.g. [f.x] or [exports.x]). *)
Definition hasNamespaceQualifiedExportName (node : NodeId) : M Ctx bool :=
  ofNamespace <- isExportOfNamespace node ;;
  external <- isExternalModuleExport node ;;
  let m := moduleKind compilerOptions in
  ret (ofNamespace
       || (external
           && negb (ModuleKind.is_ES2015 m)
           && negb (ModuleKind.is_ES2020 m)
           && negb (ModuleKind.is_ES2022 m)
           && negb (ModuleKind.is_ESNext m)
           && negb (ModuleKind.is_System m))).

Definition getNamespaceParameterName (node : Node) : Expression :=
  GeneratedIdentifier (GeneratedNameForNode (node_id node)).

Definition getNamespaceContainerName (node : Node) : Expression :=
  GeneratedIdentifier (GeneratedNameForNode (node_id node)).

(** *** Enums and namespaces *)

(** Adds a leading VariableStatement for a enum or module declaration.
    The array [statements] that the source extends in place is returned
    extended, next to the boolean result. *)
Definition addVarForEnumOrModuleDeclaration (statements : list Statement)
    (node : Node) (modifiers : list Modifier) : M Ctx (list Statement * bool) :=
  visitedModifiers <- visitNodes_modifierVisitor modifiers ;;
  scope <- gets currentLexicalScope ;;
  match scope with
  | None => fail "TypeError: currentLexicalScope is undefined"
  | Some scope =>
      let statement :=
        VariableStatement visitedModifiers
          [(getLocalName factory node, None)]
          (match scope_kind scope with
           | SyntaxKind.SourceFile => NodeFlags_None
           | _ => NodeFlags_Let
           end)
          (Some (node_id node)) in
      recordEmittedDeclarationInScope node ;;;
      first <- isFirstEmittedDeclarationInScope node ;;
      if first
      then ret (statements ++ [statement], true)
      else
        (* For an EnumDeclaration or ModuleDeclaration that merges with a
           preceeding declaration we do not emit a leading variable
           declaration; the leading variable declaration is wrapped in a
           MergeDeclarationMarker. *)
        ret (statements ++ [MergeDeclarationMarker statement], false)
  end.

(** Gets an expression that represents a property name (for decorated
    properties or enums). *)
Definition getExpressionForPropertyName (name : PropertyName)
    (generateNameForComputedPropertyName : bool) : Expression :=
  match name with
  | PrivateIdentifierName _ _ => Identifier ""
  | ComputedPropertyName id expression =>
      if generateNameForComputedPropertyName
         && negb (isSimpleInlineableExpression util (SourceExpression expression))
      then GeneratedIdentifier (GeneratedNameForNode id)
      else SourceExpression expression
  | IdentifierName _ text => StringLiteral text
  | StringLiteralName _ text => StringLiteral text
  | NumericLiteralName _ text => NumericLiteral text
  end.

(** Transforms the value of an enum member. *)
Definition transformEnumMemberDeclarationValue (member : EnumMember)
  : M Ctx Expression :=
  match getConstantValue resolver (enumMember_id member) with
  | Some (StringValue value) => ret (StringLiteral value)
  | Some (NumberValue value) => ret (NumericLiteral value)
  | None =>
      enableSubstitutionForNonQualifiedEnumMembers ;;;
      match enumMember_initializer member with
      | Some initializer => visitExpression walk initializer
      | None => ret createVoidZero
      end
  end.

(** Transforms an enum member into a statement. *)
Definition transformEnumMember (member : EnumMember) : M Ctx Statement :=
  let name := getExpressionForPropertyName (enumMember_name member) false in
  valueExpression <- transformEnumMemberDeclarationValue member ;;
  container <- gets currentNamespaceContainerName ;;
  match container with
  | None => fail "TypeError: currentNamespaceContainerName is undefined"
  | Some container =>
      let innerAssignment :=
        createAssignment (ElementAccessExpression container name) valueExpression in
      let outerAssignment :=
        if isStringLiteral valueExpression
        then innerAssignment
        else createAssignment
               (ElementAccessExpression container innerAssignment) name in
      ret (ExpressionStatement outerAssignment None)
  end.

(** Transforms the body of an enum declaration. *)
Definition transformEnumBody (node : EnumDeclaration) (localName : Expression)
  : M Ctx Statement :=
  savedCurrentNamespaceLocalName <- gets currentNamespaceContainerName ;;
  modify (set_currentNamespaceContainerName (Some localName)) ;;;
  onContext (startLexicalEnvironment context) ;;;
  members <- mapM transformEnumMember (enum_members node) ;;
  declarations <- fromContext (endLexicalEnvironment context) ;;
  let statements :=
    insertStatementsAfterStandardPrologue util [] declarations ++ members in
  modify (set_currentNamespaceContainerName savedCurrentNamespaceLocalName) ;;;
  ret (BlockStatement statements None).

Definition shouldEmitEnumDeclaration (node : EnumDeclaration) : bool :=
  negb (isEnumConst util node) || shouldPreserveConstEnums compilerOptions.

(** [x || (x = {})], assigned to the local name when the export name is
    qualified: the argument of the enum or namespace closure. *)
Definition createModuleArgument (node : Node) : M Ctx Expression :=
  container <- gets currentNamespaceContainerName ;;
  let exportName :=
    if hasSyntacticModifier util (node_id node) ModifierFlags.Export
    then getExternalModuleOrNamespaceExportName factory container node
    else getLocalName factory node in
  let moduleArg :=
    createLogicalOr exportName
      (createAssignment exportName ObjectLiteralExpression) in
  qualified <- hasNamespaceQualifiedExportName (node_id node) ;;
  if qualified
  then ret (createAssignment (getLocalName factory node) moduleArg)
  else ret moduleArg.

(** Visits an enum declaration. *)
Definition visitEnumDeclaration (node : EnumDeclaration)
  : M Ctx (VisitResult Statement) :=
  if negb (shouldEmitEnumDeclaration node)
  then ret (Single (NotEmittedStatement (node_id (enum_node node))))
  else
    added <- addVarForEnumOrModuleDeclaration [] (enum_node node)
               (enum_modifiers node) ;;
    let statements := fst added in
    let parameterName := getNamespaceParameterName (enum_node node) in
    let containerName := getNamespaceContainerName (enum_node node) in
    moduleArg <- createModuleArgument (enum_node node) ;;
    body <- transformEnumBody node containerName ;;
    let enumStatement :=
      ExpressionStatement
        (CallExpression
           (FunctionExpression [] None [CreatedParameter parameterName] body None)
           [moduleArg])
        (Some (node_id (enum_node node))) in
    ret (Many (statements
               ++ [enumStatement;
                   EndOfDeclarationMarker (node_id (enum_node node))])).

(** Determines whether to elide a module declaration. *)
Definition shouldEmitModuleDeclaration (nodeIn : ModuleDeclaration) : bool :=
  match getParseTreeNode_module util nodeIn with
  | None => true
  | Some node => isInstantiatedModule util node (shouldPreserveConstEnums compilerOptions)
  end.

Definition blockNode (block : Block) (k : SyntaxKind.t) : Node :=
  {| node_id := block_id block; kind := k; node_name := None |}.

(** Transforms the body of a module declaration; [visitNested] is
    [visitModuleDeclaration] on the body of a dotted namespace. *)
Definition transformModuleBody
    (visitNested : ModuleDeclaration -> M Ctx (VisitResult Statement))
    (node : Node) (body : ModuleBody) (namespaceLocalName : Expression)
  : M Ctx Statement :=
  savedCurrentNamespaceContainerName <- gets currentNamespaceContainerName ;;
  savedCurrentNamespace <- gets currentNamespace ;;
  savedCurrentScopeFirstDeclarationsOfName <-
    gets currentScopeFirstDeclarationsOfName ;;
  modify (set_currentNamespaceContainerName (Some namespaceLocalName)) ;;;
  modify (set_currentNamespace (Some (node_id node))) ;;;
  modify (set_currentScopeFirstDeclarationsOfName None) ;;;
  onContext (startLexicalEnvironment context) ;;;
  statements <-
    match body with
    | NoModuleBody => ret []
    | ModuleBlockBody block =>
        saveStateAndInvoke (blockNode block SyntaxKind.ModuleBlock)
          (fun _ => visitNamespaceElements walk (block_statements block))
    | NestedModuleBody inner =>
        result <- visitNested inner ;;
        match result with
        | Undefined => ret []
        | Single statement => ret [statement]
        | Many statements => ret statements
        end
    end ;;
  declarations <- fromContext (endLexicalEnvironment context) ;;
  let statements :=
    insertStatementsAfterStandardPrologue util statements declarations in
  modify (set_currentNamespaceContainerName savedCurrentNamespaceContainerName) ;;;
  modify (set_currentNamespace savedCurrentNamespace) ;;;
  modify (set_currentScopeFirstDeclarationsOfName
            savedCurrentScopeFirstDeclarationsOfName) ;;;
  ret (BlockStatement statements
         (match body with
          | ModuleBlockBody block => Some (block_id block)
          | _ => None
          end)).

(** Visits a module declaration node. *)
Fixpoint visitModuleDeclaration (node : ModuleDeclaration)
  : M Ctx (VisitResult Statement) :=
  match node with
  | MkModuleDeclaration n modifiers body =>
      if negb (shouldEmitModuleDeclaration node)
      then ret (Single (NotEmittedStatement (node_id n)))
      else
        match node_name n with
        | Some (inl _) =>
            enableSubstitutionForNamespaceExports ;;;
            added <- addVarForEnumOrModuleDeclaration [] n modifiers ;;
            let statements := fst added in
            let parameterName := getNamespaceParameterName n in
            let containerName := getNamespaceContainerName n in
            moduleArg <- createModuleArgument n ;;
            block <- transformModuleBody visitModuleDeclaration n body containerName ;;
            let moduleStatement :=
              ExpressionStatement
                (CallExpression
                   (FunctionExpression [] None [CreatedParameter parameterName]
                      block None)
                   [moduleArg])
                (Some (node_id n)) in
            ret (Many (statements
                       ++ [moduleStatement; EndOfDeclarationMarker (node_id n)]))
        | _ =>
            fail "A TypeScript namespace should have an Identifier name."
        end
  end.

(** *** Decorator type metadata *)

(** [factory.createTempVariable(hoistVariableDeclaration)]. *)
Definition createTempVariable : M Ctx Expression :=
  id <- fromContext (nextAutoGenerateId context) ;;
  let temp := GeneratedIdentifier (TempVariable id) in
  onContext (hoistVariableDeclaration context temp) ;;;
  ret temp.

(** [factory.createUniqueName(text)]. *)
Definition createUniqueName (text : string) : M Ctx Expression :=
  id <- fromContext (nextAutoGenerateId context) ;;
  ret (GeneratedIdentifier (UniqueName text id)).

(** Gets an expression that points to the global "Symbol" constructor at
    runtime if it is available. *)
Definition getGlobalSymbolNameWithFallback : Expression :=
  ConditionalExpression
    (createTypeCheck (Identifier "Symbol") "function")
    (Identifier "Symbol")
    (Identifier "Object").

(** Gets an expression that points to the global "BigInt" constructor at
    runtime if it is available. *)
Definition getGlobalBigIntNameWithFallback : Expression :=
  if target_lt (languageVersion compilerOptions) ESNext
  then ConditionalExpression
         (createTypeCheck (Identifier "BigInt") "function")
         (Identifier "BigInt")
         (Identifier "Object")
  else Identifier "BigInt".

Definition createCheckedValue (left right : Expression) : Expression :=
  createLogicalAnd
    (createStrictInequality (TypeOfExpression left) (StringLiteral "undefined"))
    right.

(** Serializes an entity name as an expression for decorator type
    metadata. *)
Fixpoint serializeEntityNameAsExpression (node : EntityName) : Expression :=
  match node with
  | EntityIdentifier text => Identifier text
  | QualifiedName node_left node_right =>
      (* serializeQualifiedNameAsExpression *)
      PropertyAccessExpression (serializeEntityNameAsExpression node_left)
        (Identifier node_right)
  end.

(** Serializes an entity name which may not exist at runtime, but whose
    access shouldn't throw. *)
Fixpoint serializeEntityNameAsExpressionFallback (node : EntityName)
  : M Ctx Expression :=
  match node with
  | EntityIdentifier _ =>
      (* A -> typeof A !== undefined && A *)
      let copied := serializeEntityNameAsExpression node in
      ret (createCheckedValue copied copied)
  | QualifiedName (EntityIdentifier _ as node_left) _ =>
      (* A.B -> typeof A !== undefined && A.B *)
      ret (createCheckedValue (serializeEntityNameAsExpression node_left)
             (serializeEntityNameAsExpression node))
  | QualifiedName node_left node_right =>
      (* A.B.C -> typeof A !== undefined && (_a = A.B) !== void 0 && _a.C *)
      serialized <- serializeEntityNameAsExpressionFallback node_left ;;
      temp <- createTempVariable ;;
      match serialized with
      | BinaryExpression left_left _ left_right =>
          ret (createLogicalAnd
                 (createLogicalAnd left_left
                    (createStrictInequality
                       (createAssignment temp left_right) createVoidZero))
                 (PropertyAccessExpression temp (Identifier node_right)))
      | _ => fail "serializeEntityNameAsExpressionFallback: not a BinaryExpression"
      end
  end.

(** Serializes a TypeReferenceNode to an appropriate JS constructor value
    for use with decorator type metadata. *)
Definition serializeTypeReferenceNode (typeName : EntityName)
    (inConditionalBranch : bool) : M Ctx Expression :=
  nameScope <- gets currentNameScope ;;
  lexicalScope <- gets currentLexicalScope ;;
  let scope :=
    match nameScope with
    | Some c => Some c
    | None => scope_id <$> lexicalScope
    end in
  match getTypeReferenceSerializationKind resolver typeName scope with
  | TypeReferenceSerializationKind.Unknown =>
      if inConditionalBranch
      then ret (Identifier "Object")
      else
        serialized <- serializeEntityNameAsExpressionFallback typeName ;;
        temp <- createTempVariable ;;
        ret (ConditionalExpression
               (createTypeCheck (createAssignment temp serialized) "function")
               temp
               (Identifier "Object"))
  | TypeReferenceSerializationKind.TypeWithConstructSignatureAndValue =>
      ret (serializeEntityNameAsExpression typeName)
  | TypeReferenceSerializationKind.VoidNullableOrNeverType =>
      ret createVoidZero
  | TypeReferenceSerializationKind.BigIntLikeType =>
      ret getGlobalBigIntNameWithFallback
  | TypeReferenceSerializationKind.BooleanType => ret (Identifier "Boolean")
  | TypeReferenceSerializationKind.NumberLikeType => ret (Identifier "Number")
  | TypeReferenceSerializationKind.StringLikeType => ret (Identifier "String")
  | TypeReferenceSerializationKind.ArrayLikeType => ret (Identifier "Array")
  | TypeReferenceSerializationKind.ESSymbolType =>
      ret (if target_lt (languageVersion compilerOptions) ES2015
           then getGlobalSymbolNameWithFallback
           else Identifier "Symbol")
  | TypeReferenceSerializationKind.TypeWithCallSignature =>
      ret (Identifier "Function")
  | TypeReferenceSerializationKind.Promise => ret (Identifier "Promise")
  | TypeReferenceSerializationKind.ObjectType => ret (Identifier "Object")
  end.

(** The [while] loop of [serializeTypeList] that skips parentheses. *)
Fixpoint skipParenthesizedTypes (typeNode : TypeNode) : TypeNode :=
  match typeNode with
  | ParenthesizedType type => skipParenthesizedTypes type
  | _ => typeNode
  end.

Definition isNeverKeyword (typeNode : TypeNode) : bool :=
  match typeNode with NeverKeyword => true | _ => false end.

(** [typeNode.kind === LiteralType && literal.kind === NullKeyword
     || typeNode.kind === UndefinedKeyword]. *)
Definition isNullOrUndefinedType (typeNode : TypeNode) : bool :=
  match typeNode with
  | LiteralType LitNullKeyword | UndefinedKeyword => true
  | _ => false
  end.

(** [isIdentifier(e) && e.escapedText === "Object"]. *)
Definition isObjectIdentifier (e : Expression) : bool :=
  isIdentifier e && String.eqb (escapedText e) "Object".

(** The [for] loop of [serializeTypeList], from the constituents still to
    visit and the current [serializedUnion]; [serializeTypeNode] is the
    serializer of one constituent. *)
Definition serializeTypeListFrom (serializeTypeNode : TypeNode -> M Ctx Expression)
  : list TypeNode -> option Expression -> M Ctx Expression :=
  fix loop (types : list TypeNode) (serializedUnion : option Expression) :=
    match types with
    | [] =>
        (* If we were able to find common type, use it *)
        ret (default createVoidZero serializedUnion)
    | typeNode :: types =>
        let typeNode := skipParenthesizedTypes typeNode in
        if isNeverKeyword typeNode
        then loop types serializedUnion
        else if negb (strictNullChecks compilerOptions)
                && isNullOrUndefinedType typeNode
        then loop types serializedUnion
        else
          serializedIndividual <- serializeTypeNode typeNode ;;
          if isObjectIdentifier serializedIndividual
          then
            (* One of the individual is global object, return immediately *)
            ret serializedIndividual
          else
            match serializedUnion with
            | Some union =>
                (* Different types *)
                if negb (isIdentifier union)
                   || negb (isIdentifier serializedIndividual)
                   || negb (String.eqb (escapedText union)
                              (escapedText serializedIndividual))
                then ret (Identifier "Object")
                else loop types serializedUnion
            | None =>
                (* Initialize the union type *)
                loop types (Some serializedIndividual)
            end
    end.

(** [serializeTypeNode] on a node that is not [undefined]. *)
Fixpoint serializeDefinedTypeNode (node : TypeNode) : M Ctx Expression :=
  match node with
  | VoidKeyword | UndefinedKeyword | NeverKeyword => ret createVoidZero
  | ParenthesizedType type => serializeDefinedTypeNode type
  | FunctionType | ConstructorType => ret (Identifier "Function")
  | ArrayType | TupleType => ret (Identifier "Array")
  | TypePredicate | BooleanKeyword => ret (Identifier "Boolean")
  | StringKeyword => ret (Identifier "String")
  | ObjectKeyword => ret (Identifier "Object")
  | LiteralType literal =>
      match literal with
      | LitStringLiteral | LitNoSubstitutionTemplateLiteral =>
          ret (Identifier "String")
      | LitPrefixUnaryExpression | LitNumericLiteral =>
          ret (Identifier "Number")
      | LitBigIntLiteral => ret getGlobalBigIntNameWithFallback
      | LitTrueKeyword | LitFalseKeyword => ret (Identifier "Boolean")
      | LitNullKeyword => ret createVoidZero
      | LitOther _ => fail "Debug.failBadSyntaxKind(node.literal)"
      end
  | NumberKeyword => ret (Identifier "Number")
  | BigIntKeyword => ret getGlobalBigIntNameWithFallback
  | SymbolKeyword =>
      ret (if target_lt (languageVersion compilerOptions) ES2015
           then getGlobalSymbolNameWithFallback
           else Identifier "Symbol")
  | TypeReference typeName inConditionalBranch =>
      serializeTypeReferenceNode typeName inConditionalBranch
  | IntersectionType types | UnionType types =>
      serializeTypeListFrom serializeDefinedTypeNode types None
  | ConditionalType trueType falseType =>
      serializeTypeListFrom serializeDefinedTypeNode [trueType; falseType] None
  | TypeOperator operator type =>
      match operator with
      | ReadonlyOperator => serializeDefinedTypeNode type
      | _ => ret (Identifier "Object")
      end
  | TypeQuery | IndexedAccessType | MappedType | TypeLiteral
  | AnyKeyword | UnknownKeyword | ThisType | ImportType =>
      ret (Identifier "Object")
  | JSDocAllType | JSDocUnknownType | JSDocFunctionType
  | JSDocVariadicType | JSDocNamepathType =>
      ret (Identifier "Object")
  | JSDocNullableType type | JSDocNonNullableType type
  | JSDocOptionalType type =>
      serializeDefinedTypeNode type
  | OtherTypeNode _ => fail "Debug.failBadSyntaxKind(node)"
  end.

(** Serializes a type node for use with decorator type metadata. *)
Definition serializeTypeNode (node : option TypeNode) : M Ctx Expression :=
  match node with
  | None => ret (Identifier "Object")
  | Some node => serializeDefinedTypeNode node
  end.


Definition getAccessorTypeNode (node : ClassElement) : option TypeNode :=
  let accessors := resolver_getAllAccessorDeclarations resolver node in
  match setAccessor accessors ≫= getSetAccessorTypeAnnotationNode util with
  | Some type => Some type
  | None => getAccessor accessors ≫= getEffectiveReturnTypeNode util
  end.

(** Serializes the type of a node for use with decorator type metadata. *)
Definition serializeTypeOfNode (node : DecoratedNode) : M Ctx Expression :=
  match node with
  | DecoratedParameter parameter => serializeTypeNode (parameter_type parameter)
  | DecoratedMember member =>
      match member_kind member with
      | PropertyDeclaration => serializeTypeNode (member_type member)
      | SetAccessor | GetAccessor => serializeTypeNode (getAccessorTypeNode member)
      | MethodDeclaration => ret (Identifier "Function")
      | _ => ret createVoidZero
      end
  | DecoratedClass _ => ret (Identifier "Function")
  end.

Definition getParametersOfDecoratedDeclaration (node : ClassElement)
    (container : ClassDeclaration) : list ParameterDeclaration :=
  match member_kind node with
  | GetAccessor =>
      match setAccessor (getAllAccessorDeclarations util (class_members container) node) with
      | Some setAccessor => member_parameters setAccessor
      | None => member_parameters node
      end
  | _ => member_parameters node
  end.

Definition isThisIdentifier (name : BindingName) : bool :=
  match name with
  | BindingIdentifier text => String.eqb text "this"
  | BindingPattern _ => false
  end.

(** Serializes the types of the parameters of a node for use with
    decorator type metadata. *)
Definition serializeParameterTypesOfNode (node : DecoratedNode)
    (container : ClassDeclaration) : M Ctx Expression :=
  let valueDeclaration :=
    match node with
    | DecoratedClass c => getFirstConstructorWithBody util c
    | DecoratedMember member =>
        if isFunctionLike util member && nodeIsPresent util (member_body member)
        then Some member
        else None
    | DecoratedParameter _ => None
    end in
  expressions <-
    match valueDeclaration with
    | Some valueDeclaration =>
        let parameters :=
          getParametersOfDecoratedDeclaration valueDeclaration container in
        serialized <-
          mapM (fun ip : nat * ParameterDeclaration =>
                  let (i, parameter) := ip in
                  if Nat.eqb i 0 && isThisIdentifier (parameter_name parameter)
                  then ret None
                  else if parameter_dotDotDotToken parameter
                  then e <- serializeTypeNode
                              (getRestParameterElementType util (parameter_type parameter)) ;;
                       ret (Some e)
                  else e <- serializeTypeOfNode (DecoratedParameter parameter) ;;
                       ret (Some e))
               (imap pair parameters) ;;
        ret (omap id serialized)
    | None => ret []
    end ;;
  ret (ArrayLiteralExpression expressions).

(** Serializes the return type of a node for use with decorator type
    metadata. *)
Definition serializeReturnTypeOfNode (node : DecoratedNode) : M Ctx Expression :=
  match node with
  | DecoratedMember member =>
      match isFunctionLike util member, member_type member with
      | true, Some type => serializeTypeNode (Some type)
      | _, _ =>
          if isAsyncFunction util member
          then ret (Identifier "Promise")
          else ret createVoidZero
      end
  | _ => ret createVoidZero
  end.

Definition shouldAddTypeMetadata (node : DecoratedNode) : bool :=
  match node with
  | DecoratedMember member =>
      match member_kind member with
      | MethodDeclaration | GetAccessor | SetAccessor | PropertyDeclaration => true
      | _ => false
      end
  | _ => false
  end.

Definition shouldAddReturnTypeMetadata (node : DecoratedNode) : bool :=
  match node with
  | DecoratedMember member =>
      match member_kind member with
      | MethodDeclaration => true
      | _ => false
      end
  | _ => false
  end.

Definition shouldAddParamTypesMetadata (node : DecoratedNode) : bool :=
  match node with
  | DecoratedClass c => bool_decide (is_Some (getFirstConstructorWithBody util c))
  | DecoratedMember member =>
      match member_kind member with
      | MethodDeclaration | GetAccessor | SetAccessor => true
      | _ => false
      end
  | DecoratedParameter _ => false
  end.

(** [emitHelpers().createMetadataHelper(key, value)]. *)
Definition createMetadataHelper (key : string) (value : Expression)
  : M Ctx Expression :=
  onContext (requestEmitHelper context "__metadata") ;;;
  ret (MetadataHelper key value).

(** Adds optional type metadata for a declaration
    ([USE_NEW_TYPE_METADATA_FORMAT] is [false]); the array
    [decoratorExpressions] is returned extended. *)
Definition addOldTypeMetadata (node : DecoratedNode) (container : ClassDeclaration)
    (decoratorExpressions : list Expression) : M Ctx (list Expression) :=
  if emitDecoratorMetadata compilerOptions
  then
    decoratorExpressions <-
      (if shouldAddTypeMetadata node
       then type <- serializeTypeOfNode node ;;
            helper <- createMetadataHelper "design:type" type ;;
            ret (decoratorExpressions ++ [helper])
       else ret decoratorExpressions) ;;
    decoratorExpressions <-
      (if shouldAddParamTypesMetadata node
       then types <- serializeParameterTypesOfNode node container ;;
            helper <- createMetadataHelper "design:paramtypes" types ;;
            ret (decoratorExpressions ++ [helper])
       else ret decoratorExpressions) ;;
    (if shouldAddReturnTypeMetadata node
     then type <- serializeReturnTypeOfNode node ;;
          helper <- createMetadataHelper "design:returntype" type ;;
          ret (decoratorExpressions ++ [helper])
     else ret decoratorExpressions)
  else ret decoratorExpressions.

Definition addTypeMetadata := addOldTypeMetadata.

(** *** Decorators *)

(** Gets an array of arrays of decorators for the parameters of a
    function-like node. An entry [None] is a parameter without
    decorators (or a hole of the array before the first decorated one). *)
Definition getDecoratorsOfParameters (node : option ClassElement)
  : option (list (option (list Decorator))) :=
  match node with
  | None => None
  | Some node =>
      let parameters := member_parameters node in
      let firstParameterIsThis :=
        match parameters with
        | first :: _ => parameterIsThisKeyword util first
        | [] => false
        end in
      let parameters := if firstParameterIsThis then tail parameters else parameters in
      fold_left
        (fun decorators (ip : nat * ParameterDeclaration) =>
           let (i, parameter) := ip in
           match decorators, parameter_decorators parameter with
           | None, None => None
           | None, Some d => Some (replicate i None ++ [Some d])
           | Some decorators, d => Some (decorators ++ [d])
           end)
        (imap pair parameters) None
  end.

(** Gets an AllDecorators object containing the decorators for the class
    and the decorators for the parameters of the constructor of the class. *)
Definition getAllDecoratorsOfConstructor (node : ClassDeclaration)
  : option AllDecorators :=
  let decorators := class_decorators node in
  let parameters := getDecoratorsOfParameters (getFirstConstructorWithBody util node) in
  match decorators, parameters with
  | None, None => None
  | _, _ => Some {| decorators := decorators; parameters := parameters |}
  end.

Definition getAllDecoratorsOfAccessors (node : ClassDeclaration)
    (accessor : ClassElement) : option AllDecorators :=
  match member_body accessor with
  | None => None
  | Some _ =>
      let accessors := getAllAccessorDeclarations util (class_members node) accessor in
      let firstAccessorWithDecorators :=
        match member_decorators (firstAccessor accessors) with
        | Some _ => Some (firstAccessor accessors)
        | None =>
            match secondAccessor accessors with
            | Some second =>
                match member_decorators second with
                | Some _ => Some second
                | None => None
                end
            | None => None
            end
        end in
      match firstAccessorWithDecorators with
      | None => None
      | Some first =>
          if negb (Pos.eqb (member_id accessor) (member_id first))
          then None
          else
            let decorators := member_decorators first in
            let parameters := getDecoratorsOfParameters (setAccessor accessors) in
            match decorators, parameters with
            | None, None => None
            | _, _ => Some {| decorators := decorators; parameters := parameters |}
            end
      end
  end.

Definition getAllDecoratorsOfMethod (method : ClassElement) : option AllDecorators :=
  match member_body method with
  | None => None
  | Some _ =>
      let decorators := member_decorators method in
      let parameters := getDecoratorsOfParameters (Some method) in
      match decorators, parameters with
      | None, None => None
      | _, _ => Some {| decorators := decorators; parameters := parameters |}
      end
  end.

Definition getAllDecoratorsOfProperty (property : ClassElement)
  : option AllDecorators :=
  match member_decorators property with
  | None => None
  | Some decorators => Some {| decorators := Some decorators; parameters := None |}
  end.

(** Gets an AllDecorators object containing the decorators for the member
    and its parameters. *)
Definition getAllDecoratorsOfClassElement (node : ClassDeclaration)
    (member : ClassElement) : option AllDecorators :=
  match member_kind member with
  | GetAccessor | SetAccessor => getAllDecoratorsOfAccessors node member
  | MethodDeclaration => getAllDecoratorsOfMethod member
  | PropertyDeclaration => getAllDecoratorsOfProperty member
  | _ => None
  end.

Definition isDecoratedClassElement (member : ClassElement) (isStaticElement : bool)
    (parent : ClassDeclaration) : bool :=
  nodeOrChildIsDecorated util member parent
  && Bool.eqb isStaticElement (isStatic util member).

(** Gets either the static or instance members of a class that are
    decorated, or have parameters that are decorated. *)
Definition getDecoratedClassElements (node : ClassDeclaration) (isStatic : bool)
  : list ClassElement :=
  List.filter (fun m => isDecoratedClassElement m isStatic node) (class_members node).

(** Transforms a decorator into an expression. *)
Definition transformDecorator (decorator : Decorator) : M Ctx Expression :=
  visitExpression walk (decorator_expression decorator).

(** Transforms the decorators of a parameter. *)
Definition transformDecoratorsOfParameter (decorators : option (list Decorator))
    (parameterOffset : nat) : M Ctx (option (list Expression)) :=
  match decorators with
  | None => ret None
  | Some decorators =>
      expressions <-
        mapM (fun decorator =>
                e <- transformDecorator decorator ;;
                onContext (requestEmitHelper context "__param") ;;;
                ret (ParamHelper e parameterOffset))
             decorators ;;
      ret (Some expressions)
  end.

(** Transforms all of the decorators for a declaration into an array of
    expressions. *)
Definition transformAllDecoratorsOfDeclaration (node : DecoratedNode)
    (container : ClassDeclaration) (allDecorators : option AllDecorators)
  : M Ctx (option (list Expression)) :=
  match allDecorators with
  | None => ret None
  | Some allDecorators =>
      ofDeclaration <- mapM transformDecorator (default [] (decorators allDecorators)) ;;
      ofParameters <-
        mapM (fun ip : nat * option (list Decorator) =>
                transformDecoratorsOfParameter (snd ip) (fst ip))
             (imap pair (default [] (parameters allDecorators))) ;;
      let decoratorExpressions :=
        ofDeclaration ++ concat (omap id ofParameters) in
      decoratorExpressions <- addTypeMetadata node container decoratorExpressions ;;
      ret (Some decoratorExpressions)
  end.

Definition getClassPrototype (node : ClassDeclaration) : Expression :=
  PropertyAccessExpression (getDeclarationName factory (class_node node))
    (Identifier "prototype").

Definition getClassMemberPrefix (node : ClassDeclaration) (member : ClassElement)
  : Expression :=
  if isStatic util member
  then getDeclarationName factory (class_node node)
  else getClassPrototype node.

(** Generates an expression used to evaluate class element decorators at
    runtime. *)
Definition generateClassElementDecorationExpression (node : ClassDeclaration)
    (member : ClassElement) : M Ctx (option Expression) :=
  let allDecorators := getAllDecoratorsOfClassElement node member in
  decoratorExpressions <-
    transformAllDecoratorsOfDeclaration (DecoratedMember member) node allDecorators ;;
  match decoratorExpressions with
  | None => ret None
  | Some decoratorExpressions =>
      let prefix := getClassMemberPrefix node member in
      match member_name member with
      | None => fail "TypeError: member.name is undefined"
      | Some name =>
          let memberName := getExpressionForPropertyName name true in
          let descriptor :=
            if target_lt ES3 (languageVersion compilerOptions)
            then match member_kind member with
                 | PropertyDeclaration => Some createVoidZero
                 | _ => Some NullLiteral
                 end
            else None in
          onContext (requestEmitHelper context "__decorate") ;;;
          ret (Some (DecorateHelper decoratorExpressions prefix
                       (Some memberName) descriptor))
      end
  end.

(** Generates expressions used to apply decorators to either the static
    or instance members of a class. *)
Definition generateClassElementDecorationExpressions (node : ClassDeclaration)
    (isStatic : bool) : M Ctx (option (list Expression)) :=
  let members := getDecoratedClassElements node isStatic in
  generated <- mapM (generateClassElementDecorationExpression node) members ;;
  match omap id generated with
  | [] => ret None
  | expressions => ret (Some expressions)
  end.

(** Creates a statement for the provided expression. *)
Definition expressionToStatement (expression : Expression) : Statement :=
  ExpressionStatement expression None.

(** Generates statements used to apply decorators to either the static or
    instance members of a class. *)
Definition addClassElementDecorationStatements (statements : list Statement)
    (node : ClassDeclaration) (isStatic : bool) : M Ctx (list Statement) :=
  expressions <- generateClassElementDecorationExpressions node isStatic ;;
  ret (statements ++ map expressionToStatement (default [] expressions)).

(** Generates a __decorate helper call for a class constructor. *)
Definition generateConstructorDecorationExpression (node : ClassDeclaration)
  : M Ctx (option Expression) :=
  let allDecorators := getAllDecoratorsOfConstructor node in
  decoratorExpressions <-
    transformAllDecoratorsOfDeclaration (DecoratedClass node) node allDecorators ;;
  match decoratorExpressions with
  | None => ret None
  | Some decoratorExpressions =>
      aliases <- gets classAliases ;;
      let classAlias :=
        aliases ≫= (fun a => a !! getOriginalNodeId util (node_id (class_node node))) in
      let localName :=
        if target_le (languageVersion compilerOptions) ES2015
        then getInternalName factory (class_node node)
        else getLocalName factory (class_node node) in
      onContext (requestEmitHelper context "__decorate") ;;;
      let decorate := DecorateHelper decoratorExpressions localName None None in
      ret (Some (createAssignment localName
                   (match classAlias with
                    | Some classAlias => createAssignment classAlias decorate
                    | None => decorate
                    end)))
  end.

Definition addConstructorDecorationStatement (statements : list Statement)
    (node : ClassDeclaration) : M Ctx (list Statement) :=
  expression <- generateConstructorDecorationExpression node ;;
  match expression with
  | Some expression =>
      ret (statements
           ++ [ExpressionStatement expression (Some (node_id (class_node node)))])
  | None => ret statements
  end.

(** *** Classes *)

(** Gets a local alias for a class declaration if it is a decorated class
    with an internal reference to the static side of the class. *)
Definition getClassAliasIfNeeded (node : ClassDeclaration)
  : M Ctx (option Expression) :=
  if hasClassWithConstructorReference resolver (node_id (class_node node))
  then
    enableSubstitutionForClassAliases ;;;
    classAlias <- createUniqueName
                    (match node_name (class_node node) with
                     | Some (inl text) => text
                     | _ => "default"
                     end) ;;
    aliases <- gets classAliases ;;
    match aliases with
    | None => fail "TypeError: classAliases is undefined"
    | Some aliases =>
        modify (set_classAliases
                  (Some (<[getOriginalNodeId util (node_id (class_node node)) := classAlias]>
                           aliases))) ;;;
        onContext (hoistVariableDeclaration context classAlias) ;;;
        ret (Some classAlias)
    end
  else ret None.

Definition getClassFacts (node : ClassDeclaration)
    (staticProperties : list ClassElement) : M Ctx N :=
  let facts := ClassFacts.None in
  let facts :=
    if bool_decide (staticProperties ≠ [])
    then N.lor facts ClassFacts.HasStaticInitializedProperties else facts in
  let facts :=
    if extendsNonNullBase util node
    then N.lor facts ClassFacts.IsDerivedClass else facts in
  let facts :=
    if classOrConstructorParameterIsDecorated util node
    then N.lor facts ClassFacts.HasConstructorDecorators else facts in
  let facts :=
    if childIsDecorated util node
    then N.lor facts ClassFacts.HasMemberDecorators else facts in
  ofNamespace <- isExportOfNamespace (node_id (class_node node)) ;;
  defaultExport <- isDefaultExternalModuleExport (node_id (class_node node)) ;;
  namedExport <- isNamedExternalModuleExport (node_id (class_node node)) ;;
  let facts :=
    if ofNamespace then N.lor facts ClassFacts.IsExportOfNamespace
    else if defaultExport then N.lor facts ClassFacts.IsDefaultExternalExport
    else if namedExport then N.lor facts ClassFacts.IsNamedExternalExport
    else facts in
  let facts :=
    if target_le (languageVersion compilerOptions) ES5
       && hasFlag facts ClassFacts.MayNeedImmediatelyInvokedFunctionExpression
    then N.lor facts ClassFacts.UseImmediatelyInvokedFunctionExpression
    else facts in
  ret facts.

Definition isClassLikeDeclarationWithTypeScriptSyntax (node : ClassDeclaration)
  : bool :=
  bool_decide (default [] (class_decorators node) ≠ [])
  || bool_decide (class_typeParameters node ≠ [])
  || existsb (containsTypeScriptClassSyntax util) (class_heritageClauses node)
  || existsb (fun m => containsTypeScriptClassSyntax util (member_id m))
       (class_members node).

(** Transforms the members of a class. *)
Definition transformClassMembers (node : ClassDeclaration)
  : M Ctx (list ClassElementOut) :=
  let parametersWithPropertyAssignments :=
    match getFirstConstructorWithBody util node with
    | Some constructor =>
        List.filter (fun p => isParameterPropertyDeclaration util p constructor)
          (member_parameters constructor)
    | None => []
    end in
  let members :=
    omap (fun parameter =>
            match parameter_name parameter with
            | BindingIdentifier text =>
                Some (PropertyDeclarationOut []
                        (CreatedPropertyName (Identifier text)) None
                        (parameter_id parameter))
            | BindingPattern _ => None
            end)
         parametersWithPropertyAssignments in
  visited <- visitClassElements walk (class_members node) ;;
  ret (members ++ visited).

(** Transforms a non-decorated class declaration. *)
Definition createClassDeclarationHeadWithoutDecorators (node : ClassDeclaration)
    (name : option Expression) (facts : N) : M Ctx Statement :=
  (* we do not emit modifiers on the declaration if we are emitting an IIFE *)
  modifiers <-
    (if negb (hasFlag facts ClassFacts.UseImmediatelyInvokedFunctionExpression)
     then visitNodes_modifierVisitor (class_modifiers node)
     else ret []) ;;
  heritageClauses <- visitHeritageClauses walk (class_heritageClauses node) ;;
  members <- transformClassMembers node ;;
  ret (ClassDeclarationStatement modifiers name heritageClauses members
         (node_id (class_node node))).

(** Transforms a decorated class declaration. *)
Definition createClassDeclarationHeadWithDecorators (node : ClassDeclaration)
    (name : option Expression) : M Ctx Statement :=
  classAlias <- getClassAliasIfNeeded node ;;
  let declName :=
    if target_le (languageVersion compilerOptions) ES2015
    then getInternalName factory (class_node node)
    else getLocalName factory (class_node node) in
  heritageClauses <- visitHeritageClauses walk (class_heritageClauses node) ;;
  members <- transformClassMembers node ;;
  let classExpression :=
    ClassExpression name heritageClauses members (node_id (class_node node)) in
  ret (VariableStatement []
         [(declName,
           Some (match classAlias with
                 | Some classAlias => createAssignment classAlias classExpression
                 | None => classExpression
                 end))]
         NodeFlags_Let
         (Some (node_id (class_node node)))).

Definition addExportMemberAssignment (statements : list Statement) (node : Node)
  : M Ctx (list Statement) :=
  container <- gets currentNamespaceContainerName ;;
  let expression :=
    createAssignment
      (getExternalModuleOrNamespaceExportName factory container node)
      (getLocalName factory node) in
  ret (statements ++ [ExpressionStatement expression None]).

Definition visitClassDeclaration (node : ClassDeclaration)
  : M Ctx (VisitResult Statement) :=
  ns <- gets currentNamespace ;;
  if negb (isClassLikeDeclarationWithTypeScriptSyntax node)
     && negb (bool_decide (is_Some ns)
              && hasSyntacticModifier util (node_id (class_node node))
                   ModifierFlags.Export)
  then
    unchanged <- visitEachChild_class walk node ;;
    ret (Single unchanged)
  else
    let staticProperties := getProperties util node true true in
    facts <- getClassFacts node staticProperties ;;
    (if hasFlag facts ClassFacts.UseImmediatelyInvokedFunctionExpression
     then onContext (startLexicalEnvironment context)
     else ret tt) ;;;
    let name :=
      match node_name (class_node node) with
      | Some (inl text) => Some (Identifier text)
      | _ =>
          if hasFlag facts ClassFacts.NeedsName
          then Some (GeneratedIdentifier (GeneratedNameForNode (node_id (class_node node))))
          else None
      end in
    classStatement <-
      (if hasFlag facts ClassFacts.HasConstructorDecorators
       then createClassDeclarationHeadWithDecorators node name
       else createClassDeclarationHeadWithoutDecorators node name facts) ;;
    let statements := [classStatement] in
    (* Write any decorators of the node. *)
    statements <- addClassElementDecorationStatements statements node false ;;
    statements <- addClassElementDecorationStatements statements node true ;;
    statements <- addConstructorDecorationStatement statements node ;;
    statements <-
      (if hasFlag facts ClassFacts.UseImmediatelyInvokedFunctionExpression
       then
         (* When we emit a TypeScript class down to ES5, we must wrap it in
            an IIFE so that the 'es2015' transformer can properly nest
            static initializers and decorators. *)
         sourceFile <- gets currentSourceFile ;;
         match sourceFile with
         | None => fail "TypeError: currentSourceFile is undefined"
         | Some _ =>
             let localName := getInternalName factory (class_node node) in
             let outer := PartiallyEmittedExpression localName in
             let statements := statements ++ [ReturnStatement outer] in
             declarations <- fromContext (endLexicalEnvironment context) ;;
             let statements :=
               insertStatementsAfterStandardPrologue util statements declarations in
             let iife := ImmediatelyInvokedArrowFunction statements in
             let varStatement :=
               VariableStatement []
                 [(getLocalName factory (class_node node), Some iife)]
                 NodeFlags_None
                 (Some (node_id (class_node node))) in
             ret [varStatement]
         end
       else ret statements) ;;
    (* If the class is exported as part of a TypeScript namespace, emit the
       namespace export. Otherwise, if the class was exported at the top
       level and was decorated, emit an export declaration or export
       default for the class. *)
    statements <-
      (if hasFlag facts ClassFacts.IsExportOfNamespace
       then addExportMemberAssignment statements (class_node node)
       else if hasFlag facts ClassFacts.UseImmediatelyInvokedFunctionExpression
               || hasFlag facts ClassFacts.HasConstructorDecorators
       then
         if hasFlag facts ClassFacts.IsDefaultExternalExport
         then ret (statements ++ [ExportDefault (getLocalName factory (class_node node))])
         else if hasFlag facts ClassFacts.IsNamedExternalExport
         then ret (statements
                   ++ [ExternalModuleExport (getLocalName factory (class_node node))])
         else ret statements
       else ret statements) ;;
    let statements :=
      if (1 <? length statements)%nat
      then
        (* Add a DeclarationMarker as a marker for the end of the declaration *)
        statements ++ [EndOfDeclarationMarker (node_id (class_node node))]
      else statements in
    ret (singleOrMany statements).

(** *** Function-like declarations *)

(** Determines whether to emit a function-like declaration. We should
    not emit the declaration if it does not have a body. *)
Definition shouldEmitFunctionLikeDeclaration (body : option Block) : bool :=
  negb (nodeIsMissing util body).

(** Determines whether to emit an accessor declaration. We should not
    emit the declaration if it does not have a body and is abstract. *)
Definition shouldEmitAccessorDeclaration (node : ClassElement) : bool :=
  negb (nodeIsMissing util (member_body node)
        && hasSyntacticModifier util (member_id node) ModifierFlags.Abstract).

(** Visits the property name of a class element, for use when emitting
    property initializers. *)
Definition visitPropertyNameOfClassElement (member : ClassElement)
  : M Ctx PropertyNameOut :=
  match member_name member with
  | None => fail "TypeError: member.name is undefined"
  | Some name =>
      hasParameterProperties <- gets currentClassHasParameterProperties ;;
      match name with
      | ComputedPropertyName id expression =>
          if (negb (hasStaticModifier util member)
              && default false hasParameterProperties)
             || bool_decide (default [] (member_decorators member) ≠ [])
          then
            expression <- visitExpression walk expression ;;
            let innerExpression := skipPartiallyEmittedExpressions util expression in
            if negb (isSimpleInlineableExpression util innerExpression)
            then
              let generatedName := GeneratedIdentifier (GeneratedNameForNode id) in
              onContext (hoistVariableDeclaration context generatedName) ;;;
              ret (UpdatedComputedPropertyName id
                     (createAssignment generatedName expression))
            else visitPropertyName walk name
          else visitPropertyName walk name
      | _ => visitPropertyName walk name
      end
  end.

(** Transforms a parameter into a property assignment statement. *)
Definition transformParameterWithPropertyAssignment (node : ParameterDeclaration)
  : option Statement :=
  match parameter_name node with
  | BindingPattern _ => None
  | BindingIdentifier text =>
      let propertyName := Identifier text in
      let localName := Identifier text in
      Some (ExpressionStatement
              (createAssignment
                 (PropertyAccessExpression ThisExpression propertyName)
                 localName)
              (Some (parameter_id node)))
  end.

Definition transformConstructorBody (body : option Block)
    (constructor : ClassElement) : M Ctx (option Statement) :=
  let parametersWithPropertyAssignments :=
    List.filter (fun p => isParameterPropertyDeclaration util p constructor)
      (member_parameters constructor) in
  match parametersWithPropertyAssignments with
  | [] => visitFunctionBody walk body
  | _ =>
      onContext (resumeLexicalEnvironment context) ;;;
      prologue <- addPrologueDirectivesAndInitialSuperCall walk constructor ;;
      let statements := fst prologue in
      let indexOfFirstStatement := snd prologue in
      (* Add parameters with property assignments. *)
      let statements :=
        statements
        ++ omap transformParameterWithPropertyAssignment
             parametersWithPropertyAssignments in
      match body with
      | None => fail "TypeError: body is undefined"
      | Some body =>
          (* Add the existing statements, skipping the initial super call. *)
          rest <- visitStatementsFrom walk (block_statements body)
                    indexOfFirstStatement ;;
          let statements := statements ++ rest in
          (* End the lexical environment. *)
          declarations <- fromContext (endLexicalEnvironment context) ;;
          let statements := mergeLexicalEnvironment util statements declarations in
          ret (Some (BlockStatement statements (Some (block_id body))))
      end
  end.

Definition visitConstructor (node : ClassElement) : M Ctx (option ClassElementOut) :=
  if negb (shouldEmitFunctionLikeDeclaration (member_body node))
  then ret None
  else
    parameters <- visitParameterList walk (member_parameters node) ;;
    body <- transformConstructorBody (member_body node) node ;;
    ret (Some (ConstructorOut parameters body (member_id node))).

Definition visitMethodDeclaration (node : ClassElement)
  : M Ctx (option ClassElementOut) :=
  if negb (shouldEmitFunctionLikeDeclaration (member_body node))
  then ret None
  else
    modifiers <- visitNodes_modifierVisitor (member_modifiers node) ;;
    name <- visitPropertyNameOfClassElement node ;;
    parameters <- visitParameterList walk (member_parameters node) ;;
    body <- visitFunctionBody walk (member_body node) ;;
    ret (Some (MethodOut modifiers name parameters body (member_id node))).

Definition visitGetAccessor (node : ClassElement) : M Ctx (option ClassElementOut) :=
  if negb (shouldEmitAccessorDeclaration node)
  then ret None
  else
    modifiers <- visitNodes_modifierVisitor (member_modifiers node) ;;
    name <- visitPropertyNameOfClassElement node ;;
    parameters <- visitParameterList walk (member_parameters node) ;;
    body <- visitFunctionBody walk (member_body node) ;;
    ret (Some (GetAccessorOut modifiers name parameters
                 (default createEmptyBlock body) (member_id node))).

Definition visitSetAccessor (node : ClassElement) : M Ctx (option ClassElementOut) :=
  if negb (shouldEmitAccessorDeclaration node)
  then ret None
  else
    modifiers <- visitNodes_modifierVisitor (member_modifiers node) ;;
    name <- visitPropertyNameOfClassElement node ;;
    parameters <- visitParameterList walk (member_parameters node) ;;
    body <- visitFunctionBody walk (member_body node) ;;
    ret (Some (SetAccessorOut modifiers name parameters
                 (default createEmptyBlock body) (member_id node))).

Definition functionName (node : FunctionLike) : option Expression :=
  match node_name (function_node node) with
  | Some (inl text) => Some (Identifier text)
  | _ => None
  end.

Definition visitFunctionDeclaration (node : FunctionLike)
  : M Ctx (VisitResult Statement) :=
  if negb (shouldEmitFunctionLikeDeclaration (function_body node))
  then ret (Single (NotEmittedStatement (node_id (function_node node))))
  else
    modifiers <- visitNodes_modifierVisitor (function_modifiers node) ;;
    parameters <- visitParameterList walk (function_parameters node) ;;
    body <- visitFunctionBody walk (function_body node) ;;
    let updated :=
      FunctionDeclarationStatement modifiers (functionName node) parameters
        (default createEmptyBlock body) (node_id (function_node node)) in
    ofNamespace <- isExportOfNamespace (node_id (function_node node)) ;;
    if ofNamespace
    then
      statements <- addExportMemberAssignment [updated] (function_node node) ;;
      ret (Many statements)
    else ret (Single updated).

Definition visitFunctionExpression (node : FunctionLike) : M Ctx Expression :=
  if negb (shouldEmitFunctionLikeDeclaration (function_body node))
  then ret OmittedExpression
  else
    modifiers <- visitNodes_modifierVisitor (function_modifiers node) ;;
    parameters <- visitParameterList walk (function_parameters node) ;;
    body <- visitFunctionBody walk (function_body node) ;;
    ret (FunctionExpression modifiers (functionName node) parameters
           (default createEmptyBlock body)
           (Some (node_id (function_node node)))).

(** *** Source files *)

Definition sourceFileNode (node : SourceFile) : Node :=
  {| node_id := sourceFile_id node; kind := SyntaxKind.SourceFile;
     node_name := None |}.

Definition visitSourceFile (node : SourceFile) : M Ctx (list Statement) :=
  let strict :=
    alwaysStrict compilerOptions
    && negb (isExternalModule util node
             && (ModuleKind.value ModuleKind.ES2015
                 <=? ModuleKind.value (moduleKind compilerOptions)))
    && negb (isJsonSourceFile util node) in
  visitSourceElements walk (sourceFile_statements node) strict.

(** Transform TypeScript-specific syntax in a SourceFile. *)
Definition transformSourceFile (node : SourceFile) : M Ctx SourceFileResult :=
  if isDeclarationFile node
  then ret (SameSourceFile node)
  else
    modify (set_currentSourceFile (Some (sourceFile_id node))) ;;;
    visited <- saveStateAndInvoke (sourceFileNode node) (fun _ => visitSourceFile node) ;;
    helpers <- fromContext (readEmitHelpers context) ;;
    modify (set_currentSourceFile None) ;;;
    ret (UpdatedSourceFile node visited helpers).

(** *** Imports and exports *)

Context (moduleOptions : ModuleOptions) (references : ReferenceResolver)
        (moduleWalk : ModuleWalk Ctx).

Definition shouldEmitAliasDeclaration (node : NodeId) : bool :=
  if preserveValueImports moduleOptions
  then isValueAliasDeclaration references node
  else isReferencedAliasDeclaration references node.

(** [compilerOptions.importsNotUsedAsValues === ImportsNotUsedAsValues.Preserve
     || compilerOptions.importsNotUsedAsValues === ImportsNotUsedAsValues.Error],
    which the source writes out at each of its three uses. *)
Definition importsNotUsedAsValuesArePreserved : bool :=
  match importsNotUsedAsValues moduleOptions with
  | Some ImportsNotUsedAsValues.Preserve
  | Some ImportsNotUsedAsValues.Error => true
  | _ => false
  end.

(** Visits an import specifier, eliding it if its target, its references,
    and the compilation settings allow. *)
Definition visitImportSpecifier (node : ImportSpecifier) : option ImportSpecifier :=
  if negb (importSpecifier_isTypeOnly node)
     && shouldEmitAliasDeclaration (importSpecifier_id node)
  then Some node
  else None.

(** Visits named import bindings, eliding them if their targets, their
    references, and the compilation settings allow. *)
Definition visitNamedImportBindings (node : NamedImportBindings)
  : option NamedImportBindingsOut :=
  match node with
  | NamespaceImport id =>
      (* Elide a namespace import if it is not referenced. *)
      if shouldEmitAliasDeclaration id then Some (SameNamespaceImport id) else None
  | NamedImports id elements =>
      (* Elide named imports if all of its import specifiers are elided and
         settings allow. *)
      let allowEmpty :=
        preserveValueImports moduleOptions && importsNotUsedAsValuesArePreserved in
      let elements := omap visitImportSpecifier elements in
      if allowEmpty || bool_decide (elements ≠ [])
      then Some (UpdatedNamedImports id elements)
      else None
  end.

(** Visits an import clause, eliding it if its [name] and [namedBindings]
    may both be elided. *)
Definition visitImportClause (node : ImportClause) : M Ctx (option ImportClauseOut) :=
  if importClause_isTypeOnly node
  then fail "Debug.assert(!node.isTypeOnly)"
  else
    let name :=
      if shouldEmitAliasDeclaration (importClause_id node)
      then importClause_name node
      else None in
    let namedBindings := importClause_namedBindings node ≫= visitNamedImportBindings in
    if bool_decide (is_Some name) || bool_decide (is_Some namedBindings)
    then ret (Some {| clause_original := importClause_id node;
                      clause_name := name;
                      clause_namedBindings := namedBindings |})
    else ret None.

(** Visits an import declaration, eliding it if it is type-only or if it
    has an import clause that may be elided. *)
Definition visitImportDeclaration (node : ImportDeclaration)
  : M Ctx (option ImportDeclarationOut) :=
  match importClause node with
  | None =>
      (* Do not elide a side-effect only import declaration. *)
      ret (Some (SameImportDeclaration node))
  | Some clause =>
      if importClause_isTypeOnly clause
      then ret None
      else
        (* Elide the declaration if the import clause was elided. *)
        importClause <- visitImportClause clause ;;
        if bool_decide (is_Some importClause) || importsNotUsedAsValuesArePreserved
        then ret (Some (UpdatedImportDeclaration node importClause))
        else ret None
  end.

(** Visits an export assignment, eliding it if it does not contain a
    clause that resolves to a value. *)
Definition visitExportAssignment (node : NodeId) : M Ctx (option Statement) :=
  if isValueAliasDeclaration references node
  then statement <- visitEachChild_statement moduleWalk node ;;
       ret (Some statement)
  else ret None.

(** Visits an export specifier, eliding it if it does not resolve to a
    value. *)
Definition visitExportSpecifier (node : ExportSpecifier) : option ExportSpecifier :=
  if negb (exportSpecifier_isTypeOnly node)
     && isValueAliasDeclaration references (exportSpecifier_id node)
  then Some node
  else None.

(** Visits named exports, eliding it if it does not contain an export
    specifier that resolves to a value. *)
Definition visitNamedExports (id : NodeId) (elements : list ExportSpecifier)
    (allowEmpty : bool) : option NamedExportBindingsOut :=
  let elements := omap visitExportSpecifier elements in
  if allowEmpty || bool_decide (elements ≠ [])
  then Some (UpdatedNamedExports id elements)
  else None.

Definition visitNamespaceExports (id name : NodeId) : M Ctx NamedExportBindingsOut :=
  name <- visitIdentifier moduleWalk name ;;
  ret (UpdatedNamespaceExport id name).

Definition visitNamedExportBindings (node : NamedExportBindings) (allowEmpty : bool)
  : M Ctx (option NamedExportBindingsOut) :=
  match node with
  | NamespaceExport id name =>
      updated <- visitNamespaceExports id name ;;
      ret (Some updated)
  | NamedExports id elements => ret (visitNamedExports id elements allowEmpty)
  end.

(** Visits an export declaration, eliding it if it does not contain a
    clause that resolves to a value. *)
Definition visitExportDeclaration (node : ExportDeclaration)
  : M Ctx (option ExportDeclarationOut) :=
  if exportDeclaration_isTypeOnly node
  then ret None
  else
    match exportClause node with
    | None | Some (NamespaceExport _ _) =>
        (* never elide `export <whatever> from <whereever>` declarations *)
        ret (Some (SameExportDeclaration node))
    | Some clause =>
        (* Elide the export declaration if all of its named exports are
           elided. *)
        let allowEmpty :=
          bool_decide (is_Some (exportDeclaration_moduleSpecifier node))
          && importsNotUsedAsValuesArePreserved in
        exportClause <- visitNamedExportBindings clause allowEmpty ;;
        match exportClause with
        | Some exportClause => ret (Some (UpdatedExportDeclaration node exportClause))
        | None => ret None
        end
    end.

(** Determines whether to emit an import equals declaration. *)
Definition shouldEmitImportEqualsDeclaration (node : ImportEqualsDeclaration)
  : M Ctx bool :=
  if shouldEmitAliasDeclaration (node_id (importEquals_node node))
  then ret true
  else
    sourceFile <- gets currentSourceFile ;;
    match sourceFile with
    | None => fail "TypeError: currentSourceFile is undefined"
    | Some sourceFile =>
        ret (negb (isExternalModule_file moduleWalk sourceFile)
             && isTopLevelValueImportEqualsWithEntityName references
                  (node_id (importEquals_node node)))
    end.

Definition createNamespaceExport (exportName exportValue : Expression)
  : M Ctx Statement :=
  container <- gets currentNamespaceContainerName ;;
  ret (ExpressionStatement
         (createAssignment
            (getNamespaceMemberName moduleWalk container exportName)
            exportValue)
         None).

(** [setOriginalNode(statement, node)] on the statements built below. *)
Definition setOriginalNode (statement : Statement) (original : NodeId) : Statement :=
  match statement with
  | ExpressionStatement e _ => ExpressionStatement e (Some original)
  | VariableStatement modifiers declarations flags _ =>
      VariableStatement modifiers declarations flags (Some original)
  | _ => statement
  end.

(** Visits an import equals declaration. *)
Definition visitImportEqualsDeclaration (node : ImportEqualsDeclaration)
  : M Ctx (option ImportEqualsOut) :=
  let id := node_id (importEquals_node node) in
  (* Always elide type-only imports *)
  if importEquals_isTypeOnly node
  then ret None
  else
    match moduleReference node with
    | ExternalModuleReference expression =>
        let isReferenced := shouldEmitAliasDeclaration id in
        (* If the alias is unreferenced but we want to keep the import,
           replace with 'import "mod"'. *)
        if negb isReferenced
           && match importsNotUsedAsValues moduleOptions with
              | Some ImportsNotUsedAsValues.Preserve => true
              | _ => false
              end
        then ret (Some (SideEffectImport expression id))
        else if isReferenced
        then statement <- visitEachChild_statement moduleWalk id ;;
             ret (Some (ImportEqualsStatement statement))
        else ret None
    | EntityNameReference name =>
        shouldEmit <- shouldEmitImportEqualsDeclaration node ;;
        if negb shouldEmit
        then ret None
        else
          let moduleReference := createExpressionFromEntityName moduleWalk name in
          named <- isNamedExternalModuleExport id ;;
          ofNamespace <- isExportOfNamespace id ;;
          if named || negb ofNamespace
          then
            (* export var ${name} = ${moduleReference};
               var ${name} = ${moduleReference}; *)
            modifiers <- visitNodes_modifierVisitor (importEquals_modifiers node) ;;
            ret (Some (ImportEqualsStatement
                         (setOriginalNode
                            (VariableStatement modifiers
                               [(Identifier (importEquals_name node),
                                 Some moduleReference)]
                               NodeFlags_None None)
                            id)))
          else
            (* exports.${name} = ${moduleReference}; *)
            statement <- createNamespaceExport
                           (Identifier (importEquals_name node)) moduleReference ;;
            ret (Some (ImportEqualsStatement (setOriginalNode statement id)))
    end.

(** *** Substitutions at emit time *)

Definition isTransformedModuleDeclaration (node : EmittedNode) : bool :=
  match emitted_originalKind node with
  | SyntaxKind.ModuleDeclaration => true
  | _ => false
  end.

Definition isTransformedEnumDeclaration (node : EmittedNode) : bool :=
  match emitted_originalKind node with
  | SyntaxKind.EnumDeclaration => true
  | _ => false
  end.

(** Hook for node emit; [previousOnEmitNode] is the hook that was
    installed before, which prints the node. *)
Definition onEmitNode (previousOnEmitNode : EmittedNode -> M Ctx unit)
    (node : EmittedNode) : M Ctx unit :=
  savedApplicableSubstitutions <- gets applicableSubstitutions ;;
  savedCurrentSourceFile <- gets currentSourceFile ;;
  (match emitted_kind node with
   | SyntaxKind.SourceFile =>
       modify (set_currentSourceFile (Some (emitted_id node)))
   | _ => ret tt
   end) ;;;
  enabled <- gets enabledSubstitutions ;;
  (if hasFlag enabled TypeScriptSubstitutionFlags.NamespaceExports
      && isTransformedModuleDeclaration node
   then
     applicable <- gets applicableSubstitutions ;;
     modify (set_applicableSubstitutions
               (N.lor applicable TypeScriptSubstitutionFlags.NamespaceExports))
   else ret tt) ;;;
  (if hasFlag enabled TypeScriptSubstitutionFlags.NonQualifiedEnumMembers
      && isTransformedEnumDeclaration node
   then
     applicable <- gets applicableSubstitutions ;;
     modify (set_applicableSubstitutions
               (N.lor applicable TypeScriptSubstitutionFlags.NonQualifiedEnumMembers))
   else ret tt) ;;;
  previousOnEmitNode node ;;;
  modify (set_applicableSubstitutions savedApplicableSubstitutions) ;;;
  modify (set_currentSourceFile savedCurrentSourceFile).

Definition trySubstituteClassAlias (node : EmittedNode) : M Ctx (option Expression) :=
  enabled <- gets enabledSubstitutions ;;
  if hasFlag enabled TypeScriptSubstitutionFlags.ClassAliases
  then
    if hasConstructorReferenceInClass references (emitted_id node)
    then
      match getReferencedValueDeclaration references (emitted_id node) with
      | Some declaration =>
          aliases <- gets classAliases ;;
          match aliases with
          | None => fail "TypeError: classAliases is undefined"
          | Some aliases =>
              (* the clone that factory.cloneNode(classAlias) makes *)
              ret (aliases !! declaration)
          end
      | None => ret None
      end
    else ret None
  else ret None.

Definition trySubstituteNamespaceExportedName (node : EmittedNode)
  : M Ctx (option Expression) :=
  enabled <- gets enabledSubstitutions ;;
  applicable <- gets applicableSubstitutions ;;
  (* If this is explicitly a local name, do not substitute. *)
  if hasFlag enabled applicable
     && negb (emitted_isGenerated node)
     && negb (emitted_isLocalName node)
  then
    match getReferencedExportContainer references (emitted_id node) with
    | Some container =>
        let substitute :=
          match kind container with
          | SyntaxKind.SourceFile => false
          | SyntaxKind.ModuleDeclaration =>
              hasFlag applicable TypeScriptSubstitutionFlags.NamespaceExports
          | SyntaxKind.EnumDeclaration =>
              hasFlag applicable TypeScriptSubstitutionFlags.NonQualifiedEnumMembers
          | _ => false
          end in
        if substitute
        then ret (Some (PropertyAccessExpression
                          (GeneratedIdentifier (GeneratedNameForNode (node_id container)))
                          (SourceExpression (emitted_id node))))
        else ret None
    | None => ret None
    end
  else ret None.

Definition substituteExpressionIdentifier (node : EmittedNode) : M Ctx Expression :=
  classAlias <- trySubstituteClassAlias node ;;
  match classAlias with
  | Some classAlias => ret classAlias
  | None =>
      exportedName <- trySubstituteNamespaceExportedName node ;;
      ret (default (SourceExpression (emitted_id node)) exportedName)
  end.

Definition tryGetConstEnumValue (node : EmittedNode) : option ConstantValue :=
  if isolatedModules moduleOptions
  then None
  else
    match emitted_kind node with
    | SyntaxKind.PropertyAccessExpression
    | SyntaxKind.ElementAccessExpression =>
        getConstantValue resolver (emitted_id node)
    | _ => None
    end.

Definition substituteConstantValue (node : EmittedNode) : Expression :=
  match tryGetConstEnumValue node with
  | Some (StringValue value) => StringLiteral value
  | Some (NumberValue value) => NumericLiteral value
  | None => SourceExpression (emitted_id node)
  end.

Definition substituteExpression (node : EmittedNode) : M Ctx Expression :=
  match emitted_kind node with
  | SyntaxKind.Identifier => substituteExpressionIdentifier node
  | SyntaxKind.PropertyAccessExpression
  | SyntaxKind.ElementAccessExpression => ret (substituteConstantValue node)
  | _ => ret (SourceExpression (emitted_id node))
  end.

(** ** Vocabulary of the properties *)

(** The declaration recorded as the first one of [name] in the current
    scope, if any. *)
Definition firstDeclarationOfName (name : string) (s : TransformerState Ctx)
  : option NodeId :=
  currentScopeFirstDeclarationsOfName s ≫= (fun map => map !! name).

(** The leading variable statement that [addVarForEnumOrModuleDeclaration]
    builds for [node] in the lexical scope [scope]. *)
Definition leadingVariableStatement (visitedModifiers : list VisitedNode)
    (node : Node) (scope : LexicalScope) : Statement :=
  VariableStatement visitedModifiers
    [(getLocalName factory node, None)]
    (match scope_kind scope with
     | SyntaxKind.SourceFile => NodeFlags_None
     | _ => NodeFlags_Let
     end)
    (Some (node_id node)).




(** [Preserves proj m]: whenever [m] returns, the part [proj] of the
    state is what it was. *)
Definition Preserves {A X} (proj : TransformerState Ctx -> X) (m : M Ctx A)
  : Prop :=
  forall s a s', m s = Returned a s' -> proj s' = proj s.

(** The alias recorded in [classAliases] for the class of identity [id]. *)
Definition classAliasOf (id : NodeId) (s : TransformerState Ctx)
  : option Expression :=
  classAliases s ≫= (fun aliases => aliases !! id).

(** [visitClassDeclaration] lowers the class, rather than only visiting
    its children. *)
Definition isLoweredClass (node : ClassDeclaration) (s : TransformerState Ctx)
  : bool :=
  isClassLikeDeclarationWithTypeScriptSyntax node
  || (bool_decide (is_Some (currentNamespace s))
      && hasSyntacticModifier util (node_id (class_node node))
           ModifierFlags.Export).






(** The body of the wrapping function of a class lowered for ES5. *)
Definition classWrapper (node : ClassDeclaration) (statements : list Statement)
    (declarations : option (list Statement)) : Statement :=
  VariableStatement []
    [(getLocalName factory (class_node node),
      Some (ImmediatelyInvokedArrowFunction
              (insertStatementsAfterStandardPrologue util
                 (statements
                  ++ [ReturnStatement
                        (PartiallyEmittedExpression
                           (getInternalName factory (class_node node)))])
                 declarations)))]
    NodeFlags_None
    (Some (node_id (class_node node))).


(** The type nodes without a type node below them that the serializer
    visits. *)
Definition isLeafTypeNode (node : TypeNode) : bool :=
  match node with
  | ParenthesizedType _ | IntersectionType _ | UnionType _
  | ConditionalType _ _ | TypeOperator _ _
  | JSDocNullableType _ | JSDocNonNullableType _ | JSDocOptionalType _ => false
  | _ => true
  end.

(** The type annotations made only of the kinds that the [switch]
    statements of [serializeTypeNode] list. *)
Fixpoint hasKnownKinds (node : TypeNode) : bool :=
  match node with
  | OtherTypeNode _ => false
  | LiteralType (LitOther _) => false
  | ParenthesizedType type
  | JSDocNullableType type | JSDocNonNullableType type
  | JSDocOptionalType type => hasKnownKinds type
  | TypeOperator ReadonlyOperator type => hasKnownKinds type
  | IntersectionType types | UnionType types => forallb hasKnownKinds types
  | ConditionalType trueType falseType =>
      hasKnownKinds trueType && hasKnownKinds falseType
  | _ => true
  end.



(** The constituents that [serializeTypeList] compares: parentheses
    skipped, [never] left out, and [null] and [undefined] left out when
    [strictNullChecks] is off. *)
Definition isComparedConstituent (typeNode : TypeNode) : bool :=
  negb (isNeverKeyword typeNode)
  && negb (negb (strictNullChecks compilerOptions)
           && isNullOrUndefinedType typeNode).





(** The class aliases are tracked exactly from the moment the substitution
    of class aliases is enabled: [classAliases] is an array if and only if
    the flag [ClassAliases] is set. *)
Definition aliasesTracked (s : TransformerState Ctx) : Prop :=
  is_Some (classAliases s)
  <-> hasFlag (enabledSubstitutions s) TypeScriptSubstitutionFlags.ClassAliases
      = true.

(** The key of a [__metadata(key, value)] call. *)
Definition metadataKey (e : Expression) : option string :=
  match e with
  | MetadataHelper key _ => Some key
  | _ => None
  end.

(** The metadata keys of a decorated declaration, by its kind. *)
Definition designKeys (node : DecoratedNode) : list string :=
  match node with
  | DecoratedMember member =>
      match member_kind member with
      | MethodDeclaration =>
          ["design:type"; "design:paramtypes"; "design:returntype"]
      | GetAccessor | SetAccessor => ["design:type"; "design:paramtypes"]
      | PropertyDeclaration => ["design:type"]
      | _ => []
      end
  | DecoratedClass c =>
      if bool_decide (is_Some (getFirstConstructorWithBody util c))
      then ["design:paramtypes"]
      else []
  | DecoratedParameter _ => []
  end.

(** The parameters of a function-like node without its leading [this]
    parameter, as [getDecoratorsOfParameters] counts them. *)
Definition parametersAfterThis (node : ClassElement) : list ParameterDeclaration :=
  match member_parameters node with
  | first :: rest =>
      if parameterIsThisKeyword util first then rest else first :: rest
  | [] => []
  end.

(** The statement of an enum member of value [value] in the enum whose
    container is [container]: the forward assignment, inside the reverse
    assignment unless the value is a string literal. *)
Definition enumMemberStatement (container : Expression) (member : EnumMember)
    (value : Expression) : Statement :=
  let name := getExpressionForPropertyName (enumMember_name member) false in
  let forward := createAssignment (ElementAccessExpression container name) value in
  let reverse := createAssignment (ElementAccessExpression container forward) name in
  ExpressionStatement (if isStringLiteral value then forward else reverse) None.


(** The identifier an entity name starts with. *)
Fixpoint leftmostIdentifier (name : EntityName) : string :=
  match name with
  | EntityIdentifier text => text
  | QualifiedName qualifier _ => leftmostIdentifier qualifier
  end.

(** The first operand of a chain of [&&]. *)
Fixpoint firstConjunct (e : Expression) : Expression :=
  match e with
  | BinaryExpression l AmpersandAmpersandToken _ => firstConjunct l
  | _ => e
  end.

(** The modifiers that [modifierVisitor] keeps in the state [s]. *)
Definition isKeptModifier (s : TransformerState Ctx) (modifier : Modifier) : bool :=
  negb (isTypeScriptModifier util (modifier_kind modifier))
  && negb (bool_decide (is_Some (currentNamespace s))
           && match modifier_kind modifier with
              | ExportKeyword => true
              | _ => false
              end).

(** The import specifiers that are kept: not type-only, and accepted by
    [shouldEmitAliasDeclaration]. *)
Definition isKeptImportSpecifier (specifier : ImportSpecifier) : bool :=
  negb (importSpecifier_isTypeOnly specifier)
  && shouldEmitAliasDeclaration (importSpecifier_id specifier).

(** The export specifiers that are kept: not type-only, and resolving to
    a value. *)
Definition isKeptExportSpecifier (specifier : ExportSpecifier) : bool :=
  negb (exportSpecifier_isTypeOnly specifier)
  && isValueAliasDeclaration references (exportSpecifier_id specifier).

(** Some binding of an import clause survives the elision: its default
    name, its namespace import, or its named imports (one of the specifiers,
    or the empty list when the options keep it). *)
Definition importBindingSurvives (clause : ImportClause) : bool :=
  (shouldEmitAliasDeclaration (importClause_id clause)
   && bool_decide (is_Some (importClause_name clause)))
  || match importClause_namedBindings clause with
     | Some (NamespaceImport id) => shouldEmitAliasDeclaration id
     | Some (NamedImports _ elements) =>
         (preserveValueImports moduleOptions && importsNotUsedAsValuesArePreserved)
         || existsb isKeptImportSpecifier elements
     | None => false
     end.

(** The qualified name that replaces a reference to a member exported
    from the namespace or enum [container]. *)
Definition qualifiedExportedName (container : Node) (reference : EmittedNode)
  : Expression :=
  PropertyAccessExpression
    (GeneratedIdentifier (GeneratedNameForNode (node_id container)))
    (SourceExpression (emitted_id reference)).

(** The parameter properties of a constructor. *)
Definition parameterProperties (constructor : ClassElement)
  : list ParameterDeclaration :=
  List.filter (fun p => isParameterPropertyDeclaration util p constructor)
    (member_parameters constructor).

(** The name [x] of a property declaration [x;] that [transformClassMembers]
    creates, and of an assignment [this.x = x]. *)
Definition createdPropertyName (member : ClassElementOut) : option string :=
  match member with
  | PropertyDeclarationOut [] (CreatedPropertyName (Identifier x)) None _ => Some x
  | _ => None
  end.

Definition assignedPropertyName (statement : Statement) : option string :=
  match statement with
  | ExpressionStatement
      (BinaryExpression (PropertyAccessExpression ThisExpression (Identifier x))
         EqualsToken (Identifier y)) _ =>
      if String.eqb x y then Some x else None
  | _ => None
  end.

(** ** Properties *)

(** *** Reasoning about computations *)

Lemma bind_returned {A B} (m : M Ctx A) (k : A -> M Ctx B) s b s' :
  bind m k s = Returned b s' ->
  exists a s1, m s = Returned a s1 /\ k a s1 = Returned b s'.
Proof.
  unfold bind. destruct (m s) as [a s1|msg]; [eauto | discriminate].
Qed.

Lemma bind_step {A B} (m : M Ctx A) (k : A -> M Ctx B) s a s1 :
  m s = Returned a s1 -> bind m k s = k a s1.
Proof. unfold bind. intros ->. reflexivity. Qed.

Lemma hasFlag_lor_same (flags flag : N) :
  flag <> 0 -> hasFlag (N.lor flags flag) flag = true.
Proof.
  intros Hflag. unfold hasFlag.
  assert (Habsorb : N.land (N.lor flags flag) flag = flag).
  { apply N.bits_inj_iff. intros i. rewrite N.land_spec, N.lor_spec.
    destruct (N.testbit flags i), (N.testbit flag i); reflexivity. }
  rewrite Habsorb. apply negb_true_iff, N.eqb_neq, Hflag.
Qed.

Lemma Preserves_ret {A X} (proj : TransformerState Ctx -> X) (a : A) :
  Preserves proj (ret a).
Proof. intros s b s' [= _ <-]. reflexivity. Qed.

Lemma Preserves_fail {A X} (proj : TransformerState Ctx -> X) msg :
  Preserves proj (@fail Ctx A msg).
Proof. intros s b s' [=]. Qed.

Lemma Preserves_gets {A X} (proj : TransformerState Ctx -> X)
    (f : TransformerState Ctx -> A) :
  Preserves proj (gets f).
Proof. intros s b s' [= _ <-]. reflexivity. Qed.

Lemma Preserves_modify {X} (proj : TransformerState Ctx -> X) f :
  (forall s, proj (f s) = proj s) -> Preserves proj (modify f).
Proof. intros Hf s b s' [= _ <-]. apply Hf. Qed.

Lemma Preserves_onContext {X} (proj : TransformerState Ctx -> X) f :
  (forall c s, proj (set_ctx c s) = proj s) -> Preserves proj (onContext f).
Proof. intros Hf s b s' [= _ <-]. apply Hf. Qed.

Lemma Preserves_fromContext {A X} (proj : TransformerState Ctx -> X)
    (f : Ctx -> A * Ctx) :
  (forall c s, proj (set_ctx c s) = proj s) -> Preserves proj (fromContext f).
Proof. intros Hf s b s' [= _ <-]. apply Hf. Qed.

Lemma Preserves_bind {A B X} (proj : TransformerState Ctx -> X)
    (m : M Ctx A) (k : A -> M Ctx B) :
  Preserves proj m -> (forall a, Preserves proj (k a)) ->
  Preserves proj (bind m k).
Proof.
  intros Hm Hk s b s' Hrun.
  apply bind_returned in Hrun as (a & s1 & Hm1 & Hk1).
  rewrite (Hk _ _ _ _ Hk1). eapply Hm, Hm1.
Qed.

Lemma Preserves_mapM {A B X} (proj : TransformerState Ctx -> X)
    (f : A -> M Ctx B) (l : list A) :
  (forall a, Preserves proj (f a)) -> Preserves proj (mapM f l).
Proof.
  intros Hf. induction l as [|a l IH]; simpl.
  - apply Preserves_ret.
  - apply Preserves_bind; [apply Hf|]. intros b.
    apply Preserves_bind; [apply IH|]. intros bs. apply Preserves_ret.
Qed.

(** Decomposes a goal [Preserves proj m] along the structure of [m]. *)
Ltac preserves_step :=
  match goal with
  | |- Preserves _ (bind _ _) => apply Preserves_bind; [|intros ?]
  | |- Preserves _ (ret _) => apply Preserves_ret
  | |- Preserves _ (fail _) => apply Preserves_fail
  | |- Preserves _ (gets _) => apply Preserves_gets
  | |- Preserves _ (modify _) => apply Preserves_modify; intros; reflexivity
  | |- Preserves _ (onContext _) =>
      apply Preserves_onContext; first [assumption | intros; reflexivity]
  | |- Preserves _ (fromContext _) =>
      apply Preserves_fromContext; first [assumption | intros; reflexivity]
  | |- Preserves _ (mapM _ _) => apply Preserves_mapM; intros ?
  | |- Preserves _ (match ?x with _ => _ end) => destruct x
  | |- Preserves _ (let _ := _ in _) => cbv zeta
  | H : Preserves ?proj ?m |- Preserves ?proj ?m => exact H
  | H : forall x, Preserves ?proj (?f x) |- Preserves ?proj (?f _) => apply H
  end.
Ltac preserves := repeat preserves_step.

(** *** Saving and restoring the scope state *)

(** C4 (as the code has it). When [onBeforeVisitNode] and the sub-visit
    [f] return, [saveStateAndInvoke] returns the sub-visit's result and
    leaves the lexical scope, the name scope and the
    has-parameter-properties flag at their captured values. The map of
    first declarations is set back to the captured map exactly when the
    lexical scope after the sub-visit differs from the captured scope
    (the node introduced a scope); when the scope did not change, the map
    stays as the sub-visit left it, so that the names recorded in the
    current scope survive the visit. *)
Theorem saveStateAndInvoke_restores {T} (node : Node) (f : Node -> M Ctx T)
    (s s1 s2 : TransformerState Ctx) (visited : T) :
  onBeforeVisitNode node s = Returned tt s1 ->
  f node s1 = Returned visited s2 ->
  exists s',
    saveStateAndInvoke node f s = Returned visited s'
    /\ currentLexicalScope s' = currentLexicalScope s
    /\ currentNameScope s' = currentNameScope s
    /\ currentClassHasParameterProperties s'
       = currentClassHasParameterProperties s
    /\ currentScopeFirstDeclarationsOfName s'
       = (if scope_differs (currentLexicalScope s2) (currentLexicalScope s)
          then currentScopeFirstDeclarationsOfName s
          else currentScopeFirstDeclarationsOfName s2)
    /\ ctx s' = ctx s2.
Proof.
  intros Hbefore Hvisit.
  unfold saveStateAndInvoke, bind, gets, modify, ret.
  rewrite Hbefore, Hvisit.
  destruct (scope_differs (currentLexicalScope s2) (currentLexicalScope s));
    eexists; repeat split.
Qed.

(** *** Merging of enum and namespace declarations *)

Lemma mapM_modifierVisitor_returns (modifiers : list Modifier)
    (s : TransformerState Ctx) :
  exists visited, mapM modifierVisitor modifiers s = Returned visited s.
Proof.
  induction modifiers as [|m modifiers IH]; simpl.
  - eexists. reflexivity.
  - destruct IH as [visited IH].
    unfold bind, modifierVisitor at 1.
    destruct (isTypeScriptModifier util (modifier_kind m)).
    + simpl. rewrite IH. eexists. reflexivity.
    + unfold bind, gets.
      destruct (currentNamespace s), (modifier_kind m);
        simpl; rewrite IH; eexists; reflexivity.
Qed.

Lemma visitNodes_modifierVisitor_returns (modifiers : list Modifier)
    (s : TransformerState Ctx) :
  exists visited, visitNodes_modifierVisitor modifiers s = Returned visited s.
Proof.
  unfold visitNodes_modifierVisitor.
  destruct (mapM_modifierVisitor_returns modifiers s) as [visited Hvisited].
  rewrite (bind_step _ _ _ _ _ Hvisited). eexists. reflexivity.
Qed.

Lemma recordEmittedDeclarationInScope_fresh (node : Node) (name : string)
    (s : TransformerState Ctx) :
  node_name node = Some (inl name) ->
  firstDeclarationOfName name s = None ->
  recordEmittedDeclarationInScope node s
  = Returned tt
      (set_currentScopeFirstDeclarationsOfName
         (Some (<[name := node_id node]>
                  (default ∅ (currentScopeFirstDeclarationsOfName s))))
         s).
Proof.
  intros Hname Hfresh.
  unfold firstDeclarationOfName in Hfresh.
  unfold recordEmittedDeclarationInScope, declaredNameInScope, bind, gets,
    modify, ret.
  rewrite Hname.
  destruct (currentScopeFirstDeclarationsOfName s) as [map|] eqn:Hmap; simpl.
  - rewrite Hmap. simpl in Hfresh. rewrite Hfresh. reflexivity.
  - rewrite lookup_empty. reflexivity.
Qed.

Lemma recordEmittedDeclarationInScope_known (node : Node) (name : string)
    (first : NodeId) (s : TransformerState Ctx) :
  node_name node = Some (inl name) ->
  firstDeclarationOfName name s = Some first ->
  recordEmittedDeclarationInScope node s = Returned tt s.
Proof.
  intros Hname Hknown.
  unfold firstDeclarationOfName in Hknown.
  unfold recordEmittedDeclarationInScope, declaredNameInScope, bind, gets,
    modify, ret.
  rewrite Hname.
  destruct (currentScopeFirstDeclarationsOfName s) as [map|] eqn:Hmap;
    simpl in *; [|discriminate].
  rewrite Hmap, Hknown. reflexivity.
Qed.

Lemma isFirstEmittedDeclarationInScope_eval (node : Node) (name : string)
    (s : TransformerState Ctx) :
  node_name node = Some (inl name) ->
  isFirstEmittedDeclarationInScope node s
  = Returned
      (match currentScopeFirstDeclarationsOfName s with
       | Some map => same_node (map !! name) (node_id node)
       | None => true
       end)
      s.
Proof.
  intros Hname.
  unfold isFirstEmittedDeclarationInScope, declaredNameInScope, bind, gets, ret.
  destruct (currentScopeFirstDeclarationsOfName s); [|reflexivity].
  rewrite Hname. reflexivity.
Qed.

Lemma addVarForEnumOrModuleDeclaration_first (statements : list Statement)
    (node : Node) (modifiers : list Modifier) (name : string)
    (scope : LexicalScope) (s : TransformerState Ctx) :
  node_name node = Some (inl name) ->
  currentLexicalScope s = Some scope ->
  firstDeclarationOfName name s = None ->
  exists visitedModifiers s',
    addVarForEnumOrModuleDeclaration statements node modifiers s
    = Returned
        (statements ++ [leadingVariableStatement visitedModifiers node scope],
         true)
        s'
    /\ firstDeclarationOfName name s' = Some (node_id node)
    /\ currentLexicalScope s' = Some scope
    /\ currentNamespaceContainerName s' = currentNamespaceContainerName s
    /\ currentNamespace s' = currentNamespace s.
Proof.
  intros Hname Hscope Hfresh.
  destruct (visitNodes_modifierVisitor_returns modifiers s) as [visited Hvisited].
  unfold addVarForEnumOrModuleDeclaration.
  rewrite (bind_step _ _ _ _ _ Hvisited).
  unfold bind at 1, gets at 1. rewrite Hscope.
  rewrite (bind_step _ _ _ _ _
             (recordEmittedDeclarationInScope_fresh node name s Hname Hfresh)).
  rewrite (bind_step _ _ _ _ _
             (isFirstEmittedDeclarationInScope_eval node name _ Hname)).
  simpl. rewrite lookup_insert_eq. simpl. rewrite Pos.eqb_refl.
  exists visited. eexists. split; [reflexivity|].
  unfold firstDeclarationOfName. simpl. rewrite lookup_insert_eq.
  repeat split; assumption.
Qed.

Lemma addVarForEnumOrModuleDeclaration_merged (statements : list Statement)
    (node : Node) (modifiers : list Modifier) (name : string)
    (first : NodeId) (scope : LexicalScope) (s : TransformerState Ctx) :
  node_name node = Some (inl name) ->
  currentLexicalScope s = Some scope ->
  firstDeclarationOfName name s = Some first ->
  first <> node_id node ->
  exists visitedModifiers,
    addVarForEnumOrModuleDeclaration statements node modifiers s
    = Returned
        (statements
         ++ [MergeDeclarationMarker
               (leadingVariableStatement visitedModifiers node scope)],
         false)
        s.
Proof.
  intros Hname Hscope Hknown Hother.
  destruct (visitNodes_modifierVisitor_returns modifiers s) as [visited Hvisited].
  unfold addVarForEnumOrModuleDeclaration.
  rewrite (bind_step _ _ _ _ _ Hvisited).
  unfold bind at 1, gets at 1. rewrite Hscope.
  rewrite (bind_step _ _ _ _ _
             (recordEmittedDeclarationInScope_known node name first s Hname Hknown)).
  rewrite (bind_step _ _ _ _ _
             (isFirstEmittedDeclarationInScope_eval node name _ Hname)).
  unfold firstDeclarationOfName in Hknown.
  destruct (currentScopeFirstDeclarationsOfName s) as [map|]; simpl in *;
    [|discriminate].
  rewrite Hknown. simpl.
  apply Pos.eqb_neq in Hother. rewrite Hother.
  exists visited. reflexivity.
Qed.

Lemma visitNodes_modifierVisitor_preserves {X}
    (proj : TransformerState Ctx -> X) (modifiers : list Modifier) :
  Preserves proj (visitNodes_modifierVisitor modifiers).
Proof.
  intros s a s' Hrun.
  destruct (visitNodes_modifierVisitor_returns modifiers s) as [visited Hvisited].
  rewrite Hvisited in Hrun. injection Hrun as _ <-. reflexivity.
Qed.








(** *** Declaration files *)

(** C9. A declaration file is returned as it is: the result is the input
    node and no variable of the transformer or of the context changes, so
    no visitor ran and no emit helper was read or attached. *)
Theorem transformSourceFile_declaration_file (node : SourceFile)
    (s : TransformerState Ctx) :
  isDeclarationFile node = true ->
  transformSourceFile node s = Returned (SameSourceFile node) s.
Proof.
  intros Hdeclaration. unfold transformSourceFile.
  rewrite Hdeclaration. reflexivity.
Qed.

(** *** Enum members *)

(** C2. When the value of the member is lowered to [value] and the
    container of the enclosing enum is [container], the member becomes one
    expression statement: the forward assignment [container[name] = value]
    alone when [value] is a string literal, and otherwise the reverse
    assignment [container[container[name] = value] = name] around it. *)
Theorem transformEnumMember_assignments (member : EnumMember)
    (s s' : TransformerState Ctx) (valueExpression container : Expression) :
  transformEnumMemberDeclarationValue member s = Returned valueExpression s' ->
  currentNamespaceContainerName s' = Some container ->
  let name := getExpressionForPropertyName (enumMember_name member) false in
  let forward :=
    createAssignment (ElementAccessExpression container name) valueExpression in
  let reverse :=
    createAssignment (ElementAccessExpression container forward) name in
  transformEnumMember member s
  = Returned
      (ExpressionStatement
         (if isStringLiteral valueExpression then forward else reverse) None)
      s'.
Proof.
  intros Hvalue Hcontainer. simpl.
  unfold transformEnumMember.
  rewrite (bind_step _ _ _ _ _ Hvalue).
  unfold bind, gets. rewrite Hcontainer. reflexivity.
Qed.

(** C10. A member without a constant value and without an initializer
    gets the value [void 0]; the substitution class for non-qualified enum
    members is enabled on the way; and the member is emitted with the
    forward and the reverse assignment. *)
Theorem transformEnumMemberDeclarationValue_void_zero (member : EnumMember)
    (s : TransformerState Ctx) :
  getConstantValue resolver (enumMember_id member) = None ->
  enumMember_initializer member = None ->
  exists s',
    transformEnumMemberDeclarationValue member s = Returned createVoidZero s'
    /\ hasFlag (enabledSubstitutions s')
         TypeScriptSubstitutionFlags.NonQualifiedEnumMembers = true
    /\ isStringLiteral createVoidZero = false
    /\ forall container,
         currentNamespaceContainerName s = Some container ->
         let name := getExpressionForPropertyName (enumMember_name member) false in
         transformEnumMember member s
         = Returned
             (ExpressionStatement
                (createAssignment
                   (ElementAccessExpression container
                      (createAssignment
                         (ElementAccessExpression container name)
                         createVoidZero))
                   name)
                None)
             s'.
Proof.
  intros Hconstant Hinitializer.
  unfold transformEnumMember, transformEnumMemberDeclarationValue,
    enableSubstitutionForNonQualifiedEnumMembers.
  rewrite Hconstant, Hinitializer.
  unfold bind, gets, modify, onContext, ret.
  destruct (N.land (enabledSubstitutions s)
              TypeScriptSubstitutionFlags.NonQualifiedEnumMembers =? 0) eqn:Hbit.
  - eexists; repeat split.
    + simpl. apply hasFlag_lor_same. discriminate.
    + intros container Hcontainer. simpl. rewrite Hcontainer. reflexivity.
  - eexists; repeat split.
    + unfold hasFlag. rewrite Hbit. reflexivity.
    + intros container Hcontainer. simpl. rewrite Hcontainer. reflexivity.
Qed.

(** *** Declarations without a body *)

(** C8 (as the code has it). A constructor, a method, a function
    declaration and a function expression whose body is missing are
    elided: the visit returns [undefined], a not-emitted statement or an
    omitted expression, and changes nothing. An accessor whose body is
    missing is elided only when it is also [abstract]; a bodyless accessor
    that is not abstract is emitted, and an accessor that is emitted and
    whose visited body is [undefined] gets an empty block as its body. *)
Theorem bodyless_declarations_are_elided (s : TransformerState Ctx) :
  (forall node : ClassElement,
      nodeIsMissing util (member_body node) = true ->
      visitConstructor node s = Returned None s
      /\ visitMethodDeclaration node s = Returned None s
      /\ (hasSyntacticModifier util (member_id node) ModifierFlags.Abstract = true ->
          visitGetAccessor node s = Returned None s
          /\ visitSetAccessor node s = Returned None s)
      /\ (hasSyntacticModifier util (member_id node) ModifierFlags.Abstract = false ->
          forall result s',
            (visitGetAccessor node s = Returned result s' ->
             exists modifiers name parameters body,
               result = Some (GetAccessorOut modifiers name parameters
                                (default createEmptyBlock body) (member_id node))
               /\ exists s0, visitFunctionBody walk (member_body node) s0
                             = Returned body s')
            /\ (visitSetAccessor node s = Returned result s' ->
                exists modifiers name parameters body,
                  result = Some (SetAccessorOut modifiers name parameters
                                   (default createEmptyBlock body) (member_id node))
                  /\ exists s0, visitFunctionBody walk (member_body node) s0
                                = Returned body s')))
  /\ (forall node : FunctionLike,
         nodeIsMissing util (function_body node) = true ->
         visitFunctionDeclaration node s
         = Returned (Single (NotEmittedStatement (node_id (function_node node)))) s
         /\ visitFunctionExpression node s = Returned OmittedExpression s).
Proof.
  split.
  - intros node Hmissing.
    unfold visitConstructor, visitMethodDeclaration, visitGetAccessor,
      visitSetAccessor, shouldEmitFunctionLikeDeclaration,
      shouldEmitAccessorDeclaration.
    rewrite Hmissing. simpl.
    split; [reflexivity|]. split; [reflexivity|]. split.
    + intros Habstract. rewrite Habstract. split; reflexivity.
    + intros Habstract result s'. rewrite Habstract. simpl.
      split; intros Hrun.
      * apply bind_returned in Hrun as (modifiers & s1 & _ & Hrun).
        apply bind_returned in Hrun as (name & s2 & _ & Hrun).
        apply bind_returned in Hrun as (parameters & s3 & _ & Hrun).
        apply bind_returned in Hrun as (body & s4 & Hbody & Hrun).
        injection Hrun as <- <-. eauto 10.
      * apply bind_returned in Hrun as (modifiers & s1 & _ & Hrun).
        apply bind_returned in Hrun as (name & s2 & _ & Hrun).
        apply bind_returned in Hrun as (parameters & s3 & _ & Hrun).
        apply bind_returned in Hrun as (body & s4 & Hbody & Hrun).
        injection Hrun as <- <-. eauto 10.
  - intros node Hmissing.
    unfold visitFunctionDeclaration, visitFunctionExpression,
      shouldEmitFunctionLikeDeclaration.
    rewrite Hmissing. split; reflexivity.
Qed.

(** *** The type serializer *)

(** Induction on type nodes, with the constituents of a union or an
    intersection covered by [Forall]. *)
Lemma TypeNode_nested_ind (P : TypeNode -> Prop) :
  (forall t, isLeafTypeNode t = true -> P t) ->
  (forall t, P t -> P (ParenthesizedType t)) ->
  (forall ts, Forall P ts -> P (IntersectionType ts)) ->
  (forall ts, Forall P ts -> P (UnionType ts)) ->
  (forall t1 t2, P t1 -> P t2 -> P (ConditionalType t1 t2)) ->
  (forall op t, P t -> P (TypeOperator op t)) ->
  (forall t, P t -> P (JSDocNullableType t)) ->
  (forall t, P t -> P (JSDocNonNullableType t)) ->
  (forall t, P t -> P (JSDocOptionalType t)) ->
  forall t, P t.
Proof.
  intros Hleaf Hparen Hinter Hunion Hcond Hop Hnullable Hnonnull Hoptional.
  fix IH 1. intros t.
  destruct t;
    try (apply Hleaf; reflexivity).
  - apply Hparen, IH.
  - apply Hinter.
    induction types as [|t ts IHts]; constructor; [apply IH | exact IHts].
  - apply Hunion.
    induction types as [|t ts IHts]; constructor; [apply IH | exact IHts].
  - apply Hcond; apply IH.
  - apply Hop, IH.
  - apply Hnullable, IH.
  - apply Hnonnull, IH.
  - apply Hoptional, IH.
Qed.

Lemma serializeDefinedTypeNode_skipParenthesizedTypes (t : TypeNode) :
  serializeDefinedTypeNode (skipParenthesizedTypes t) = serializeDefinedTypeNode t.
Proof. induction t; try reflexivity. simpl. exact IHt. Qed.

Lemma hasKnownKinds_skipParenthesizedTypes (t : TypeNode) :
  hasKnownKinds (skipParenthesizedTypes t) = hasKnownKinds t.
Proof. induction t; try reflexivity. simpl. exact IHt. Qed.




(** One round of the loop of [serializeTypeList]. *)
Lemma serializeTypeListFrom_skipped f (t : TypeNode) (types : list TypeNode)
    (serializedUnion : option Expression) :
  isComparedConstituent (skipParenthesizedTypes t) = false ->
  serializeTypeListFrom f (t :: types) serializedUnion
  = serializeTypeListFrom f types serializedUnion.
Proof.
  unfold isComparedConstituent. intros Hskip. simpl.
  destruct (isNeverKeyword (skipParenthesizedTypes t)); [reflexivity|].
  simpl in Hskip. apply negb_false_iff in Hskip. rewrite Hskip. reflexivity.
Qed.

Lemma serializeTypeListFrom_compared f (t : TypeNode) (types : list TypeNode)
    (serializedUnion : option Expression) :
  isComparedConstituent (skipParenthesizedTypes t) = true ->
  serializeTypeListFrom f (t :: types) serializedUnion
  = (serializedIndividual <- f (skipParenthesizedTypes t) ;;
     if isObjectIdentifier serializedIndividual
     then ret serializedIndividual
     else
       match serializedUnion with
       | Some union =>
           if negb (isIdentifier union)
              || negb (isIdentifier serializedIndividual)
              || negb (String.eqb (escapedText union)
                         (escapedText serializedIndividual))
           then ret (Identifier "Object")
           else serializeTypeListFrom f types serializedUnion
       | None => serializeTypeListFrom f types (Some serializedIndividual)
       end).
Proof.
  unfold isComparedConstituent. intros Hkeep. simpl.
  apply andb_true_iff in Hkeep as [Hnever Hnull].
  apply negb_true_iff in Hnever. apply negb_true_iff in Hnull.
  rewrite Hnever, Hnull. reflexivity.
Qed.



Lemma isObjectIdentifier_true (e : Expression) :
  isObjectIdentifier e = true -> e = Identifier "Object".
Proof.
  unfold isObjectIdentifier. intros H.
  apply andb_true_iff in H as [Hid Htext].
  destruct e; try discriminate.
  simpl in Htext. apply String.eqb_eq in Htext. subst. reflexivity.
Qed.








(** *** What the decorator lowering leaves unchanged *)

Section Frame.
Context {X : Type} (proj : TransformerState Ctx -> X).
Hypothesis proj_ctx : forall c s, proj (set_ctx c s) = proj s.
Hypothesis visitExpression_preserves :
  forall e, Preserves proj (visitExpression walk e).

Lemma createTempVariable_preserves : Preserves proj createTempVariable.
Proof. unfold createTempVariable. preserves. Qed.

Lemma serializeEntityNameAsExpressionFallback_preserves (name : EntityName) :
  Preserves proj (serializeEntityNameAsExpressionFallback name).
Proof.
  induction name as [text|qualifier IH member].
  - simpl. preserves.
  - destruct qualifier as [text|qualifier' member'].
    + simpl. preserves.
    + change (serializeEntityNameAsExpressionFallback
                (QualifiedName (QualifiedName qualifier' member') member))
        with (bind (serializeEntityNameAsExpressionFallback
                      (QualifiedName qualifier' member'))
                (fun serialized =>
                   bind createTempVariable
                     (fun temp =>
                        match serialized with
                        | BinaryExpression left_left _ left_right =>
                            ret (createLogicalAnd
                                   (createLogicalAnd left_left
                                      (createStrictInequality
                                         (createAssignment temp left_right)
                                         createVoidZero))
                                   (PropertyAccessExpression temp
                                      (Identifier member)))
                        | _ => fail "serializeEntityNameAsExpressionFallback: not a BinaryExpression"
                        end))).
      apply Preserves_bind; [exact IH|]. intros serialized.
      apply Preserves_bind; [apply createTempVariable_preserves|].
      intros temp. preserves.
Qed.

Lemma serializeTypeReferenceNode_preserves typeName inConditionalBranch :
  Preserves proj (serializeTypeReferenceNode typeName inConditionalBranch).
Proof.
  unfold serializeTypeReferenceNode.
  apply Preserves_bind; [preserves|]. intros nameScope.
  apply Preserves_bind; [preserves|]. intros lexicalScope.
  destruct (getTypeReferenceSerializationKind resolver typeName _);
    try solve [preserves].
  destruct inConditionalBranch; [preserves|].
  apply Preserves_bind;
    [apply serializeEntityNameAsExpressionFallback_preserves|].
  intros serialized.
  apply Preserves_bind; [apply createTempVariable_preserves|].
  intros temp. preserves.
Qed.

Lemma serializeTypeListFrom_preserves (types : list TypeNode) :
  Forall (fun t => Preserves proj (serializeDefinedTypeNode t)) types ->
  forall serializedUnion,
    Preserves proj
      (serializeTypeListFrom serializeDefinedTypeNode types serializedUnion).
Proof.
  induction 1 as [|t types Ht _ IH]; intros serializedUnion.
  - simpl. preserves.
  - destruct (isComparedConstituent (skipParenthesizedTypes t)) eqn:Hcompared.
    + rewrite (serializeTypeListFrom_compared _ _ _ _ Hcompared).
      rewrite serializeDefinedTypeNode_skipParenthesizedTypes.
      apply Preserves_bind; [exact Ht|]. intros e.
      destruct (isObjectIdentifier e); [preserves|].
      destruct serializedUnion as [union|]; [|apply IH].
      destruct (negb (isIdentifier union) || negb (isIdentifier e)
                || negb (String.eqb (escapedText union) (escapedText e)));
        [preserves | apply IH].
    + rewrite (serializeTypeListFrom_skipped _ _ _ _ Hcompared). apply IH.
Qed.

Lemma serializeDefinedTypeNode_preserves (node : TypeNode) :
  Preserves proj (serializeDefinedTypeNode node).
Proof.
  induction node using TypeNode_nested_ind.
  - destruct node; try discriminate; simpl; try solve [preserves].
    apply serializeTypeReferenceNode_preserves.
  - exact IHnode.
  - apply (serializeTypeListFrom_preserves ts H None).
  - apply (serializeTypeListFrom_preserves ts H None).
  - apply (serializeTypeListFrom_preserves [node1; node2]).
    repeat constructor; assumption.
  - destruct op; simpl; [preserves | preserves | exact IHnode].
  - exact IHnode.
  - exact IHnode.
  - exact IHnode.
Qed.

Lemma serializeTypeNode_preserves (node : option TypeNode) :
  Preserves proj (serializeTypeNode node).
Proof.
  destruct node; simpl; [apply serializeDefinedTypeNode_preserves | preserves].
Qed.

Lemma serializeTypeOfNode_preserves (node : DecoratedNode) :
  Preserves proj (serializeTypeOfNode node).
Proof.
  destruct node as [c|member|parameter]; simpl.
  - preserves.
  - destruct (member_kind member);
      first [apply serializeTypeNode_preserves | preserves].
  - apply serializeTypeNode_preserves.
Qed.

Lemma serializeParameterTypesOfNode_preserves node container :
  Preserves proj (serializeParameterTypesOfNode node container).
Proof.
  unfold serializeParameterTypesOfNode.
  apply Preserves_bind; [|intros; preserves].
  match goal with |- Preserves _ (match ?x with _ => _ end) => destruct x end;
    [|preserves].
  apply Preserves_bind; [|intros; preserves].
  apply Preserves_mapM. intros [i parameter].
  destruct (Nat.eqb i 0 && isThisIdentifier (parameter_name parameter));
    [preserves|].
  destruct (parameter_dotDotDotToken parameter).
  - apply Preserves_bind; [apply serializeTypeNode_preserves | intros; preserves].
  - apply Preserves_bind; [apply serializeTypeOfNode_preserves | intros; preserves].
Qed.

Lemma serializeReturnTypeOfNode_preserves node :
  Preserves proj (serializeReturnTypeOfNode node).
Proof.
  destruct node as [c|member|parameter]; simpl; try solve [preserves].
  destruct (isFunctionLike util member), (member_type member);
    first [apply serializeDefinedTypeNode_preserves | preserves].
Qed.

Lemma addOldTypeMetadata_preserves node container decoratorExpressions :
  Preserves proj (addOldTypeMetadata node container decoratorExpressions).
Proof.
  unfold addOldTypeMetadata, createMetadataHelper.
  destruct (emitDecoratorMetadata compilerOptions); [|preserves].
  apply Preserves_bind.
  { destruct (shouldAddTypeMetadata node); [|preserves].
    apply Preserves_bind; [apply serializeTypeOfNode_preserves|].
    intros; preserves. }
  intros expressions1. apply Preserves_bind.
  { destruct (shouldAddParamTypesMetadata node); [|preserves].
    apply Preserves_bind; [apply serializeParameterTypesOfNode_preserves|].
    intros; preserves. }
  intros expressions2.
  destruct (shouldAddReturnTypeMetadata node); [|preserves].
  apply Preserves_bind; [apply serializeReturnTypeOfNode_preserves|].
  intros; preserves.
Qed.

Lemma transformAllDecoratorsOfDeclaration_preserves node container allDecorators :
  Preserves proj (transformAllDecoratorsOfDeclaration node container allDecorators).
Proof.
  unfold transformAllDecoratorsOfDeclaration, addTypeMetadata.
  destruct allDecorators as [allDecorators|]; [|preserves].
  apply Preserves_bind.
  { apply Preserves_mapM. intros d. apply visitExpression_preserves. }
  intros ofDeclaration. apply Preserves_bind.
  { apply Preserves_mapM. intros [i ds]. simpl.
    unfold transformDecoratorsOfParameter.
    destruct ds as [ds|]; [|preserves].
    apply Preserves_bind; [|intros; preserves].
    apply Preserves_mapM. intros d.
    apply Preserves_bind; [apply visitExpression_preserves|].
    intros; preserves. }
  intros ofParameters.
  apply Preserves_bind; [apply addOldTypeMetadata_preserves|].
  intros; preserves.
Qed.

Lemma generateClassElementDecorationExpression_preserves node member :
  Preserves proj (generateClassElementDecorationExpression node member).
Proof.
  unfold generateClassElementDecorationExpression.
  apply Preserves_bind; [apply transformAllDecoratorsOfDeclaration_preserves|].
  intros expressions. preserves.
Qed.

Lemma addClassElementDecorationStatements_preserves statements node isStatic :
  Preserves proj (addClassElementDecorationStatements statements node isStatic).
Proof.
  unfold addClassElementDecorationStatements,
    generateClassElementDecorationExpressions.
  apply Preserves_bind; [|intros; preserves].
  apply Preserves_bind; [|intros; preserves].
  apply Preserves_mapM. intros member.
  apply generateClassElementDecorationExpression_preserves.
Qed.

Lemma addConstructorDecorationStatement_preserves statements node :
  Preserves proj (addConstructorDecorationStatement statements node).
Proof.
  unfold addConstructorDecorationStatement,
    generateConstructorDecorationExpression.
  apply Preserves_bind; [|intros; preserves].
  apply Preserves_bind; [apply transformAllDecoratorsOfDeclaration_preserves|].
  intros expressions. preserves.
Qed.
End Frame.

(** *** Class aliases *)

Lemma getClassFacts_returns (node : ClassDeclaration)
    (staticProperties : list ClassElement) (s : TransformerState Ctx) :
  exists facts,
    getClassFacts node staticProperties s = Returned facts s
    /\ hasFlag facts ClassFacts.HasConstructorDecorators
       = classOrConstructorParameterIsDecorated util node.
Proof.
  unfold getClassFacts, isExportOfNamespace, isDefaultExternalModuleExport,
    isNamedExternalModuleExport, isExternalModuleExport, bind, gets, ret.
  eexists. split; [reflexivity|].
  destruct (bool_decide (staticProperties ≠ [])),
    (extendsNonNullBase util node),
    (classOrConstructorParameterIsDecorated util node),
    (childIsDecorated util node),
    (bool_decide (is_Some (currentNamespace s))),
    (hasSyntacticModifier util (node_id (class_node node)) ModifierFlags.Export),
    (hasSyntacticModifier util (node_id (class_node node)) ModifierFlags.Default),
    (target_le (languageVersion compilerOptions) ES5);
    reflexivity.
Qed.

Lemma getClassAliasIfNeeded_returned (node : ClassDeclaration)
    (s s' : TransformerState Ctx) (classAlias : option Expression) :
  getClassAliasIfNeeded node s = Returned classAlias s' ->
  if hasClassWithConstructorReference resolver (node_id (class_node node))
  then is_Some classAlias
       /\ classAliasOf (getOriginalNodeId util (node_id (class_node node))) s'
          = classAlias
  else classAlias = None /\ s' = s.
Proof.
  unfold getClassAliasIfNeeded. intros Hrun.
  destruct (hasClassWithConstructorReference resolver (node_id (class_node node))).
  - apply bind_returned in Hrun as ([] & s1 & _ & Hrun).
    apply bind_returned in Hrun as (alias & s2 & _ & Hrun).
    apply bind_returned in Hrun as (aliases & s3 & Hgets & Hrun).
    destruct aliases as [aliases|]; [|discriminate].
    unfold bind, modify, onContext, ret in Hrun.
    injection Hrun as <- <-. split; [eauto|].
    unfold classAliasOf. simpl. apply lookup_insert_eq.
  - injection Hrun as <- <-. split; reflexivity.
Qed.

Lemma classAliasOf_ctx (id : NodeId) (c : Ctx) (s : TransformerState Ctx) :
  classAliasOf id (set_ctx c s) = classAliasOf id s.
Proof. reflexivity. Qed.

(** C7 (as the code has it). Let the tree walk leave the alias of this
    class alone, and let the class have no alias yet. When
    [visitClassDeclaration] returns, [classAliases] holds an alias for the
    class if and only if the class was lowered, it has constructor
    decorators ([ClassFacts.HasConstructorDecorators]: the class or a
    parameter of its constructor is decorated) and the resolver marks it as
    referring to its own constructor. A class that needs the wrapping
    function but has no constructor decorators gets no alias. *)
Theorem class_alias_iff_constructor_decorators (node : ClassDeclaration)
    (s s' : TransformerState Ctx) (result : VisitResult Statement) :
  let id := getOriginalNodeId util (node_id (class_node node)) in
  (forall e, Preserves (classAliasOf id) (visitExpression walk e)) ->
  (forall hs, Preserves (classAliasOf id) (visitHeritageClauses walk hs)) ->
  (forall ms, Preserves (classAliasOf id) (visitClassElements walk ms)) ->
  (forall c, Preserves (classAliasOf id) (visitEachChild_class walk c)) ->
  classAliasOf id s = None ->
  visitClassDeclaration node s = Returned result s' ->
  (is_Some (classAliasOf id s')
   <-> isLoweredClass node s = true
       /\ classOrConstructorParameterIsDecorated util node = true
       /\ hasClassWithConstructorReference resolver (node_id (class_node node))
          = true).
Proof.
  intros id Hexpression Hheritage Hmembers Hchildren Hnone Hrun.
  unfold visitClassDeclaration in Hrun.
  apply bind_returned in Hrun as (ns & s0 & Hns & Hrun).
  injection Hns as <- <-.
  replace (negb (isClassLikeDeclarationWithTypeScriptSyntax node)
           && negb (bool_decide (is_Some (currentNamespace s))
                    && hasSyntacticModifier util (node_id (class_node node))
                         ModifierFlags.Export))
    with (negb (isLoweredClass node s)) in Hrun
    by (unfold isLoweredClass; apply negb_orb).
  destruct (isLoweredClass node s) eqn:Hlowered; simpl in Hrun.
  2:{ apply bind_returned in Hrun as (unchanged & s1 & Hvisit & Hrun).
      injection Hrun as _ <-.
      rewrite (Hchildren _ _ _ _ Hvisit), Hnone.
      split; [intros [? [=]] | intros ([=] & _)]. }
  destruct (getClassFacts_returns node (getProperties util node true true) s)
    as (facts & Hfacts & Hdecorated).
  rewrite (bind_step _ _ _ _ _ Hfacts) in Hrun.
  apply bind_returned in Hrun as ([] & s1 & Hstart & Hrun).
  assert (Halias1 : classAliasOf id s1 = None).
  { rewrite <- Hnone.
    match type of Hstart with
    | ?m _ = _ =>
        assert (Hpreserved : Preserves (classAliasOf id) m) by preserves
    end.
    exact (Hpreserved _ _ _ Hstart). }
  apply bind_returned in Hrun as (classStatement & s2 & Hhead & Hrun).
  assert (Htail : classAliasOf id s' = classAliasOf id s2).
  { match type of Hrun with
    | ?m _ = _ => assert (Hpreserved : Preserves (classAliasOf id) m)
    end; [|exact (Hpreserved _ _ _ Hrun)].
    apply Preserves_bind;
      [apply addClassElementDecorationStatements_preserves;
       [apply classAliasOf_ctx | exact Hexpression]|].
    intros statements1. apply Preserves_bind;
      [apply addClassElementDecorationStatements_preserves;
       [apply classAliasOf_ctx | exact Hexpression]|].
    intros statements2. apply Preserves_bind;
      [apply addConstructorDecorationStatement_preserves;
       [apply classAliasOf_ctx | exact Hexpression]|].
    intros statements3. unfold addExportMemberAssignment. preserves. }
  rewrite Htail, Hdecorated in *.
  assert (Hmembers' : Preserves (classAliasOf id) (transformClassMembers node)).
  { unfold transformClassMembers. preserves. }
  destruct (classOrConstructorParameterIsDecorated util node).
  - unfold createClassDeclarationHeadWithDecorators in Hhead.
    apply bind_returned in Hhead as (classAlias & s3 & Halias & Hhead).
    assert (Hrest : classAliasOf id s2 = classAliasOf id s3).
    { match type of Hhead with
      | ?m _ = _ =>
          assert (Hpreserved : Preserves (classAliasOf id) m) by preserves
      end.
      exact (Hpreserved _ _ _ Hhead). }
    rewrite Hrest.
    apply getClassAliasIfNeeded_returned in Halias.
    destruct (hasClassWithConstructorReference resolver (node_id (class_node node))).
    + destruct Halias as [Hsome Halias].
      change (classAliasOf id s3 = classAlias) in Halias.
      rewrite Halias. tauto.
    + destruct Halias as [-> ->]. rewrite Halias1.
      split; [intros [? [=]] | intros (_ & _ & [=])].
  - assert (Hrest : classAliasOf id s2 = classAliasOf id s1).
    { match type of Hhead with
      | ?m _ = _ => assert (Hpreserved : Preserves (classAliasOf id) m)
      end; [|exact (Hpreserved _ _ _ Hhead)].
      unfold createClassDeclarationHeadWithoutDecorators.
      apply Preserves_bind.
      { destruct (negb (hasFlag facts
                          ClassFacts.UseImmediatelyInvokedFunctionExpression));
          [apply visitNodes_modifierVisitor_preserves | preserves]. }
      intros modifiers. preserves. }
    rewrite Hrest, Halias1.
    split; [intros [? [=]] | intros (_ & [=] & _)].
Qed.

(** *** Order of the decoration statements *)








(** *** Further properties: the first declarations of a scope *)


(** X2. Recording a declaration and then asking whether it is the first
    one of its name answers [true] exactly when no other declaration of
    that name was recorded in the scope before. *)
Theorem isFirstEmittedDeclarationInScope_after_record (node : Node)
    (name : string) (s : TransformerState Ctx) :
  node_name node = Some (inl name) ->
  exists s',
    (recordEmittedDeclarationInScope node ;;;
     isFirstEmittedDeclarationInScope node) s
    = Returned
        (match firstDeclarationOfName name s with
         | Some first => Pos.eqb first (node_id node)
         | None => true
         end)
        s'.
Proof.
  intros Hname.
  destruct (firstDeclarationOfName name s) as [first|] eqn:Hfirst.
  - rewrite (bind_step _ _ _ _ _
               (recordEmittedDeclarationInScope_known node name first s Hname Hfirst)).
    rewrite (isFirstEmittedDeclarationInScope_eval node name s Hname).
    unfold firstDeclarationOfName in Hfirst.
    destruct (currentScopeFirstDeclarationsOfName s) as [map|];
      simpl in Hfirst; [|discriminate].
    rewrite Hfirst. eexists. reflexivity.
  - rewrite (bind_step _ _ _ _ _
               (recordEmittedDeclarationInScope_fresh node name s Hname Hfirst)).
    rewrite (isFirstEmittedDeclarationInScope_eval node name _ Hname).
    simpl. rewrite lookup_insert_eq. simpl. rewrite Pos.eqb_refl.
    eexists. reflexivity.
Qed.

(** X3. A namespace or enum that follows a class or function declaration
    of its name in the same scope merges with it. When a named class or
    function declaration that is not ambient is visited through
    [saveStateAndInvoke] in a scope that has not recorded its name, by a
    visitor that leaves the scope and its first declarations as it finds
    them, the declaration stays recorded after the visit:
    [addVarForEnumOrModuleDeclaration] then wraps the variable statement of
    a later declaration of that name in a merge marker and answers
    [false]. *)
Theorem declaration_merges_with_earlier_class_or_function {T}
    (declaration later : Node) (laterModifiers : list Modifier)
    (name : string) (scope : LexicalScope) (f : Node -> M Ctx T) (visited : T)
    (s : TransformerState Ctx) :
  kind declaration = SyntaxKind.ClassDeclaration
  \/ kind declaration = SyntaxKind.FunctionDeclaration ->
  hasSyntacticModifier util (node_id declaration) ModifierFlags.Ambient = false ->
  node_name declaration = Some (inl name) ->
  node_name later = Some (inl name) ->
  node_id declaration <> node_id later ->
  currentLexicalScope s = Some scope ->
  firstDeclarationOfName name s = None ->
  (forall s1, exists s2,
      f declaration s1 = Returned visited s2
      /\ currentLexicalScope s2 = currentLexicalScope s1
      /\ currentScopeFirstDeclarationsOfName s2
         = currentScopeFirstDeclarationsOfName s1) ->
  exists s' visitedModifiers,
    saveStateAndInvoke declaration f s = Returned visited s'
    /\ firstDeclarationOfName name s' = Some (node_id declaration)
    /\ addVarForEnumOrModuleDeclaration [] later laterModifiers s'
       = Returned
           ([MergeDeclarationMarker
               (leadingVariableStatement visitedModifiers later scope)],
            false)
           s'.
Proof.
  intros Hkind Hambient Hname Hlater Hother Hscope Hfresh Hf.
  pose proof (recordEmittedDeclarationInScope_fresh declaration name s Hname Hfresh)
    as Hrecord.
  assert (Hbefore : exists s1,
             onBeforeVisitNode declaration s = Returned tt s1
             /\ currentLexicalScope s1 = Some scope
             /\ firstDeclarationOfName name s1 = Some (node_id declaration)).
  { unfold onBeforeVisitNode.
    destruct Hkind as [-> | ->]; rewrite Hambient, Hname;
      rewrite (bind_step _ _ _ _ _ Hrecord);
      (eexists; split; [reflexivity|]);
      unfold firstDeclarationOfName; simpl; rewrite lookup_insert_eq;
      (split; [assumption | reflexivity]). }
  destruct Hbefore as (s1 & Hbefore & Hscope1 & Hfirst1).
  destruct (Hf s1) as (s2 & Hvisit & Hscope2 & Hmap2).
  assert (Hsave : exists s',
             saveStateAndInvoke declaration f s = Returned visited s'
             /\ currentLexicalScope s' = Some scope
             /\ firstDeclarationOfName name s' = Some (node_id declaration)).
  { unfold saveStateAndInvoke, bind, gets, modify, ret.
    rewrite Hbefore, Hvisit, Hscope2, Hscope1, Hscope.
    unfold scope_differs. rewrite Pos.eqb_refl. simpl.
    eexists. split; [reflexivity|]. split; [reflexivity|].
    unfold firstDeclarationOfName in *. simpl. rewrite Hmap2. exact Hfirst1. }
  destruct Hsave as (s' & Hsave & Hscope' & Hfirst').
  destruct (addVarForEnumOrModuleDeclaration_merged [] later laterModifiers name
              (node_id declaration) scope s' Hlater Hscope' Hfirst' Hother)
    as [visitedModifiers Hmerged].
  exists s', visitedModifiers. repeat split; assumption.
Qed.

(** *** Further properties: substitution classes and class aliases *)

(** X4. Enabling a substitution class twice is the same as enabling it
    once: the second call finds the flag set, so it does not ask the
    context again and, for class aliases, does not empty [classAliases]
    again. *)
Theorem enableSubstitution_twice (s : TransformerState Ctx) :
  (enableSubstitutionForNonQualifiedEnumMembers ;;;
   enableSubstitutionForNonQualifiedEnumMembers) s
  = enableSubstitutionForNonQualifiedEnumMembers s
  /\ (enableSubstitutionForClassAliases ;;; enableSubstitutionForClassAliases) s
     = enableSubstitutionForClassAliases s
  /\ (enableSubstitutionForNamespaceExports ;;;
      enableSubstitutionForNamespaceExports) s
     = enableSubstitutionForNamespaceExports s.
Proof.
  assert (Hset : forall flags flag, flag <> 0 ->
                   (N.land (N.lor flags flag) flag =? 0) = false).
  { intros flags flag Hflag. apply negb_true_iff.
    exact (hasFlag_lor_same flags flag Hflag). }
  unfold enableSubstitutionForNonQualifiedEnumMembers,
    enableSubstitutionForClassAliases, enableSubstitutionForNamespaceExports,
    bind, gets, modify, onContext, ret.
  repeat split.
  - destruct (N.land (enabledSubstitutions s)
                TypeScriptSubstitutionFlags.NonQualifiedEnumMembers =? 0) eqn:Hflag;
      simpl; [rewrite Hset by discriminate | rewrite Hflag]; reflexivity.
  - destruct (N.land (enabledSubstitutions s)
                TypeScriptSubstitutionFlags.ClassAliases =? 0) eqn:Hflag;
      simpl; [rewrite Hset by discriminate | rewrite Hflag]; reflexivity.
  - destruct (N.land (enabledSubstitutions s)
                TypeScriptSubstitutionFlags.NamespaceExports =? 0) eqn:Hflag;
      simpl; [rewrite Hset by discriminate | rewrite Hflag]; reflexivity.
Qed.

(** X5. [getClassAliasIfNeeded] keeps the aliases of the other classes.
    In a state that tracks its class aliases it never aborts and leaves a
    state that tracks them; for a class that the resolver marks it returns
    a fresh unique name and records it as the alias of the class, with the
    substitution of class aliases enabled; for any other class it returns
    [undefined] and changes nothing; and the alias of every other class is
    what it was. *)
Theorem getClassAliasIfNeeded_keeps_other_aliases (node : ClassDeclaration)
    (s : TransformerState Ctx) :
  let id := getOriginalNodeId util (node_id (class_node node)) in
  aliasesTracked s ->
  exists result s',
    getClassAliasIfNeeded node s = Returned result s'
    /\ aliasesTracked s'
    /\ (if hasClassWithConstructorReference resolver (node_id (class_node node))
        then exists text autoGenerateId,
               result = Some (GeneratedIdentifier (UniqueName text autoGenerateId))
               /\ classAliasOf id s' = result
               /\ hasFlag (enabledSubstitutions s')
                    TypeScriptSubstitutionFlags.ClassAliases = true
        else result = None /\ s' = s)
    /\ forall other, other <> id -> classAliasOf other s' = classAliasOf other s.
Proof.
  intros id Htracked. unfold aliasesTracked in Htracked.
  unfold getClassAliasIfNeeded.
  destruct (hasClassWithConstructorReference resolver (node_id (class_node node)));
    [|exists None, s; repeat split; apply Htracked].
  unfold enableSubstitutionForClassAliases, createUniqueName, aliasesTracked,
    classAliasOf, hasFlag, bind, gets, modify, onContext, fromContext, ret in *.
  fold id.
  destruct (N.land (enabledSubstitutions s)
              TypeScriptSubstitutionFlags.ClassAliases =? 0) eqn:Hflag; simpl.
  - assert (Hnone : classAliases s = None).
    { destruct (classAliases s) as [aliases|]; [|reflexivity].
      destruct Htracked as [Htracked _].
      discriminate Htracked. eexists. reflexivity. }
    eexists. eexists. split; [reflexivity|]. simpl.
    assert (Hset : (N.land (N.lor (enabledSubstitutions s)
                              TypeScriptSubstitutionFlags.ClassAliases)
                      TypeScriptSubstitutionFlags.ClassAliases =? 0) = false).
    { apply negb_true_iff. apply hasFlag_lor_same. discriminate. }
    rewrite Hset. simpl. rewrite lookup_insert_eq.
    repeat split; eauto.
    intros other Hother. rewrite Hnone. simpl.
    rewrite lookup_insert_ne by congruence. apply lookup_empty.
  - destruct (classAliases s) as [aliases|] eqn:Haliases.
    + eexists. eexists. split; [reflexivity|]. simpl.
      rewrite Hflag, lookup_insert_eq. simpl.
      repeat split; eauto.
      intros other Hother. rewrite lookup_insert_ne by congruence. reflexivity.
    + destruct Htracked as [_ Htracked].
      destruct Htracked as [aliases [=]]. reflexivity.
Qed.

(** X6. The class facts decode to what they were computed from: each
    flag of [getClassFacts] is set exactly under its condition, at most one
    of the three export flags is set, and the class is marked for the
    wrapping function exactly when the target is ES5 or lower and the class
    has decorators (on the constructor or on a member) or static
    initialized properties. The state is not changed. *)
Theorem getClassFacts_decoded (node : ClassDeclaration)
    (staticProperties : list ClassElement) (s : TransformerState Ctx) :
  let id := node_id (class_node node) in
  let inNamespace := bool_decide (is_Some (currentNamespace s)) in
  let exported := hasSyntacticModifier util id ModifierFlags.Export in
  let isDefault := hasSyntacticModifier util id ModifierFlags.Default in
  exists facts,
    getClassFacts node staticProperties s = Returned facts s
    /\ hasFlag facts ClassFacts.HasStaticInitializedProperties
       = bool_decide (staticProperties ≠ [])
    /\ hasFlag facts ClassFacts.IsDerivedClass = extendsNonNullBase util node
    /\ hasFlag facts ClassFacts.HasConstructorDecorators
       = classOrConstructorParameterIsDecorated util node
    /\ hasFlag facts ClassFacts.HasMemberDecorators = childIsDecorated util node
    /\ hasFlag facts ClassFacts.IsExportOfNamespace = inNamespace && exported
    /\ hasFlag facts ClassFacts.IsDefaultExternalExport
       = negb inNamespace && exported && isDefault
    /\ hasFlag facts ClassFacts.IsNamedExternalExport
       = negb inNamespace && exported && negb isDefault
    /\ hasFlag facts ClassFacts.UseImmediatelyInvokedFunctionExpression
       = target_le (languageVersion compilerOptions) ES5
         && (bool_decide (staticProperties ≠ [])
             || classOrConstructorParameterIsDecorated util node
             || childIsDecorated util node).
Proof.
  intros id inNamespace exported isDefault.
  subst id inNamespace exported isDefault.
  unfold getClassFacts, isExportOfNamespace, isDefaultExternalModuleExport,
    isNamedExternalModuleExport, isExternalModuleExport, bind, gets, ret.
  eexists. split; [reflexivity|].
  destruct (bool_decide (staticProperties ≠ [])),
    (extendsNonNullBase util node),
    (classOrConstructorParameterIsDecorated util node),
    (childIsDecorated util node),
    (bool_decide (is_Some (currentNamespace s))),
    (hasSyntacticModifier util (node_id (class_node node)) ModifierFlags.Export),
    (hasSyntacticModifier util (node_id (class_node node)) ModifierFlags.Default),
    (target_le (languageVersion compilerOptions) ES5);
    repeat split; reflexivity.
Qed.

(** *** Further properties: decorators and their metadata *)

(** X7. The array of [getDecoratorsOfParameters] is aligned with the
    parameters: it is [undefined] when no parameter (after a leading
    [this] parameter) is decorated, and otherwise it has one entry for
    each such parameter, in order, holding that parameter's decorators. *)
Theorem getDecoratorsOfParameters_aligned (node : ClassElement) :
  getDecoratorsOfParameters (Some node)
  = if existsb (fun p => bool_decide (is_Some (parameter_decorators p)))
         (parametersAfterThis node)
    then Some (map parameter_decorators (parametersAfterThis node))
    else None.
Proof.
  set (step := fun (decorators : option (list (option (list Decorator))))
                   (ip : nat * ParameterDeclaration) =>
                 let (i, parameter) := ip in
                 match decorators, parameter_decorators parameter with
                 | None, None => None
                 | None, Some d => Some (replicate i None ++ [Some d])
                 | Some decorators, d => Some (decorators ++ [d])
                 end).
  assert (Hsome : forall l (h : nat -> nat) acc,
             fold_left step (imap (fun i p => (h i, p)) l) (Some acc)
             = Some (acc ++ map parameter_decorators l)).
  { induction l as [|p l IH]; intros h acc; simpl.
    - rewrite app_nil_r. reflexivity.
    - rewrite (IH (fun i => h (S i))), <- app_assoc. reflexivity. }
  assert (Hnone : forall l (h : nat -> nat) k,
             (forall i, h i = (k + i)%nat) ->
             fold_left step (imap (fun i p => (h i, p)) l) None
             = if existsb (fun p => bool_decide (is_Some (parameter_decorators p))) l
               then Some (replicate k None ++ map parameter_decorators l)
               else None).
  { induction l as [|p l IH]; intros h k Hh; simpl; [reflexivity|].
    rewrite Hh, Nat.add_0_r.
    destruct (parameter_decorators p) as [d|]; simpl.
    - rewrite (Hsome l (fun i => h (S i))), <- app_assoc. reflexivity.
    - unfold compose. cbv beta.
      rewrite (IH (fun i => h (S i)) (S k)) by (intros i; rewrite Hh; lia).
      destruct (existsb _ l); [|reflexivity].
      simpl. f_equal. generalize (map parameter_decorators l) as tail.
      clear. intros tail.
      induction k as [|k IHk]; simpl; [reflexivity | rewrite <- IHk; reflexivity]. }
  unfold getDecoratorsOfParameters, parametersAfterThis. fold step.
  destruct (member_parameters node) as [|first rest]; [reflexivity|].
  destruct (parameterIsThisKeyword util first);
    change (@tail ParameterDeclaration (first :: rest)) with rest;
    exact (Hnone _ (fun i => i) 0%nat (fun i => eq_refl)).
Qed.

(** X8. Decorators on a member without a body are dropped: for a class
    member other than a property declaration that has no body (an overload
    or an abstract method, a bodyless accessor), no decorate call is
    generated, whatever decorators the member or its parameters carry, and
    the state is not changed. *)
Theorem decorators_of_bodyless_member_are_dropped (node : ClassDeclaration)
    (member : ClassElement) (s : TransformerState Ctx) :
  member_kind member <> PropertyDeclaration ->
  member_body member = None ->
  generateClassElementDecorationExpression node member s = Returned None s.
Proof.
  intros Hkind Hbody.
  unfold generateClassElementDecorationExpression, getAllDecoratorsOfClassElement,
    getAllDecoratorsOfAccessors, getAllDecoratorsOfMethod.
  rewrite Hbody.
  destruct (member_kind member); try reflexivity. contradiction.
Qed.

(** X28. The decorators of a get/set pair are applied once. When
    [getAllDecoratorsOfAccessors] gives decorators for an accessor, that
    accessor has a body, and the other accessor of the pair (one for which
    [getAllAccessorDeclarations] answers the same) gets none. *)
Theorem accessor_pair_is_decorated_once (node : ClassDeclaration)
    (accessor other : ClassElement) (allDecorators : AllDecorators) :
  getAllAccessorDeclarations util (class_members node) other
  = getAllAccessorDeclarations util (class_members node) accessor ->
  member_id other <> member_id accessor ->
  getAllDecoratorsOfAccessors node accessor = Some allDecorators ->
  is_Some (member_body accessor)
  /\ getAllDecoratorsOfAccessors node other = None.
Proof.
  intros Hpair Hother Hdecorated.
  unfold getAllDecoratorsOfAccessors in *. rewrite Hpair.
  destruct (member_body accessor) as [body|]; [|discriminate].
  split; [eauto|].
  destruct (member_body other) as [otherBody|]; [|reflexivity].
  destruct (match member_decorators
                    (firstAccessor
                       (getAllAccessorDeclarations util (class_members node) accessor))
            with
            | Some _ => _
            | None => _
            end) as [first|]; [|reflexivity].
  destruct (Pos.eqb_spec (member_id accessor) (member_id first)) as [Hsame|];
    [|discriminate].
  destruct (Pos.eqb_spec (member_id other) (member_id first)) as [Hequal|];
    [|reflexivity].
  congruence.
Qed.

(** X9. The metadata that [addOldTypeMetadata] appends depends only on
    the kind of the declaration. Without [emitDecoratorMetadata] nothing is
    appended. With it, the decorator expressions are followed by
    [design:type], [design:paramtypes] and [design:returntype] for a
    method, by [design:type] and [design:paramtypes] for an accessor, by
    [design:type] for a property, and, for a class, by [design:paramtypes]
    when it has a constructor with a body; in this order, and nothing
    else. *)
Theorem addOldTypeMetadata_keys (node : DecoratedNode) (container : ClassDeclaration)
    (decoratorExpressions result : list Expression) (s s' : TransformerState Ctx) :
  addOldTypeMetadata node container decoratorExpressions s = Returned result s' ->
  exists added,
    result = decoratorExpressions ++ added
    /\ map metadataKey added
       = map Some (if emitDecoratorMetadata compilerOptions
                   then designKeys node
                   else []).
Proof.
  assert (Hstage : forall (b : bool) (m : M Ctx Expression) key before after s0 s1,
             (if b
              then x <- m ;; helper <- createMetadataHelper key x ;;
                   ret (before ++ [helper])
              else ret before) s0 = Returned after s1 ->
             exists added,
               after = before ++ added
               /\ map metadataKey added = if b then [Some key] else []).
  { intros [] m key before after s0 s1 Hrun.
    - apply bind_returned in Hrun as (x & s2 & _ & Hrun).
      unfold createMetadataHelper, bind, onContext, modify, ret in Hrun.
      injection Hrun as <- _. eexists. split; reflexivity.
    - injection Hrun as <- _. exists []. rewrite app_nil_r. split; reflexivity. }
  intros Hrun. unfold addOldTypeMetadata in Hrun.
  destruct (emitDecoratorMetadata compilerOptions).
  - apply bind_returned in Hrun as (es1 & s1 & Htype & Hrun).
    apply bind_returned in Hrun as (es2 & s2 & Hparams & Hreturn).
    apply Hstage in Htype as (added1 & -> & Hkeys1).
    apply Hstage in Hparams as (added2 & -> & Hkeys2).
    apply Hstage in Hreturn as (added3 & -> & Hkeys3).
    exists (added1 ++ added2 ++ added3).
    rewrite <- !app_assoc. split; [reflexivity|].
    rewrite !map_app, Hkeys1, Hkeys2, Hkeys3.
    unfold shouldAddTypeMetadata, shouldAddParamTypesMetadata,
      shouldAddReturnTypeMetadata, designKeys.
    destruct node as [c|member|parameter]; [|destruct (member_kind member)|];
      try reflexivity.
    destruct (bool_decide _); reflexivity.
  - injection Hrun as <- _. exists []. rewrite app_nil_r. split; reflexivity.
Qed.


(** *** Further properties: enum bodies *)

Lemma transformEnumMember_in_container (member : EnumMember)
    (container : Expression) (s s' : TransformerState Ctx) (statement : Statement) :
  (forall e, Preserves currentNamespaceContainerName (visitExpression walk e)) ->
  currentNamespaceContainerName s = Some container ->
  transformEnumMember member s = Returned statement s' ->
  (exists value, statement = enumMemberStatement container member value)
  /\ currentNamespaceContainerName s' = Some container.
Proof.
  intros Hwalk Hcontainer Hrun. unfold transformEnumMember in Hrun.
  apply bind_returned in Hrun as (value & s1 & Hvalue & Hrun).
  assert (Hkept : Preserves currentNamespaceContainerName
                    (transformEnumMemberDeclarationValue member)).
  { unfold transformEnumMemberDeclarationValue,
      enableSubstitutionForNonQualifiedEnumMembers.
    preserves. }
  apply Hkept in Hvalue. rewrite Hcontainer in Hvalue.
  unfold bind, gets in Hrun. rewrite Hvalue in Hrun.
  injection Hrun as <- <-. split; [|assumption].
  exists value. reflexivity.
Qed.

(** X11. The body of a lowered enum has one statement for each member, in
    source order, each assigning into the enum's own container
    [localName], after the declarations that the lexical environment
    hoisted; and [transformEnumBody] puts back the container name of the
    enclosing namespace. The visitor of the initializers is taken to leave
    the container name as it finds it. *)
Theorem transformEnumBody_members_in_order (node : EnumDeclaration)
    (localName : Expression) (s s' : TransformerState Ctx) (body : Statement) :
  (forall e, Preserves currentNamespaceContainerName (visitExpression walk e)) ->
  transformEnumBody node localName s = Returned body s' ->
  currentNamespaceContainerName s' = currentNamespaceContainerName s
  /\ exists declarations members,
       body = BlockStatement
                (insertStatementsAfterStandardPrologue util [] declarations
                 ++ members)
                None
       /\ Forall2 (fun member statement =>
                     exists value,
                       statement = enumMemberStatement localName member value)
            (enum_members node) members.
Proof.
  intros Hwalk Hrun. unfold transformEnumBody in Hrun.
  unfold bind at 1, gets at 1 in Hrun.
  unfold bind at 1, modify at 1 in Hrun.
  unfold bind at 1, onContext at 1, modify at 1 in Hrun.
  apply bind_returned in Hrun as (members & s1 & Hmembers & Hrun).
  apply bind_returned in Hrun as (declarations & s2 & _ & Hrun).
  unfold bind, modify, ret in Hrun. injection Hrun as <- <-.
  split; [reflexivity|].
  exists declarations, members. split; [reflexivity|].
  revert Hmembers.
  match goal with
  | |- mapM _ _ ?s0 = _ -> _ =>
      assert (Hcontainer : currentNamespaceContainerName s0 = Some localName)
        by reflexivity;
      generalize dependent s0
  end.
  revert members.
  induction (enum_members node) as [|member rest IH];
    intros members s0 Hcontainer Hrun; simpl in Hrun.
  - injection Hrun as <- _. constructor.
  - apply bind_returned in Hrun as (statement & s3 & Hmember & Hrun).
    apply bind_returned in Hrun as (statements & s4 & Hrest & Hrun).
    injection Hrun as <- ->.
    destruct (transformEnumMember_in_container _ _ _ _ _ Hwalk Hcontainer Hmember)
      as [Hstatement Hcontainer3].
    constructor; [assumption|]. exact (IH _ _ Hcontainer3 Hrest).
Qed.

(** *** Further properties: the serializer and the modifiers *)

(** X12. Serializing a type annotation touches nothing of the
    transformer but the transformation context (where the temporaries of
    guarded entity names are hoisted): the scopes, the first declarations,
    the namespace, the substitution flags and the class aliases are what
    they were. *)
Theorem serializeTypeNode_changes_only_the_context (node : option TypeNode)
    (s s' : TransformerState Ctx) (e : Expression) :
  serializeTypeNode node s = Returned e s' ->
  s' = set_ctx (ctx s') s.
Proof.
  intros Hrun.
  assert (Hframe : Preserves (set_ctx (ctx s')) (serializeTypeNode node)).
  { apply serializeTypeNode_preserves. intros c s0. reflexivity. }
  apply Hframe in Hrun. rewrite <- Hrun. destruct s'. reflexivity.
Qed.

(** X29. A nullable type keeps its constructor only without
    [strictNullChecks]. For a type [T] that the collapse compares (not
    [never], and not [null] or [undefined]) and that serializes to [e], the
    union [T | null] serializes to [e] when [strictNullChecks] is off, where
    [null] is left out; with [strictNullChecks] it serializes to [Object],
    since [null] serializes to [void 0], which is no identifier. *)
Theorem serializeTypeList_of_nullable (type : TypeNode) (e : Expression)
    (s s' : TransformerState Ctx) :
  isNeverKeyword (skipParenthesizedTypes type) = false ->
  isNullOrUndefinedType (skipParenthesizedTypes type) = false ->
  serializeDefinedTypeNode (skipParenthesizedTypes type) s = Returned e s' ->
  serializeTypeNode (Some (UnionType [type; LiteralType LitNullKeyword])) s
  = Returned (if strictNullChecks compilerOptions then Identifier "Object" else e)
      s'.
Proof.
  intros Hnever Hnull Hrun.
  change (serializeTypeNode (Some (UnionType [type; LiteralType LitNullKeyword])) s)
    with (serializeTypeListFrom serializeDefinedTypeNode
            [type; LiteralType LitNullKeyword] None s).
  simpl. rewrite Hnever, Hnull, andb_false_r.
  rewrite (bind_step _ _ _ _ _ Hrun).
  destruct (isObjectIdentifier e) eqn:Hobject.
  - apply isObjectIdentifier_true in Hobject. subst e.
    destruct (strictNullChecks compilerOptions); reflexivity.
  - destruct (strictNullChecks compilerOptions); simpl; [|reflexivity].
    unfold bind, ret. simpl. rewrite orb_true_r. reflexivity.
Qed.

(** X13. The guarded form of an entity name is always built: for every
    entity name [serializeEntityNameAsExpressionFallback] returns a chain
    of [&&] whose first operand tests that the identifier the name starts
    with is defined ([typeof A !== "undefined"]); it changes nothing but the
    transformation context. *)
Theorem serializeEntityNameAsExpressionFallback_guards_leftmost (name : EntityName)
    (s : TransformerState Ctx) :
  exists l r s',
    serializeEntityNameAsExpressionFallback name s
    = Returned (createLogicalAnd l r) s'
    /\ firstConjunct l
       = createStrictInequality
           (TypeOfExpression (Identifier (leftmostIdentifier name)))
           (StringLiteral "undefined")
    /\ s' = set_ctx (ctx s') s.
Proof.
  revert s. induction name as [text|qualifier IH member]; intros s.
  - simpl. unfold ret, createCheckedValue. eexists. eexists. eexists.
    split; [reflexivity|]. split; [reflexivity|]. destruct s. reflexivity.
  - destruct qualifier as [text|qualifier' member'].
    + simpl. unfold ret, createCheckedValue. eexists. eexists. eexists.
      split; [reflexivity|]. split; [reflexivity|]. destruct s. reflexivity.
    + destruct (IH s) as (l & r & s1 & Hleft & Hfirst & Hframe).
      change (serializeEntityNameAsExpressionFallback
                (QualifiedName (QualifiedName qualifier' member') member) s)
        with (bind (serializeEntityNameAsExpressionFallback
                      (QualifiedName qualifier' member'))
                (fun serialized =>
                   bind createTempVariable
                     (fun temp =>
                        match serialized with
                        | BinaryExpression left_left _ left_right =>
                            ret (createLogicalAnd
                                   (createLogicalAnd left_left
                                      (createStrictInequality
                                         (createAssignment temp left_right)
                                         createVoidZero))
                                   (PropertyAccessExpression temp (Identifier member)))
                        | _ => fail "serializeEntityNameAsExpressionFallback: not a BinaryExpression"
                        end)) s).
      rewrite (bind_step _ _ _ _ _ Hleft).
      unfold createTempVariable, bind, fromContext, onContext, modify, ret,
        createLogicalAnd.
      simpl. eexists. eexists. eexists. split; [reflexivity|].
      split; [exact Hfirst|]. simpl. rewrite Hframe. destruct s. reflexivity.
Qed.

(** X14. [visitNodes(modifiers, modifierVisitor)] is a filter: it keeps,
    in order, exactly the modifiers that are not TypeScript modifiers and,
    inside a namespace, are not [export]; it never aborts and does not
    change the state. *)
Theorem visitNodes_modifierVisitor_filters (modifiers : list Modifier)
    (s : TransformerState Ctx) :
  visitNodes_modifierVisitor modifiers s
  = Returned
      (map (fun modifier => Visited (modifier_id modifier))
         (List.filter (isKeptModifier s) modifiers))
      s.
Proof.
  assert (Hmap : mapM modifierVisitor modifiers s
                 = Returned
                     (map (fun modifier =>
                             if isKeptModifier s modifier
                             then Some (Visited (modifier_id modifier))
                             else None)
                        modifiers)
                     s).
  { induction modifiers as [|modifier modifiers IH]; simpl; [reflexivity|].
    assert (Hone : modifierVisitor modifier s
                   = Returned
                       (if isKeptModifier s modifier
                        then Some (Visited (modifier_id modifier))
                        else None)
                       s).
    { unfold modifierVisitor, isKeptModifier, bind, gets, ret.
      destruct (isTypeScriptModifier util (modifier_kind modifier)); [reflexivity|].
      destruct (currentNamespace s), (modifier_kind modifier); reflexivity. }
    rewrite (bind_step _ _ _ _ _ Hone), (bind_step _ _ _ _ _ IH). reflexivity. }
  unfold visitNodes_modifierVisitor.
  rewrite (bind_step _ _ _ _ _ Hmap). unfold ret. f_equal.
  clear Hmap. induction modifiers as [|modifier modifiers IH]; simpl; [reflexivity|].
  destruct (isKeptModifier s modifier); simpl; rewrite <- IH; reflexivity.
Qed.

(** *** Further properties: source files *)

(** X15. Transforming a source file that is not a declaration file ends
    with [currentSourceFile] undefined, whatever it was before, and with
    the lexical scope, the name scope and the has-parameter-properties flag
    of the caller put back; the result is the updated file, holding the
    statements the visit of the source elements returned and the emit
    helpers read from the context after the visit. *)
Theorem transformSourceFile_leaves_no_current_file (node : SourceFile)
    (s s' : TransformerState Ctx) (result : SourceFileResult) :
  isDeclarationFile node = false ->
  transformSourceFile node s = Returned result s' ->
  currentSourceFile s' = None
  /\ currentLexicalScope s' = currentLexicalScope s
  /\ currentNameScope s' = currentNameScope s
  /\ currentClassHasParameterProperties s' = currentClassHasParameterProperties s
  /\ exists statements s1 s2,
       visitSourceFile node s1 = Returned statements s2
       /\ currentSourceFile s1 = Some (sourceFile_id node)
       /\ currentLexicalScope s1
          = Some {| scope_id := sourceFile_id node;
                    scope_kind := SyntaxKind.SourceFile |}
       /\ currentScopeFirstDeclarationsOfName s1 = None
       /\ result = UpdatedSourceFile node statements
                     (fst (readEmitHelpers context (ctx s2))).
Proof.
  intros Hfile Hrun. unfold transformSourceFile in Hrun. rewrite Hfile in Hrun.
  unfold bind at 1, modify at 1 in Hrun.
  apply bind_returned in Hrun as (visited & s3 & Hsave & Hrun).
  unfold bind, fromContext, modify, ret in Hrun. injection Hrun as <- <-.
  unfold saveStateAndInvoke, onBeforeVisitNode, sourceFileNode in Hsave.
  simpl in Hsave.
  unfold bind at 1, gets at 1 in Hsave.
  unfold bind at 1, gets at 1 in Hsave.
  unfold bind at 1, gets at 1 in Hsave.
  unfold bind at 1, gets at 1 in Hsave.
  unfold bind at 1 2 3, modify at 1 2 3 in Hsave.
  apply bind_returned in Hsave as (statements & s2 & Hvisit & Hsave).
  unfold bind, gets, modify, ret in Hsave.
  destruct (scope_differs _ _) in Hsave; injection Hsave as <- <-;
    (repeat split; try reflexivity);
    eexists; eexists; eexists; (split; [exact Hvisit|]);
    repeat split; reflexivity.
Qed.

(** *** Further properties: the elision of imports and exports *)

Lemma omap_visitImportSpecifier (elements : list ImportSpecifier) :
  omap visitImportSpecifier elements = List.filter isKeptImportSpecifier elements.
Proof.
  induction elements as [|e elements IH]; [reflexivity|].
  simpl. unfold visitImportSpecifier at 1, isKeptImportSpecifier at 1.
  destruct (negb (importSpecifier_isTypeOnly e)
            && shouldEmitAliasDeclaration (importSpecifier_id e));
    simpl; rewrite <- IH; reflexivity.
Qed.

Lemma omap_visitExportSpecifier (elements : list ExportSpecifier) :
  omap visitExportSpecifier elements = List.filter isKeptExportSpecifier elements.
Proof.
  induction elements as [|e elements IH]; [reflexivity|].
  simpl. unfold visitExportSpecifier at 1, isKeptExportSpecifier at 1.
  destruct (negb (exportSpecifier_isTypeOnly e)
            && isValueAliasDeclaration references (exportSpecifier_id e));
    simpl; rewrite <- IH; reflexivity.
Qed.

Lemma filter_nonempty {A} (keep : A -> bool) (l : list A) :
  bool_decide (List.filter keep l <> []) = existsb keep l.
Proof.
  induction l as [|a l IH]; [reflexivity|].
  simpl. destruct (keep a); [reflexivity|exact IH].
Qed.

(** What [visitImportClause] returns for a clause that is not type-only. *)
Lemma visitImportClause_eval (clause : ImportClause) (s : TransformerState Ctx) :
  importClause_isTypeOnly clause = false ->
  exists result,
    visitImportClause clause s = Returned result s
    /\ bool_decide (is_Some result) = importBindingSurvives clause
    /\ forall clauseOut, result = Some clauseOut ->
         clause_original clauseOut = importClause_id clause
         /\ clause_name clauseOut
            = (if shouldEmitAliasDeclaration (importClause_id clause)
               then importClause_name clause
               else None)
         /\ clause_namedBindings clauseOut
            = importClause_namedBindings clause ≫= visitNamedImportBindings.
Proof.
  intros Htype. unfold visitImportClause, importBindingSurvives.
  rewrite Htype.
  assert (Hbindings :
            bool_decide (is_Some (importClause_namedBindings clause
                                  ≫= visitNamedImportBindings))
            = match importClause_namedBindings clause with
              | Some (NamespaceImport id) => shouldEmitAliasDeclaration id
              | Some (NamedImports _ elements) =>
                  (preserveValueImports moduleOptions
                   && importsNotUsedAsValuesArePreserved)
                  || existsb isKeptImportSpecifier elements
              | None => false
              end).
  { destruct (importClause_namedBindings clause) as [[id|id elements]|];
      simpl; [destruct (shouldEmitAliasDeclaration id); reflexivity | | reflexivity].
    rewrite omap_visitImportSpecifier, filter_nonempty.
    destruct (_ || _); reflexivity. }
  rewrite <- Hbindings.
  destruct (shouldEmitAliasDeclaration (importClause_id clause)); simpl.
  - destruct (importClause_name clause) as [name|]; simpl.
    + eexists. split; [reflexivity|]. split; [reflexivity|].
      intros clauseOut [= <-]. repeat split.
    + destruct (bool_decide (is_Some (importClause_namedBindings clause
                                      ≫= visitNamedImportBindings))) eqn:Hsome;
        eexists; (split; [reflexivity|]); (split; [reflexivity|]);
        intros clauseOut [= <-]; repeat split.
  - destruct (bool_decide (is_Some (importClause_namedBindings clause
                                    ≫= visitNamedImportBindings))) eqn:Hsome;
      eexists; (split; [reflexivity|]); (split; [reflexivity|]);
      intros clauseOut [= <-]; repeat split.
Qed.

(** X16. When an import declaration is elided. [visitImportDeclaration]
    never aborts (the assertion of [visitImportClause] cannot fail from it)
    and never changes the state. A side-effect import [import "m"] is
    returned as it is. Any other import declaration is elided exactly when
    its clause is type-only, or when none of its bindings survives and
    [importsNotUsedAsValues] is neither [preserve] nor [error]; when no
    binding survives under [preserve] or [error], the declaration is kept
    without its clause. *)
Theorem visitImportDeclaration_elides (node : ImportDeclaration)
    (s : TransformerState Ctx) :
  exists result,
    visitImportDeclaration node s = Returned result s
    /\ match importClause node with
       | None => result = Some (SameImportDeclaration node)
       | Some clause =>
           (result = None
            <-> importClause_isTypeOnly clause = true
                \/ (importBindingSurvives clause = false
                    /\ importsNotUsedAsValuesArePreserved = false))
           /\ (importClause_isTypeOnly clause = false ->
               importBindingSurvives clause = false ->
               importsNotUsedAsValuesArePreserved = true ->
               result = Some (UpdatedImportDeclaration node None))
       end.
Proof.
  unfold visitImportDeclaration.
  destruct (importClause node) as [clause|]; [|eexists; split; reflexivity].
  destruct (importClause_isTypeOnly clause) eqn:Htype.
  - exists None. split; [reflexivity|]. split; [|discriminate].
    split; [left|]; reflexivity.
  - destruct (visitImportClause_eval clause s Htype)
      as (clauseOut & Hclause & Hsurvives & _).
    rewrite (bind_step _ _ _ _ _ Hclause), Hsurvives.
    destruct (importBindingSurvives clause) eqn:Hbinding; simpl.
    + eexists. split; [reflexivity|]. split; [|discriminate].
      split; [discriminate|]. intros [[=] | [[=] _]].
    + destruct clauseOut as [clauseOut|]; [discriminate Hsurvives|].
      destruct importsNotUsedAsValuesArePreserved; simpl;
        (eexists; split; [reflexivity|]).
      * split; [|reflexivity]. split; [discriminate|].
        intros [[=] | [_ [=]]].
      * split; [|discriminate]. split; [right; split|]; reflexivity.
Qed.

(** X17. What an import declaration keeps. Whenever [visitImportDeclaration]
    returns a declaration with named imports, these are exactly the
    specifiers of the input that are not type-only and that
    [shouldEmitAliasDeclaration] accepts, in source order; and the default
    name of the clause is kept only if [shouldEmitAliasDeclaration] accepts
    the clause. *)
Theorem visitImportDeclaration_keeps_referenced_specifiers
    (node original : ImportDeclaration) (clauseOut : ImportClauseOut)
    (s s' : TransformerState Ctx) :
  visitImportDeclaration node s
  = Returned (Some (UpdatedImportDeclaration original (Some clauseOut))) s' ->
  exists clause,
    importClause node = Some clause
    /\ original = node
    /\ clause_original clauseOut = importClause_id clause
    /\ (is_Some (clause_name clauseOut) ->
        shouldEmitAliasDeclaration (importClause_id clause) = true
        /\ clause_name clauseOut = importClause_name clause)
    /\ forall id elements,
         clause_namedBindings clauseOut = Some (UpdatedNamedImports id elements) ->
         exists sourceElements,
           importClause_namedBindings clause = Some (NamedImports id sourceElements)
           /\ elements = List.filter isKeptImportSpecifier sourceElements.
Proof.
  intros Hrun. unfold visitImportDeclaration in Hrun.
  destruct (importClause node) as [clause|]; [|discriminate].
  destruct (importClause_isTypeOnly clause) eqn:Htype; [discriminate|].
  destruct (visitImportClause_eval clause s Htype)
    as (result & Hclause & _ & Hshape).
  rewrite (bind_step _ _ _ _ _ Hclause) in Hrun.
  destruct (_ || _) in Hrun; [|discriminate].
  injection Hrun as <- -> _.
  destruct (Hshape clauseOut eq_refl) as (Horiginal & Hname & Hbindings).
  exists clause. split; [reflexivity|]. split; [reflexivity|].
  split; [assumption|]. split.
  - intros Hsome. rewrite Hname in Hsome |- *.
    destruct (shouldEmitAliasDeclaration (importClause_id clause));
      [split; reflexivity | destruct Hsome as [? [=]]].
  - intros id elements Hnamed. rewrite Hbindings in Hnamed.
    destruct (importClause_namedBindings clause) as [[nsId|namedId sourceElements]|];
      simpl in Hnamed; try discriminate.
    + destruct (shouldEmitAliasDeclaration nsId); discriminate.
    + destruct (_ || _) in Hnamed; [|discriminate].
      injection Hnamed as <- <-. eexists. split; [reflexivity|].
      apply omap_visitImportSpecifier.
Qed.

(** X18. When an export declaration is elided. [visitExportDeclaration]
    never runs a visitor, never aborts and never changes the state. A
    type-only export declaration is elided; [export * from] and
    [export * as ns from] are returned as they are; an export declaration
    with named exports keeps, in source order, exactly the specifiers that
    are not type-only and resolve to a value, and it is elided when none is
    kept, unless it has a module specifier and [importsNotUsedAsValues] is
    [preserve] or [error]. *)
Theorem visitExportDeclaration_elides (node : ExportDeclaration)
    (s : TransformerState Ctx) :
  exists result,
    visitExportDeclaration node s = Returned result s
    /\ if exportDeclaration_isTypeOnly node
       then result = None
       else
         match exportClause node with
         | None | Some (NamespaceExport _ _) =>
             result = Some (SameExportDeclaration node)
         | Some (NamedExports id elements) =>
             result
             = if (bool_decide (is_Some (exportDeclaration_moduleSpecifier node))
                   && importsNotUsedAsValuesArePreserved)
                  || existsb isKeptExportSpecifier elements
               then Some (UpdatedExportDeclaration node
                            (UpdatedNamedExports id
                               (List.filter isKeptExportSpecifier elements)))
               else None
         end.
Proof.
  unfold visitExportDeclaration.
  destruct (exportDeclaration_isTypeOnly node);
    [exists None; split; reflexivity|].
  destruct (exportClause node) as [[id name|id elements]|];
    [eexists; split; reflexivity | | eexists; split; reflexivity].
  unfold visitNamedExportBindings, visitNamedExports, bind, ret.
  rewrite omap_visitExportSpecifier, filter_nonempty.
  destruct (_ || _); eexists; split; reflexivity.
Qed.

(** X19. Imports that are not used as values, under [preserve] and under
    [error]. An import declaration that is not type-only and none of whose
    bindings survives is kept as the side-effect import of its module when
    [importsNotUsedAsValues] is [preserve] or [error], and elided otherwise.
    An import-equals declaration of an external module
    ([import x = require("m")]) that is not type-only and not referenced
    leaves the side-effect import only under [preserve]: under [error] it is
    dropped, unlike the import declaration. Neither is visited, and the
    state is not changed. *)
Theorem unreferenced_imports_under_preserve_and_error
    (declaration : ImportDeclaration) (clause : ImportClause)
    (importEquals : ImportEqualsDeclaration) (expression : NodeId)
    (s : TransformerState Ctx) :
  let id := node_id (importEquals_node importEquals) in
  importClause declaration = Some clause ->
  importClause_isTypeOnly clause = false ->
  importBindingSurvives clause = false ->
  importEquals_isTypeOnly importEquals = false ->
  moduleReference importEquals = ExternalModuleReference expression ->
  shouldEmitAliasDeclaration id = false ->
  visitImportDeclaration declaration s
  = Returned
      (match importsNotUsedAsValues moduleOptions with
       | Some ImportsNotUsedAsValues.Preserve
       | Some ImportsNotUsedAsValues.Error =>
           Some (UpdatedImportDeclaration declaration None)
       | _ => None
       end)
      s
  /\ visitImportEqualsDeclaration importEquals s
     = Returned
         (match importsNotUsedAsValues moduleOptions with
          | Some ImportsNotUsedAsValues.Preserve =>
              Some (SideEffectImport expression id)
          | _ => None
          end)
         s.
Proof.
  intros id Hclause Htype Hbinding Hequals Hreference Hunused. subst id.
  split.
  - unfold visitImportDeclaration. rewrite Hclause, Htype.
    destruct (visitImportClause_eval clause s Htype)
      as (clauseOut & Hvisit & Hsurvives & _).
    rewrite (bind_step _ _ _ _ _ Hvisit), Hsurvives, Hbinding.
    rewrite Hbinding in Hsurvives.
    destruct clauseOut as [clauseOut|]; [discriminate Hsurvives|].
    unfold importsNotUsedAsValuesArePreserved.
    destruct (importsNotUsedAsValues moduleOptions) as [[]|]; reflexivity.
  - unfold visitImportEqualsDeclaration.
    rewrite Hequals, Hreference, Hunused. simpl.
    destruct (importsNotUsedAsValues moduleOptions) as [[]|]; reflexivity.
Qed.

(** X20. An import-equals declaration of an entity name
    ([import x = a.b]) that is not type-only is emitted exactly when
    [shouldEmitAliasDeclaration] accepts it, or the current file is not an
    external module and the resolver says it is a top-level value import.
    When emitted it becomes the assignment [ns.x = a.b] to the member of
    the enclosing namespace if it is an export of a namespace, and the
    variable statement [var x = a.b] with the modifiers that
    [modifierVisitor] keeps in every other case: of the test
    [isNamedExternalModuleExport(node) || !isExportOfNamespace(node)] only
    the second part decides. The state is not changed. *)
Theorem visitImportEqualsDeclaration_of_entity_name
    (node : ImportEqualsDeclaration) (name : EntityName) (file : NodeId)
    (s : TransformerState Ctx) :
  let id := node_id (importEquals_node node) in
  let emitted :=
    shouldEmitAliasDeclaration id
    || (negb (isExternalModule_file moduleWalk file)
        && isTopLevelValueImportEqualsWithEntityName references id) in
  let reference := createExpressionFromEntityName moduleWalk name in
  importEquals_isTypeOnly node = false ->
  moduleReference node = EntityNameReference name ->
  currentSourceFile s = Some file ->
  exists modifiers,
    visitNodes_modifierVisitor (importEquals_modifiers node) s
    = Returned modifiers s
    /\ visitImportEqualsDeclaration node s
       = Returned
           (if negb emitted
            then None
            else if bool_decide (is_Some (currentNamespace s))
                    && hasSyntacticModifier util id ModifierFlags.Export
            then Some (ImportEqualsStatement
                         (ExpressionStatement
                            (createAssignment
                               (getNamespaceMemberName moduleWalk
                                  (currentNamespaceContainerName s)
                                  (Identifier (importEquals_name node)))
                               reference)
                            (Some id)))
            else Some (ImportEqualsStatement
                         (VariableStatement modifiers
                            [(Identifier (importEquals_name node), Some reference)]
                            NodeFlags_None (Some id))))
           s.
Proof.
  intros id emitted reference Htype Hreference Hfile.
  subst id emitted reference.
  destruct (visitNodes_modifierVisitor_returns (importEquals_modifiers node) s)
    as [modifiers Hmodifiers].
  exists modifiers. split; [assumption|].
  unfold visitImportEqualsDeclaration. rewrite Htype, Hreference.
  unfold shouldEmitImportEqualsDeclaration, isNamedExternalModuleExport,
    isExternalModuleExport, isExportOfNamespace, createNamespaceExport.
  destruct (shouldEmitAliasDeclaration (node_id (importEquals_node node)));
    unfold bind, gets, ret; rewrite ?Hfile; simpl.
  - destruct (bool_decide (is_Some (currentNamespace s))),
      (hasSyntacticModifier util (node_id (importEquals_node node))
         ModifierFlags.Export),
      (hasSyntacticModifier util (node_id (importEquals_node node))
         ModifierFlags.Default); simpl; rewrite ?Hmodifiers; reflexivity.
  - destruct (negb (isExternalModule_file moduleWalk file)
              && isTopLevelValueImportEqualsWithEntityName references
                   (node_id (importEquals_node node))); simpl; [|reflexivity].
    destruct (bool_decide (is_Some (currentNamespace s))),
      (hasSyntacticModifier util (node_id (importEquals_node node))
         ModifierFlags.Export),
      (hasSyntacticModifier util (node_id (importEquals_node node))
         ModifierFlags.Default); simpl; rewrite ?Hmodifiers; reflexivity.
Qed.

(** *** Further properties: substitutions at emit time *)

Lemma hasFlag_lor_right (flags other flag : N) :
  hasFlag flags flag = true -> hasFlag flags (N.lor other flag) = true.
Proof.
  unfold hasFlag. rewrite !negb_true_iff, !N.eqb_neq.
  intros Hflag Hzero. apply Hflag.
  rewrite N.land_lor_distr_r in Hzero.
  apply N.lor_eq_0_iff in Hzero. apply Hzero.
Qed.

(** X21. The alias that [getClassAliasIfNeeded] records is the one that
    the substitution finds. Once the alias of a class is returned, in every
    later state that has the same substitution flags and class aliases, an
    identifier that the resolver marks as a constructor reference in a class
    and resolves to this class is replaced by (a clone of) the alias, both
    by [trySubstituteClassAlias] and by [substituteExpression]. *)
Theorem class_alias_is_substituted (node : ClassDeclaration)
    (reference : EmittedNode) (alias : Expression)
    (s s' later : TransformerState Ctx) :
  getClassAliasIfNeeded node s = Returned (Some alias) s' ->
  enabledSubstitutions later = enabledSubstitutions s' ->
  classAliases later = classAliases s' ->
  emitted_kind reference = SyntaxKind.Identifier ->
  hasConstructorReferenceInClass references (emitted_id reference) = true ->
  getReferencedValueDeclaration references (emitted_id reference)
  = Some (getOriginalNodeId util (node_id (class_node node))) ->
  trySubstituteClassAlias reference later = Returned (Some alias) later
  /\ substituteExpression reference later = Returned alias later.
Proof.
  intros Halias Hflags Haliases Hkind Hmarked Hdeclaration.
  assert (Hrecorded :
            hasFlag (enabledSubstitutions s')
              TypeScriptSubstitutionFlags.ClassAliases = true
            /\ exists aliases,
                 classAliases s' = Some aliases
                 /\ aliases !! getOriginalNodeId util (node_id (class_node node))
                    = Some alias).
  { unfold getClassAliasIfNeeded in Halias.
    destruct (hasClassWithConstructorReference resolver (node_id (class_node node)));
      [|discriminate].
    apply bind_returned in Halias as ([] & s1 & Henable & Halias).
    assert (Hflag : hasFlag (enabledSubstitutions s1)
                      TypeScriptSubstitutionFlags.ClassAliases = true).
    { unfold enableSubstitutionForClassAliases, bind, gets, modify, onContext,
        ret in Henable.
      destruct (N.land (enabledSubstitutions s)
                  TypeScriptSubstitutionFlags.ClassAliases =? 0) eqn:Hzero;
        injection Henable as <-; simpl.
      - apply hasFlag_lor_same. discriminate.
      - unfold hasFlag. rewrite Hzero. reflexivity. }
    apply bind_returned in Halias as (name & s2 & Hname & Halias).
    unfold createUniqueName, bind, fromContext, ret in Hname.
    injection Hname as <- <-.
    unfold bind, gets, modify, onContext, ret in Halias. simpl in Halias.
    destruct (classAliases s1) as [aliases|]; [|discriminate].
    injection Halias as <- <-. simpl. split; [exact Hflag|].
    eexists. split; [reflexivity|]. apply lookup_insert_eq. }
  destruct Hrecorded as (Hflag & aliases & Hsome & Hlookup).
  assert (Htry : trySubstituteClassAlias reference later
                 = Returned (Some alias) later).
  { unfold trySubstituteClassAlias, bind, gets, ret.
    rewrite Hflags, Hflag, Hmarked, Hdeclaration, Haliases, Hsome, Hlookup.
    reflexivity. }
  split; [exact Htry|].
  unfold substituteExpression. rewrite Hkind.
  unfold substituteExpressionIdentifier.
  rewrite (bind_step _ _ _ _ _ Htry). reflexivity.
Qed.

(** X22. A name is qualified only where it may be. Whenever
    [trySubstituteNamespaceExportedName] substitutes, the identifier is
    neither generated nor a local name, some substitution is applicable
    (the printer is inside a transformed namespace or enum), and the
    substitute is the identifier qualified with the generated name of its
    export container, which is a namespace (with namespace exports
    applicable) or an enum (with non-qualified enum members applicable),
    never a source file. The state is not changed. *)
Theorem trySubstituteNamespaceExportedName_is_guarded (node : EmittedNode)
    (e : Expression) (s s' : TransformerState Ctx) :
  trySubstituteNamespaceExportedName node s = Returned (Some e) s' ->
  s' = s
  /\ emitted_isGenerated node = false
  /\ emitted_isLocalName node = false
  /\ applicableSubstitutions s <> 0
  /\ exists container,
       getReferencedExportContainer references (emitted_id node) = Some container
       /\ e = qualifiedExportedName container node
       /\ (kind container = SyntaxKind.ModuleDeclaration
           /\ hasFlag (applicableSubstitutions s)
                TypeScriptSubstitutionFlags.NamespaceExports = true
           \/ kind container = SyntaxKind.EnumDeclaration
              /\ hasFlag (applicableSubstitutions s)
                   TypeScriptSubstitutionFlags.NonQualifiedEnumMembers = true).
Proof.
  unfold trySubstituteNamespaceExportedName, bind, gets, ret. intros Hrun.
  destruct (hasFlag (enabledSubstitutions s) (applicableSubstitutions s))
    eqn:Happlicable; [|discriminate].
  destruct (emitted_isGenerated node); [discriminate|].
  destruct (emitted_isLocalName node); [discriminate|].
  simpl in Hrun.
  destruct (getReferencedExportContainer references (emitted_id node))
    as [container|]; [|discriminate].
  assert (Hnonzero : applicableSubstitutions s <> 0).
  { intros Hzero. rewrite Hzero in Happlicable. unfold hasFlag in Happlicable.
    rewrite N.land_0_r in Happlicable. discriminate. }
  destruct (kind container) eqn:Hkind; try discriminate.
  - destruct (hasFlag (applicableSubstitutions s)
                TypeScriptSubstitutionFlags.NonQualifiedEnumMembers) eqn:Hflag;
      [|discriminate].
    injection Hrun as <- <-. repeat split; try assumption.
    exists container. split; [reflexivity|]. split; [reflexivity|].
    right. split; [assumption | reflexivity].
  - destruct (hasFlag (applicableSubstitutions s)
                TypeScriptSubstitutionFlags.NamespaceExports) eqn:Hflag;
      [|discriminate].
    injection Hrun as <- <-. repeat split; try assumption.
    exists container. split; [reflexivity|]. split; [reflexivity|].
    left. split; [assumption | reflexivity].
Qed.

(** X23. Inside the emit of a transformed namespace the names it exports
    are qualified, and the hook leaves no trace. When namespace exports are
    enabled and [onEmitNode] is called on a node whose original is a
    namespace declaration, the previous hook runs in a state in which an
    identifier (not generated, not a local name) whose export container is
    a namespace is replaced by its qualified name; and after the hook the
    applicable substitutions and the current source file are what they
    were before it. *)
Theorem exported_names_are_qualified_inside_a_namespace
    (previousOnEmitNode : EmittedNode -> M Ctx unit)
    (node reference : EmittedNode) (container : Node)
    (s s' : TransformerState Ctx) :
  hasFlag (enabledSubstitutions s) TypeScriptSubstitutionFlags.NamespaceExports
  = true ->
  emitted_originalKind node = SyntaxKind.ModuleDeclaration ->
  emitted_isGenerated reference = false ->
  emitted_isLocalName reference = false ->
  getReferencedExportContainer references (emitted_id reference) = Some container ->
  kind container = SyntaxKind.ModuleDeclaration ->
  onEmitNode previousOnEmitNode node s = Returned tt s' ->
  applicableSubstitutions s' = applicableSubstitutions s
  /\ currentSourceFile s' = currentSourceFile s
  /\ exists s1 s2,
       previousOnEmitNode node s1 = Returned tt s2
       /\ trySubstituteNamespaceExportedName reference s1
          = Returned (Some (qualifiedExportedName container reference)) s1.
Proof.
  intros Henabled Hnode Hgenerated Hlocal Hcontainer Hkind Hrun.
  unfold onEmitNode, isTransformedModuleDeclaration,
    isTransformedEnumDeclaration in Hrun.
  rewrite Hnode in Hrun.
  unfold bind at 1, gets at 1 in Hrun.
  unfold bind at 1, gets at 1 in Hrun.
  apply bind_returned in Hrun as ([] & s0 & Hfile & Hrun).
  assert (Hs0 : enabledSubstitutions s0 = enabledSubstitutions s
                /\ applicableSubstitutions s0 = applicableSubstitutions s).
  { destruct (emitted_kind node); injection Hfile as <-; split; reflexivity. }
  destruct Hs0 as [Henabled0 Happlicable0].
  unfold bind at 1, gets at 1 in Hrun. rewrite Henabled0, Henabled in Hrun.
  rewrite andb_false_r in Hrun. simpl in Hrun.
  unfold bind at 1 2 3, gets at 1, modify at 1, ret at 1 in Hrun.
  apply bind_returned in Hrun as ([] & s2 & Hprevious & Hrun).
  unfold bind, modify in Hrun. injection Hrun as <-.
  split; [reflexivity|]. split; [reflexivity|].
  eexists. exists s2. split; [exact Hprevious|].
  unfold trySubstituteNamespaceExportedName, bind, gets, ret. simpl.
  rewrite Henabled0, Happlicable0, Hgenerated, Hlocal, Hcontainer, Hkind.
  rewrite (hasFlag_lor_right _ _ _ Henabled).
  rewrite hasFlag_lor_same by discriminate. reflexivity.
Qed.

Lemma trySubstituteNamespaceExportedName_guard (node : EmittedNode)
    (e : Expression) (s s' : TransformerState Ctx) :
  trySubstituteNamespaceExportedName node s = Returned (Some e) s' ->
  s' = s /\ applicableSubstitutions s <> 0.
Proof.
  unfold trySubstituteNamespaceExportedName, bind, gets, ret. intros Hrun.
  destruct (hasFlag (enabledSubstitutions s) (applicableSubstitutions s))
    eqn:Happlicable; [|discriminate].
  assert (Hnonzero : applicableSubstitutions s <> 0).
  { intros Hzero. rewrite Hzero in Happlicable. unfold hasFlag in Happlicable.
    rewrite N.land_0_r in Happlicable. discriminate. }
  split; [|exact Hnonzero]. revert Hrun.
  repeat match goal with
         | |- context [match ?x with _ => _ end] => destruct x
         end; congruence.
Qed.

(** X24. The substitution of an expression is the identity unless there
    is a reason. In a state that tracks its class aliases,
    [substituteExpression] never aborts and does not change the state; and
    it returns the node itself, unless the node is an identifier and class
    aliases are enabled or some substitution is applicable, or the node is
    a property or element access for which the resolver has a constant
    value and [isolatedModules] is off. *)
Theorem substituteExpression_is_identity_without_reason (node : EmittedNode)
    (s : TransformerState Ctx) :
  aliasesTracked s ->
  exists e,
    substituteExpression node s = Returned e s
    /\ (e <> SourceExpression (emitted_id node) ->
        (emitted_kind node = SyntaxKind.Identifier
         /\ (hasFlag (enabledSubstitutions s)
               TypeScriptSubstitutionFlags.ClassAliases = true
             \/ applicableSubstitutions s <> 0))
        \/ ((emitted_kind node = SyntaxKind.PropertyAccessExpression
             \/ emitted_kind node = SyntaxKind.ElementAccessExpression)
            /\ isolatedModules moduleOptions = false
            /\ is_Some (getConstantValue resolver (emitted_id node)))).
Proof.
  intros Htracked. unfold substituteExpression.
  assert (Haccess :
            emitted_kind node = SyntaxKind.PropertyAccessExpression
            \/ emitted_kind node = SyntaxKind.ElementAccessExpression ->
            exists e,
              ret (substituteConstantValue node) s = Returned e s
              /\ (e <> SourceExpression (emitted_id node) ->
                  isolatedModules moduleOptions = false
                  /\ is_Some (getConstantValue resolver (emitted_id node)))).
  { intros Hkind. eexists. split; [reflexivity|].
    unfold substituteConstantValue, tryGetConstEnumValue.
    destruct (isolatedModules moduleOptions); [congruence|].
    destruct Hkind as [-> | ->];
      (destruct (getConstantValue resolver (emitted_id node)) as [value|];
       [split; [reflexivity | eauto] | congruence]). }
  destruct (emitted_kind node) eqn:Hkind;
    try (eexists; split; [reflexivity | congruence]).
  - unfold substituteExpressionIdentifier.
    assert (Halias : exists classAlias,
               trySubstituteClassAlias node s = Returned classAlias s
               /\ (is_Some classAlias ->
                   hasFlag (enabledSubstitutions s)
                     TypeScriptSubstitutionFlags.ClassAliases = true)).
    { unfold trySubstituteClassAlias, bind, gets, ret.
      destruct (hasFlag (enabledSubstitutions s)
                  TypeScriptSubstitutionFlags.ClassAliases) eqn:Hflag;
        [|exists None; split; [reflexivity | intros [? [=]]]].
      destruct (hasConstructorReferenceInClass references (emitted_id node));
        [|exists None; split; [reflexivity | intros [? [=]]]].
      destruct (getReferencedValueDeclaration references (emitted_id node));
        [|exists None; split; [reflexivity | intros [? [=]]]].
      destruct (proj2 Htracked Hflag) as [aliases Haliases].
      rewrite Haliases. eexists. split; reflexivity. }
    destruct Halias as (classAlias & Halias & Hreason).
    rewrite (bind_step _ _ _ _ _ Halias).
    destruct classAlias as [classAlias|].
    + eexists. split; [reflexivity|]. intros _. left.
      split; [reflexivity|]. left. apply Hreason. eauto.
    + destruct (trySubstituteNamespaceExportedName node s)
        as [exportedName s1|message] eqn:Hexported.
      * destruct exportedName as [exportedName|].
        -- destruct (trySubstituteNamespaceExportedName_guard node _ _ _ Hexported)
             as (-> & Hnonzero).
           rewrite (bind_step _ _ _ _ _ Hexported).
           eexists. split; [reflexivity|]. intros _. left.
           split; [reflexivity|]. right. exact Hnonzero.
        -- assert (s1 = s) as ->.
           { revert Hexported.
             unfold trySubstituteNamespaceExportedName, bind, gets, ret.
             repeat match goal with
                    | |- context [match ?x with _ => _ end] => destruct x
                    end; congruence. }
           rewrite (bind_step _ _ _ _ _ Hexported).
           eexists. split; [reflexivity | simpl; congruence].
      * revert Hexported.
        unfold trySubstituteNamespaceExportedName, bind, gets, ret.
        repeat match goal with
               | |- context [match ?x with _ => _ end] => destruct x
               end; discriminate.
  - destruct (Haccess (or_introl eq_refl)) as (e & Hrun & Hreason).
    exists e. split; [exact Hrun|]. intros Hchanged. right.
    split; [left; reflexivity | exact (Hreason Hchanged)].
  - destruct (Haccess (or_intror eq_refl)) as (e & Hrun & Hreason).
    exists e. split; [exact Hrun|]. intros Hchanged. right.
    split; [right; reflexivity | exact (Hreason Hchanged)].
Qed.

(** *** Further properties: namespaces, elided declarations, parameter properties *)

(** X25. The body of a namespace is visited inside the namespace and in
    a scope of its own, and the enclosing namespace comes back.
    Whatever the visitors do, when [transformModuleBody] returns, the
    current namespace, its container name and the first declarations of
    the enclosing scope are what they were at its entry. For a body that
    is a module block, the statements are visited with the namespace as
    current namespace, [namespaceLocalName] as its container, the block as
    lexical scope and no first declarations; and the lexical scope of the
    caller is back afterwards. *)
Theorem transformModuleBody_restores_namespace
    (visitNested : ModuleDeclaration -> M Ctx (VisitResult Statement))
    (node : Node) (body : ModuleBody) (namespaceLocalName : Expression)
    (s s' : TransformerState Ctx) (result : Statement) :
  transformModuleBody visitNested node body namespaceLocalName s
  = Returned result s' ->
  currentNamespace s' = currentNamespace s
  /\ currentNamespaceContainerName s' = currentNamespaceContainerName s
  /\ currentScopeFirstDeclarationsOfName s'
     = currentScopeFirstDeclarationsOfName s
  /\ forall moduleBlock,
       body = ModuleBlockBody moduleBlock ->
       currentLexicalScope s' = currentLexicalScope s
       /\ exists statements s1 s2,
            visitNamespaceElements walk (block_statements moduleBlock) s1
            = Returned statements s2
            /\ currentNamespace s1 = Some (node_id node)
            /\ currentNamespaceContainerName s1 = Some namespaceLocalName
            /\ currentLexicalScope s1
               = Some {| scope_id := block_id moduleBlock;
                         scope_kind := SyntaxKind.ModuleBlock |}
            /\ currentScopeFirstDeclarationsOfName s1 = None.
Proof.
  intros Hrun. unfold transformModuleBody in Hrun.
  unfold bind at 1, gets at 1 in Hrun.
  unfold bind at 1, gets at 1 in Hrun.
  unfold bind at 1, gets at 1 in Hrun.
  unfold bind at 1 2 3 4, modify at 1 2 3, onContext at 1, modify at 1 in Hrun.
  apply bind_returned in Hrun as (statements & s3 & Hbody & Hrun).
  unfold bind, fromContext, modify, ret in Hrun. injection Hrun as _ <-.
  split; [reflexivity|]. split; [reflexivity|]. split; [reflexivity|].
  intros moduleBlock ->.
  unfold saveStateAndInvoke, onBeforeVisitNode, blockNode in Hbody.
  simpl in Hbody.
  unfold bind at 1, gets at 1 in Hbody.
  unfold bind at 1, gets at 1 in Hbody.
  unfold bind at 1, gets at 1 in Hbody.
  unfold bind at 1, gets at 1 in Hbody.
  unfold bind at 1 2 3, modify at 1 2 3 in Hbody.
  apply bind_returned in Hbody as (visited & s2 & Hvisit & Hbody).
  unfold bind, gets, modify, ret in Hbody.
  destruct (scope_differs _ _) in Hbody; injection Hbody as _ <-;
    (split; [reflexivity|]);
    eexists; eexists; eexists; (split; [exact Hvisit|]);
    repeat split; reflexivity.
Qed.

(** X26. An elided declaration is not a first declaration. A const enum
    that is not preserved and a namespace that is not instantiated are
    replaced by a not-emitted statement without recording their name or
    changing anything else, so that a later enum or namespace of the same
    name in the scope still gets the plain variable statement. *)
Theorem elided_declarations_are_not_recorded (later : Node)
    (laterModifiers : list Modifier) (name : string) (scope : LexicalScope)
    (s : TransformerState Ctx) :
  node_name later = Some (inl name) ->
  currentLexicalScope s = Some scope ->
  firstDeclarationOfName name s = None ->
  exists visitedModifiers s',
    addVarForEnumOrModuleDeclaration [] later laterModifiers s
    = Returned ([leadingVariableStatement visitedModifiers later scope], true) s'
    /\ (forall enum : EnumDeclaration,
          shouldEmitEnumDeclaration enum = false ->
          (statement <- visitEnumDeclaration enum ;;
           added <- addVarForEnumOrModuleDeclaration [] later laterModifiers ;;
           ret (statement, added)) s
          = Returned
              (Single (NotEmittedStatement (node_id (enum_node enum))),
               ([leadingVariableStatement visitedModifiers later scope], true))
              s')
    /\ (forall namespace : ModuleDeclaration,
          shouldEmitModuleDeclaration namespace = false ->
          (statement <- visitModuleDeclaration namespace ;;
           added <- addVarForEnumOrModuleDeclaration [] later laterModifiers ;;
           ret (statement, added)) s
          = Returned
              (Single (NotEmittedStatement (node_id (module_node namespace))),
               ([leadingVariableStatement visitedModifiers later scope], true))
              s').
Proof.
  intros Hname Hscope Hfresh.
  destruct (addVarForEnumOrModuleDeclaration_first [] later laterModifiers name
              scope s Hname Hscope Hfresh)
    as (visitedModifiers & s' & Hadd & _).
  exists visitedModifiers, s'. split; [exact Hadd|]. split.
  - intros enum Helided.
    assert (Hvisit : visitEnumDeclaration enum s
                     = Returned
                         (Single (NotEmittedStatement (node_id (enum_node enum)))) s).
    { unfold visitEnumDeclaration. rewrite Helided. reflexivity. }
    rewrite (bind_step _ _ _ _ _ Hvisit), (bind_step _ _ _ _ _ Hadd).
    reflexivity.
  - intros namespace Helided.
    assert (Hvisit : visitModuleDeclaration namespace s
                     = Returned
                         (Single (NotEmittedStatement
                                    (node_id (module_node namespace)))) s).
    { destruct namespace as [n modifiers body]. simpl.
      rewrite Helided. reflexivity. }
    rewrite (bind_step _ _ _ _ _ Hvisit), (bind_step _ _ _ _ _ Hadd).
    reflexivity.
Qed.

(** X27. Parameter properties are declared and assigned alike. For a
    class whose first constructor with a body is [constructor], the
    property declarations that [transformClassMembers] puts in front of the
    visited members, and the assignments [this.x = x] that
    [transformConstructorBody] makes from the parameter properties, name the
    same properties in the same order: the parameter properties whose name
    is an identifier. *)
Theorem parameter_properties_are_declared_and_assigned (node : ClassDeclaration)
    (constructor : ClassElement) (members : list ClassElementOut)
    (s s' : TransformerState Ctx) :
  getFirstConstructorWithBody util node = Some constructor ->
  transformClassMembers node s = Returned members s' ->
  exists created visited,
    members = created ++ visited
    /\ visitClassElements walk (class_members node) s = Returned visited s'
    /\ map createdPropertyName created
       = map assignedPropertyName
           (omap transformParameterWithPropertyAssignment
              (parameterProperties constructor))
    /\ Forall (fun name => is_Some name) (map createdPropertyName created)
    /\ length created
       = length (List.filter
                   (fun p => match parameter_name p with
                             | BindingIdentifier _ => true
                             | BindingPattern _ => false
                             end)
                   (parameterProperties constructor)).
Proof.
  intros Hconstructor Hrun. unfold transformClassMembers in Hrun.
  rewrite Hconstructor in Hrun.
  apply bind_returned in Hrun as (visited & s1 & Hvisit & Hrun).
  injection Hrun as <- <-.
  eexists. exists visited. split; [reflexivity|]. split; [exact Hvisit|].
  fold (parameterProperties constructor).
  induction (parameterProperties constructor) as [|p properties IH];
    [repeat split; constructor|].
  destruct IH as (Hnames & Hsome & Hlength).
  unfold transformParameterWithPropertyAssignment at 1.
  simpl. destruct (parameter_name p) as [text|pattern]; simpl.
  - rewrite String.eqb_refl. repeat split.
    + f_equal. exact Hnames.
    + constructor; [eauto | exact Hsome].
    + f_equal. exact Hlength.
  - repeat split; assumption.
Qed.
End Transformer.

(** ** The properties on the small host *)

Import Sample.

(** C4 at a concrete input: a block visited from the file scope. *)
Lemma saveStateAndInvoke_restores_witness :
  exists s',
    saveStateAndInvoke plainUtil someBlock (fun n => ret n) initialState
    = Returned someBlock s'
    /\ currentLexicalScope s' = currentLexicalScope initialState
    /\ currentNameScope s' = currentNameScope initialState
    /\ currentClassHasParameterProperties s'
       = currentClassHasParameterProperties initialState
    /\ currentScopeFirstDeclarationsOfName s'
       = currentScopeFirstDeclarationsOfName initialState.
Proof.
  edestruct (saveStateAndInvoke_restores plainUtil someBlock
               (fun n => ret n) initialState)
    as (s' & Hrun & Hscope & Hname & Hflag & Hmap & _);
    [reflexivity | reflexivity |].
  exists s'. repeat split; assumption.
Defined.

(** C4, the claim as stated, fails. With the scope unchanged (a class
    declaration visited in the file scope) the map is not set back to the
    captured value: it keeps the name that [onBeforeVisitNode] recorded. With
    the scope changed (a block) the map is not discarded: the captured map
    of the enclosing scope is back. *)
Lemma merge_map_restored_only_on_scope_change :
  (exists s',
      saveStateAndInvoke plainUtil (class_node decoratedClass) (fun n => ret n)
        initialState
      = Returned (class_node decoratedClass) s'
      /\ currentScopeFirstDeclarationsOfName initialState = None
      /\ currentScopeFirstDeclarationsOfName s' = Some (<["C" := 10%positive]> ∅)
      /\ currentScopeFirstDeclarationsOfName s'
         <> currentScopeFirstDeclarationsOfName initialState)
  /\ (exists s',
         saveStateAndInvoke plainUtil someBlock (fun n => ret n) stateAfterFirstEnum
         = Returned someBlock s'
         /\ currentScopeFirstDeclarationsOfName s'
            = Some (<["N" := 50%positive]> ∅)
         /\ currentScopeFirstDeclarationsOfName s' <> None).
Proof.
  split.
  - eexists. split; [reflexivity|]. repeat split. discriminate.
  - eexists. split; [reflexivity|]. repeat split. discriminate.
Qed.

(** C9 at a concrete input. *)
Lemma transformSourceFile_declaration_file_witness :
  isDeclarationFile declarationFile = true
  /\ transformSourceFile es2015 plainUtil context walk declarationFile initialState
     = Returned (SameSourceFile declarationFile) initialState.
Proof.
  split; [reflexivity|].
  apply (transformSourceFile_declaration_file es2015 plainUtil context walk
           declarationFile initialState).
  reflexivity.
Defined.

(** C2 at a concrete input: [B = "b"] gets the forward assignment only. *)
Lemma transformEnumMember_assignments_witness :
  transformEnumMember plainResolver plainUtil context walk enumMember_B
    stateInEnumBody
  = Returned
      (ExpressionStatement
         (createAssignment
            (ElementAccessExpression (GeneratedIdentifier (GeneratedNameForNode 60))
               (StringLiteral "B"))
            (StringLiteral "b"))
         None)
      stateInEnumBody.
Proof.
  apply (transformEnumMember_assignments plainResolver plainUtil context walk
           enumMember_B stateInEnumBody stateInEnumBody (StringLiteral "b")
           (GeneratedIdentifier (GeneratedNameForNode 60)));
    reflexivity.
Defined.

(** C10 at a concrete input: the member [A] of [enum N { A }]. *)
Lemma transformEnumMemberDeclarationValue_void_zero_witness :
  exists s',
    transformEnumMemberDeclarationValue plainResolver context walk enumMember_A
      stateInEnumBody
    = Returned createVoidZero s'
    /\ hasFlag (enabledSubstitutions s')
         TypeScriptSubstitutionFlags.NonQualifiedEnumMembers = true.
Proof.
  destruct (transformEnumMemberDeclarationValue_void_zero plainResolver plainUtil
              context walk enumMember_A stateInEnumBody eq_refl eq_refl)
    as (s' & Hvalue & Henabled & _).
  exists s'. split; assumption.
Defined.

(** C8 at concrete inputs: a constructor and a function without a body. *)
Lemma bodyless_declarations_are_elided_witness :
  visitConstructor plainUtil context walk bodylessConstructor initialState
  = Returned None initialState
  /\ visitFunctionDeclaration plainUtil Sample.factory walk bodylessFunction initialState
     = Returned (Single (NotEmittedStatement 46)) initialState.
Proof.
  destruct (bodyless_declarations_are_elided plainUtil Sample.factory context walk
              initialState)
    as [Hmembers Hfunctions].
  split.
  - apply (Hmembers bodylessConstructor). reflexivity.
  - apply (Hfunctions bodylessFunction). reflexivity.
Defined.

(** C8, the claim as stated, fails on a getter that has no body and is not
    abstract: it is emitted, with an empty block as its body. *)
Lemma bodyless_accessor_is_emitted :
  nodeIsMissing plainUtil (member_body bodylessGetter) = true
  /\ visitGetAccessor plainUtil context walk bodylessGetter initialState
     = Returned
         (Some (GetAccessorOut [] (VisitedPropertyName (Visited 44)) []
                  (BlockStatement [] None) 41))
         initialState.
Proof. split; reflexivity. Qed.





(** C7 at a concrete input: a decorated class that the resolver marks gets
    an alias. *)
Lemma class_alias_iff_constructor_decorators_witness :
  exists result s',
    visitClassDeclaration markingResolver es2015 plainUtil Sample.factory context walk
      decoratedClass initialState
    = Returned result s'
    /\ is_Some (classAliasOf 10 s').
Proof.
  eexists. eexists. split; [vm_compute; reflexivity|].
  eapply (class_alias_iff_constructor_decorators markingResolver es2015 plainUtil
            Sample.factory context walk decoratedClass initialState).
  - intros e. apply Preserves_ret.
  - intros hs. apply Preserves_ret.
  - intros ms. apply Preserves_ret.
  - intros c. apply Preserves_ret.
  - reflexivity.
  - vm_compute; reflexivity.
  - repeat split; reflexivity.
Defined.

(** C7, the claim as stated, fails: a class that the resolver marks and
    that is wrapped in a function for ES5, but has no constructor
    decorators, gets no alias. *)
Lemma wrapped_class_without_constructor_decorators_has_no_alias :
  hasClassWithConstructorReference markingResolver
    (node_id (class_node undecoratedClass)) = true
  /\ exists statements declarations s',
       visitClassDeclaration markingResolver es5 plainUtil Sample.factory context walk
         undecoratedClass initialState
       = Returned
           (Single (classWrapper plainUtil Sample.factory undecoratedClass
                      statements declarations))
           s'
       /\ classAliases s' = None.
Proof.
  split; [reflexivity|].
  exists [ClassDeclarationStatement [] (Some (Identifier "D")) []
            [SourceClassElement 31] 30],
    None.
  eexists. split; [vm_compute; reflexivity|]. reflexivity.
Qed.


(** ** The further properties on the small host *)

(** X2 at a concrete input: [enum N] is recorded in a scope that has no
    declaration yet, and is the first of its name. *)
Lemma isFirstEmittedDeclarationInScope_after_record_witness :
  exists s',
    (recordEmittedDeclarationInScope (enum_node firstEnum) ;;;
     isFirstEmittedDeclarationInScope (enum_node firstEnum)) initialState
    = Returned true s'.
Proof.
  apply (isFirstEmittedDeclarationInScope_after_record (enum_node firstEnum) "N"
           initialState).
  reflexivity.
Defined.

(** X3 at a concrete input: [namespace C] after [class C]. *)
Lemma declaration_merges_with_earlier_class_or_function_witness :
  let scope := {| scope_id := 1; scope_kind := SyntaxKind.SourceFile |} in
  exists s' visitedModifiers,
    saveStateAndInvoke plainUtil (class_node decoratedClass) (fun n => ret n)
      initialState
    = Returned (class_node decoratedClass) s'
    /\ firstDeclarationOfName "C" s' = Some 10%positive
    /\ addVarForEnumOrModuleDeclaration plainUtil Sample.factory [] namespaceC [] s'
       = Returned
           ([MergeDeclarationMarker
               (leadingVariableStatement Sample.factory visitedModifiers
                  namespaceC scope)],
            false)
           s'.
Proof.
  intros scope.
  apply (declaration_merges_with_earlier_class_or_function plainUtil Sample.factory
           (class_node decoratedClass) namespaceC [] "C" scope (fun n => ret n)
           (class_node decoratedClass) initialState).
  - left. reflexivity.
  - reflexivity.
  - reflexivity.
  - reflexivity.
  - discriminate.
  - reflexivity.
  - reflexivity.
  - intros s1. exists s1. repeat split.
Defined.

(** X5 at a concrete input: the class [C], which the resolver marks, gets
    its alias in the initial state. *)
Lemma getClassAliasIfNeeded_keeps_other_aliases_witness :
  exists result s',
    getClassAliasIfNeeded markingResolver plainUtil context decoratedClass initialState
    = Returned result s'
    /\ aliasesTracked s'
    /\ (exists text autoGenerateId,
          result = Some (GeneratedIdentifier (UniqueName text autoGenerateId))
          /\ classAliasOf 10 s' = result
          /\ hasFlag (enabledSubstitutions s')
               TypeScriptSubstitutionFlags.ClassAliases = true)
    /\ forall other, other <> 10%positive ->
         classAliasOf other s' = classAliasOf other initialState.
Proof.
  apply (getClassAliasIfNeeded_keeps_other_aliases markingResolver plainUtil context
           decoratedClass initialState).
  split; [intros [aliases [=]] | discriminate].
Defined.

(** X8 at a concrete input: the decorated overload [@d m();]. *)
Lemma decorators_of_bodyless_member_are_dropped_witness :
  generateClassElementDecorationExpression plainResolver es2015 plainUtil
    Sample.factory context walk decoratedClass overload_m initialState
  = Returned None initialState.
Proof.
  apply (decorators_of_bodyless_member_are_dropped plainResolver es2015 plainUtil
           Sample.factory context walk decoratedClass overload_m initialState).
  - discriminate.
  - reflexivity.
Defined.

(** X9 at a concrete input: the metadata of the method [m]. *)
Lemma addOldTypeMetadata_keys_witness :
  exists result s',
    addOldTypeMetadata plainResolver withMetadata plainUtil context
      (DecoratedMember method_m) decoratedClass [] initialState
    = Returned result s'
    /\ exists added,
         result = [] ++ added
         /\ map metadataKey added
            = [Some "design:type"; Some "design:paramtypes";
               Some "design:returntype"].
Proof.
  eexists. eexists. split; [vm_compute; reflexivity|].
  eapply (addOldTypeMetadata_keys plainResolver withMetadata plainUtil context
            (DecoratedMember method_m) decoratedClass [] _ initialState).
  vm_compute. reflexivity.
Defined.


(** X11 at a concrete input: the body of [enum N { A }]. *)
Lemma transformEnumBody_members_in_order_witness :
  let container := GeneratedIdentifier (GeneratedNameForNode 50) in
  exists body s',
    transformEnumBody plainResolver plainUtil context walk firstEnum container
      initialState
    = Returned body s'
    /\ currentNamespaceContainerName s' = None
    /\ exists declarations members,
         body = BlockStatement
                  (insertStatementsAfterStandardPrologue plainUtil [] declarations
                   ++ members)
                  None
         /\ Forall2 (fun member statement =>
                       exists value,
                         statement
                         = enumMemberStatement plainUtil container member value)
              [enumMember_A] members.
Proof.
  intros container. eexists. eexists. split; [vm_compute; reflexivity|].
  eapply (transformEnumBody_members_in_order plainResolver plainUtil context walk
            firstEnum container initialState).
  - intros e. apply Preserves_ret.
  - vm_compute. reflexivity.
Defined.

(** X12 at a concrete input: the annotation [string | number]. *)
Lemma serializeTypeNode_changes_only_the_context_witness :
  exists e s',
    serializeTypeNode plainResolver es2015 context
      (Some (UnionType disagreeingUnion)) initialState
    = Returned e s'
    /\ s' = set_ctx (ctx s') initialState.
Proof.
  eexists. eexists. split; [vm_compute; reflexivity|].
  eapply (serializeTypeNode_changes_only_the_context plainResolver es2015 context
            (Some (UnionType disagreeingUnion)) initialState).
  vm_compute. reflexivity.
Defined.

(** X15 at a concrete input: a file with two statements. *)
Lemma transformSourceFile_leaves_no_current_file_witness :
  exists result s',
    transformSourceFile es2015 plainUtil context walk sourceFile stateAfterFirstEnum
    = Returned result s'
    /\ currentSourceFile s' = None
    /\ currentLexicalScope s' = currentLexicalScope stateAfterFirstEnum
    /\ currentNameScope s' = None
    /\ currentClassHasParameterProperties s' = None.
Proof.
  eexists. eexists. split; [vm_compute; reflexivity|].
  edestruct (transformSourceFile_leaves_no_current_file es2015 plainUtil context walk
               sourceFile stateAfterFirstEnum)
    as (Hfile & Hscope & Hname & Hflag & _);
    [reflexivity | vm_compute; reflexivity |].
  repeat split; assumption.
Defined.

(** X17 at a concrete input: of [import d, { a, type b, c } from "m"],
    with only [a] referenced, [{ a }] is kept. *)
Lemma visitImportDeclaration_keeps_referenced_specifiers_witness :
  exists clauseOut s',
    visitImportDeclaration (moduleOptionsWith None) (references [104%positive])
      importOfM initialState
    = Returned (Some (UpdatedImportDeclaration importOfM (Some clauseOut))) s'
    /\ clause_name clauseOut = None
    /\ clause_namedBindings clauseOut
       = Some (UpdatedNamedImports 103
                 [{| importSpecifier_id := 104;
                     importSpecifier_isTypeOnly := false |}])
    /\ exists clause,
         importClause importOfM = Some clause
         /\ importOfM = importOfM
         /\ clause_original clauseOut = importClause_id clause
         /\ (is_Some (clause_name clauseOut) ->
             shouldEmitAliasDeclaration (moduleOptionsWith None)
               (references [104%positive]) (importClause_id clause) = true
             /\ clause_name clauseOut = importClause_name clause)
         /\ forall id elements,
              clause_namedBindings clauseOut = Some (UpdatedNamedImports id elements) ->
              exists sourceElements,
                importClause_namedBindings clause
                = Some (NamedImports id sourceElements)
                /\ elements
                   = List.filter
                       (isKeptImportSpecifier (moduleOptionsWith None)
                          (references [104%positive]))
                       sourceElements.
Proof.
  eexists. eexists. split; [vm_compute; reflexivity|].
  split; [reflexivity|]. split; [reflexivity|].
  eapply (visitImportDeclaration_keeps_referenced_specifiers (moduleOptionsWith None)
            (references [104%positive]) importOfM importOfM _ initialState).
  vm_compute. reflexivity.
Defined.

(** X19 at a concrete input: with nothing referenced, under [error],
    [import d, { a, type b, c } from "m"] is kept as [import "m"] and
    [import x = require("m")] is dropped. *)
Lemma unreferenced_imports_under_preserve_and_error_witness :
  visitImportDeclaration (moduleOptionsWith (Some ImportsNotUsedAsValues.Error))
    (references []) importOfM initialState
  = Returned (Some (UpdatedImportDeclaration importOfM None)) initialState
  /\ visitImportEqualsDeclaration plainUtil
       (moduleOptionsWith (Some ImportsNotUsedAsValues.Error)) (references [])
       moduleWalk importEqualsOfExternalModule initialState
     = Returned None initialState.
Proof.
  eapply (unreferenced_imports_under_preserve_and_error plainUtil
            (moduleOptionsWith (Some ImportsNotUsedAsValues.Error)) (references [])
            moduleWalk importOfM _ importEqualsOfExternalModule 111 initialState);
    reflexivity.
Defined.

(** X20 at a concrete input: [import y = a.b], not referenced, in a file
    that is not an external module becomes [var y = a.b]. *)
Lemma visitImportEqualsDeclaration_of_entity_name_witness :
  exists modifiers,
    visitNodes_modifierVisitor plainUtil [] initialState
    = Returned modifiers initialState
    /\ visitImportEqualsDeclaration plainUtil (moduleOptionsWith None) (references [])
         moduleWalk importEqualsOfEntityName initialState
       = Returned
           (Some (ImportEqualsStatement
                    (VariableStatement modifiers
                       [(Identifier "y",
                         Some (PropertyAccessExpression (Identifier "a")
                                 (Identifier "b")))]
                       NodeFlags_None (Some 112%positive))))
           initialState.
Proof.
  apply (visitImportEqualsDeclaration_of_entity_name plainUtil (moduleOptionsWith None)
           (references []) moduleWalk importEqualsOfEntityName
           (QualifiedName (EntityIdentifier "a") "b") 1 initialState);
    reflexivity.
Defined.

(** X21 at a concrete input: the alias of the class [C] replaces the
    reference to [C] from inside the class. *)
Lemma class_alias_is_substituted_witness :
  exists alias s',
    getClassAliasIfNeeded markingResolver plainUtil context decoratedClass initialState
    = Returned (Some alias) s'
    /\ trySubstituteClassAlias (references []) referenceToC s'
       = Returned (Some alias) s'
    /\ substituteExpression markingResolver (moduleOptionsWith None) (references [])
         referenceToC s'
       = Returned alias s'.
Proof.
  eexists. eexists. split; [vm_compute; reflexivity|].
  eapply (class_alias_is_substituted markingResolver plainUtil context
            (moduleOptionsWith None) (references []) decoratedClass referenceToC _
            initialState);
    [vm_compute; reflexivity | reflexivity ..].
Defined.

(** X22 at a concrete input: inside [M], the reference to its exported
    member is qualified. *)
Lemma trySubstituteNamespaceExportedName_is_guarded_witness :
  trySubstituteNamespaceExportedName (references []) referenceToMemberOfM stateInsideM
  = Returned (Some (qualifiedExportedName namespaceM referenceToMemberOfM))
      stateInsideM
  /\ applicableSubstitutions stateInsideM <> 0
  /\ exists container,
       getReferencedExportContainer (references []) 130 = Some container
       /\ qualifiedExportedName namespaceM referenceToMemberOfM
          = qualifiedExportedName container referenceToMemberOfM.
Proof.
  split; [reflexivity|].
  destruct (trySubstituteNamespaceExportedName_is_guarded (references [])
              referenceToMemberOfM
              (qualifiedExportedName namespaceM referenceToMemberOfM)
              stateInsideM stateInsideM eq_refl)
    as (_ & _ & _ & Happlicable & container & Hcontainer & Hname & _).
  split; [exact Happlicable|]. exists container. split; assumption.
Defined.

(** X23 at a concrete input: the emit of the lowered namespace [M] by a
    printer hook that does nothing. *)
Lemma exported_names_are_qualified_inside_a_namespace_witness :
  exists s',
    onEmitNode (fun _ => ret tt) loweredNamespaceM stateOutsideM = Returned tt s'
    /\ applicableSubstitutions s' = 0
    /\ currentSourceFile s' = Some 1%positive
    /\ exists s1 s2 : TransformerState Sample.Context,
         ret tt s1 = Returned tt s2
         /\ trySubstituteNamespaceExportedName (references []) referenceToMemberOfM s1
            = Returned (Some (qualifiedExportedName namespaceM referenceToMemberOfM))
                s1.
Proof.
  eexists. split; [vm_compute; reflexivity|].
  eapply (exported_names_are_qualified_inside_a_namespace (references [])
            (fun _ => ret tt) loweredNamespaceM referenceToMemberOfM namespaceM
            stateOutsideM);
    reflexivity.
Defined.

(** X24 at a concrete input: outside of every namespace, and with no
    class alias enabled, the reference to the member of [M] is left alone. *)
Lemma substituteExpression_is_identity_without_reason_witness :
  exists e,
    substituteExpression plainResolver (moduleOptionsWith None) (references [])
      referenceToMemberOfM initialState
    = Returned e initialState
    /\ (e <> SourceExpression 130 ->
        (SyntaxKind.Identifier = SyntaxKind.Identifier
         /\ (hasFlag 0 TypeScriptSubstitutionFlags.ClassAliases = true \/ 0 <> 0))
        \/ ((SyntaxKind.Identifier = SyntaxKind.PropertyAccessExpression
             \/ SyntaxKind.Identifier = SyntaxKind.ElementAccessExpression)
            /\ false = false
            /\ is_Some (getConstantValue plainResolver 130))).
Proof.
  apply (substituteExpression_is_identity_without_reason plainResolver
           (moduleOptionsWith None) (references []) referenceToMemberOfM initialState).
  split; [intros [aliases [=]] | discriminate].
Defined.

(** X25 at a concrete input: the body of [namespace M] visited from the
    file scope. *)
Lemma transformModuleBody_restores_namespace_witness :
  exists result s',
    transformModuleBody plainUtil context walk (fun _ => ret Undefined) namespaceM
      (ModuleBlockBody bodyOfM) (GeneratedIdentifier (GeneratedNameForNode 90))
      stateAfterFirstEnum
    = Returned result s'
    /\ currentNamespace s' = None
    /\ currentNamespaceContainerName s' = None
    /\ currentScopeFirstDeclarationsOfName s' = Some (<["N" := 50%positive]> ∅)
    /\ currentLexicalScope s' = currentLexicalScope stateAfterFirstEnum.
Proof.
  eexists. eexists. split; [vm_compute; reflexivity|].
  edestruct (transformModuleBody_restores_namespace plainUtil context walk
               (fun _ => ret Undefined) namespaceM (ModuleBlockBody bodyOfM)
               (GeneratedIdentifier (GeneratedNameForNode 90)) stateAfterFirstEnum)
    as (Hnamespace & Hcontainer & Hmap & Hblock);
    [vm_compute; reflexivity|].
  destruct (Hblock bodyOfM eq_refl) as [Hscope _].
  repeat split; assumption.
Defined.

(** X26 at a concrete input: [const enum K] is elided, and the [enum K]
    that follows it gets the plain variable statement. *)
Lemma elided_declarations_are_not_recorded_witness :
  let scope := {| scope_id := 1; scope_kind := SyntaxKind.SourceFile |} in
  exists visitedModifiers s',
    (statement <- visitEnumDeclaration plainResolver es2015 utilWithConstEnums
                    Sample.factory context walk constEnumK ;;
     added <- addVarForEnumOrModuleDeclaration utilWithConstEnums Sample.factory
                [] laterEnumK [] ;;
     ret (statement, added)) initialState
    = Returned
        (Single (NotEmittedStatement 160),
         ([leadingVariableStatement Sample.factory visitedModifiers laterEnumK scope],
          true))
        s'.
Proof.
  intros scope.
  destruct (elided_declarations_are_not_recorded plainResolver es2015
              utilWithConstEnums Sample.factory context walk laterEnumK [] "K" scope
              initialState eq_refl eq_refl eq_refl)
    as (visitedModifiers & s' & _ & Henum & _).
  exists visitedModifiers, s'. apply (Henum constEnumK). reflexivity.
Defined.

(** X27 at a concrete input: of [constructor(public x, public [y]) {}]
    only [x] is declared and assigned. *)
Lemma parameter_properties_are_declared_and_assigned_witness :
  exists members s',
    transformClassMembers utilWithParameterProperties walk classP initialState
    = Returned members s'
    /\ exists created visited,
         members = created ++ visited
         /\ visitClassElements walk (class_members classP) initialState
            = Returned visited s'
         /\ map createdPropertyName created = [Some "x"]
         /\ Forall (fun name => is_Some name) (map createdPropertyName created)
         /\ length created = 1%nat.
Proof.
  eexists. eexists. split; [vm_compute; reflexivity|].
  eapply (parameter_properties_are_declared_and_assigned utilWithParameterProperties
            walk classP constructorOfP _ initialState);
    [reflexivity | vm_compute; reflexivity].
Defined.

(** X28 at a concrete input: of the pair [@d get v() {}] and
    [@d set v(a) {}] the getter, which comes first, is decorated. *)
Lemma accessor_pair_is_decorated_once_witness :
  is_Some (getAllDecoratorsOfAccessors utilWithPair classWithPair getter_v)
  /\ is_Some (member_body getter_v)
  /\ getAllDecoratorsOfAccessors utilWithPair classWithPair setter_v = None.
Proof.
  split; [eexists; reflexivity|].
  eapply (accessor_pair_is_decorated_once utilWithPair classWithPair getter_v
            setter_v);
    [reflexivity | discriminate | reflexivity].
Defined.

(** X29 at a concrete input: [string | null] serializes to [String]
    without [strictNullChecks] and to [Object] with it. *)
Lemma serializeTypeList_of_nullable_witness :
  serializeTypeNode plainResolver es2015 context
    (Some (UnionType [StringKeyword; LiteralType LitNullKeyword])) initialState
  = Returned (Identifier "String") initialState
  /\ serializeTypeNode plainResolver (options ES2015 true false) context
       (Some (UnionType [StringKeyword; LiteralType LitNullKeyword])) initialState
     = Returned (Identifier "Object") initialState.
Proof.
  split.
  - apply (serializeTypeList_of_nullable plainResolver es2015 context StringKeyword
             (Identifier "String") initialState initialState);
      reflexivity.
  - apply (serializeTypeList_of_nullable plainResolver (options ES2015 true false)
             context StringKeyword (Identifier "String") initialState initialState);
      reflexivity.
Defined.
